(* ===== verification/_CoqProject ===== *)
-Q . S2P
Prelude.v
PyStr.v
PyExn.v
Json.v
PyObj.v
World.v
Clock.v
Models.v
Prompts.v
Clean.v
Structure.v
Mappings.v
CustomerId.v
Validation.v
ActionPlan.v
Payout.v
Utils.v
Policy.v
Chat.v
Routers.v
App.v
Status.v
Server.v
