(* ===== verification/Prelude.v ===== *)
(** * A verification development for the insurance-claim backend

    The repository is a FastAPI service (src/backend/) that sends prompts to
    a hosted generative model and turns the model's untrusted free text into
    typed records.  The development is a shallow embedding: a Python
    function is a Rocq function, a Python exception is a value of the type
    [exn], and code that calls the model, reads the clock, prints or
    touches files runs in an explicit state/exception monad [PyM World]
    whose state is the [World] of [World.v].

    ** How the program's parts interact

    routers.py receives the requests and calls the services of
    services.py; the services build prompts (prompts.py and f-strings),
    call the model, clean and decode its JSON answer, and validate it into
    the pydantic models of models.py, with a fallback value when anything
    raises; utils.py extracts the text of uploads; config.py and main.py
    start the application.

    ** Files (in dependency order) and what they model

    - [Prelude.v]: code points, string literals ([u "..."], decoded from
      UTF-8, with [~] standing for the double quote), the [pyauto] hint
      database, tactics, list helpers.
    - [PyStr.v]: the str methods the code uses (strip, split, join,
      replace, startswith, str(int), int(str) with the 4300-digit limit,
      UTF-8 encoding and strict decoding as CPython reports its errors).
    - [PyExn.v]: exceptions with the class tests of [except] clauses, the
      monad [PyM] ([raise], [try_excepts]), and a small program logic:
      [ensures P m] (what [m] returns satisfies [P]) and [returns P m]
      ([m] never raises and its value satisfies [P]), with run lemmas.
    - [Json.v]: json.loads (the CPython 3.11 scanner, exact error messages
      and positions, fuel twice the text length plus one, proved never
      exhausted) and json.dumps with its options.
    - [PyObj.v]: dict.get, [in], item assignment, slicing, iteration,
      [Model( **d)] keyword passing, repr and str of values.
    - [World.v]: the environment of oracles (model answers by call
      number, clock by reading number, python-docx, PIL) and the mutable
      world (calls made, clock readings, stdout, files, directories,
      temporary files); sample environments for the witnesses.
    - [Clock.v]: datetime.now() texts (timestamp, isoformat, strftime),
      with the process taken to run in UTC.
    - [Models.v]: models.py, one Module per enum or pydantic model, lax
      validation ([fields], [validate]) and dumps.
    - [Prompts.v]: prompts.py and every f-string prompt of services.py,
      character for character.
    - [Clean.v] (_clean_json_response), [Structure.v]
      (structure_content_with_ai), [Mappings.v] (create_mappings_with_ai),
      [CustomerId.v] (extract_customer_id_with_ai), [Validation.v]
      (validate_claim_with_ai), [ActionPlan.v]
      (suggest_action_plan_with_ai), [Payout.v]
      (calculate_payout_from_text, its regex searches and output file),
      [Utils.v] (utils.py), [Policy.v] (fetch_insurance_policy),
      [Chat.v] (get_chat_response, verify_claim_with_image): one
      Definition per handler, with its helpers, in the source's order of
      evaluation (the [try] body is a separate Definition [..._try]).
    - [Routers.v]: every endpoint of routers.py over the services.
    - [App.v]: config.py start-up (key check, masked log) and main.py
      (root endpoint, route table under /api).
    - [Status.v]: the logic [raises Q m] (every exception [m] raises
      satisfies [Q]) and, service by service and endpoint by endpoint,
      the exceptions that escape.
    - [Server.v]: the process: [load_dotenv] (python-dotenv on the parsed
      [.env] bindings), config.py and main.py run as a script
      ([run_main]), the requests of the route table ([request], [handle])
      and FastAPI's answer to an outcome ([respond]), and the process as a
      step relation [step] from [Boot] to [Exited] or [Serving], one
      request answered per step.

    ** What the theorems show

    - Never raising, by [returns]: /validate-claim, /suggest-plan and
      /full-analysis always answer, and /full-analysis's plan carries its
      verdict's claim id; create_mappings_with_ai always returns pairs of
      valid ids; extract_customer_id_with_ai always returns UNKNOWN or an
      accepted id (stripped, longer than three characters).
    - Error paths, by running the handler on a world whose model is down
      or answers a given text: the fallback verdict and plan, the 500 of
      structure_content_with_ai and of /chat, the 400s of blank or short
      input and of an unreadable image (with no model call), the 500 of
      an invalid UTF-8 upload, the leaked temporary file of a bad docx.
    - Functional behaviour and round trips: well-formed sections are kept,
      a fenced answer is cleaned back to its body, int(str(n)) = n in the
      payout amount, ClaimStatus(value) round trip, claim ids equal
      exactly within a second, the paragraph fallback's bounds, the
      success path of validate_claim_with_ai (the confidence is not
      range-checked), and the answers of a JSON string or of a string
      issue (each character a section; the whole verdict falls back).
    - The process ([Server.v]): an invariant, by rule induction on
      [star] from [Status.v]'s per-endpoint lemmas: in every state a
      started server reaches, no exception other than the code's own
      [HTTPException]s (400, 404, 500) has escaped an endpoint, so the
      plain-text "Internal Server Error" is sent only for a content
      FastAPI cannot render; and it is sent: a model verdict with a NaN
      or infinite confidence makes /full-analysis answer it.  Start-up:
      which key [python main.py] uses (the process environment's, even
      empty, before [.env]) and when it exits.
    - Lemmas of the models of the libraries, which no change of the code
      under src/ affects: the fuel of the JSON scanner is never exhausted
      ([Json.scan_once_fuel_enough]); the search behind [re.search] is
      the leftmost match ([Payout.search_first_leftmost]).
    Each theorem with hypotheses has a witness applying it on a sample
    world ([World.world_of], [World.env_answers]).

    ** Bounds and fuel

    The JSON scanner recurses on fuel [2 * length + 1], enough for every
    text ([Json.scan_fuel_sufficient]: a value needs twice its length
    plus one, the array loop one more, because it scans an item with the
    fuel it was given less one, and every scan consumes input).
    [py_split] has fuel [S (length s)], proved enough
    ([PyStr.py_split_unfold]).  Integers are Z/N: Python ints are
    unbounded; the only limit, CPython's 4300 digits for int(str), is
    modelled.

    ** Not modelled

    The hosted model, python-docx and PIL are oracles of the
    environment, over which every theorem quantifies; they are total, so
    a model call that never returns (the code sets no timeout) cannot be
    expressed.  JSON floats are exact
    decimals (no binary64 rounding: ["1e400"] is finite here, [inf] in
    CPython); pydantic error messages omit their
    input_value part and documentation URL; [re] case folding is ASCII
    only; a JSON text that cannot be encoded leaves the output file empty
    (CPython may have flushed a prefix); [os.makedirs("outputs")] cannot
    fail (CPython raises [FileExistsError] when [outputs] is a file).
    Interleaving of requests is
    not modelled: the endpoints call the model client synchronously, so
    the event loop runs one handler to its end before the next (an
    upload large enough to be spooled to disk could suspend on
    [file.read()]).  FastAPI's request parsing (422 answers), the CORS
    checks, [genai.configure], the [.env] parser with its [${VAR}]
    interpolation and uvicorn's sockets are library behaviour.
*)

From stdpp Require Export base list numbers.
From Stdlib Require Import String Ascii.
Export String.StringSyntax.

(** ** Code points and string literals *)

(** A Python [str] is a sequence of code points.  [pystr] is a notation,
    not a definition, so that stdpp's list lemmas apply without unfolding. *)
Abbreviation pychar := N (only parsing).
Abbreviation pystr := (list N) (only parsing).

Declare Scope py_scope.
Delimit Scope py_scope with py.

(** The bytes of a Rocq string literal. *)
Fixpoint lit_bytes (s : string) : list N :=
  match s with
  | EmptyString => []
  | String c r => N_of_ascii c :: lit_bytes r
  end.

(** One ASCII byte of a literal: [~] is the double quote. *)
Definition lit_ascii (b : N) : N := if N.eqb b 126 then 34 else b.

(** UTF-8 decoding of the bytes of a well-formed literal (the literals of
    the sources are valid UTF-8). *)
Fixpoint utf8_lit (bs : list N) : list N :=
  match bs with
  | [] => []
  | b0 :: r0 =>
      if N.ltb b0 128 then lit_ascii b0 :: utf8_lit r0
      else match r0 with
           | [] => []
           | b1 :: r1 =>
               if N.ltb b0 224 then ((b0 - 192) * 64 + (b1 - 128))%N :: utf8_lit r1
               else match r1 with
                    | [] => []
                    | b2 :: r2 =>
                        if N.ltb b0 240 then
                          ((b0 - 224) * 4096 + (b1 - 128) * 64 + (b2 - 128))%N :: utf8_lit r2
                        else match r2 with
                             | [] => []
                             | b3 :: r3 =>
                                 ((b0 - 240) * 262144 + (b1 - 128) * 4096
                                  + (b2 - 128) * 64 + (b3 - 128))%N :: utf8_lit r3
                             end
                    end
           end
  end.

(** [u "..."] is the Python literal written between the quotes. *)
Definition u (s : string) : pystr := utf8_lit (lit_bytes s).
Arguments u s%_string.

(** Some code points the code tests for. *)
Definition c_dquote : N := 34.
Definition c_backslash : N := 92.
Definition c_newline : N := 10.
Definition c_backtick : N := 96.

(** ** Automation shared by the development *)

Create HintDb pyauto discriminated.
#[export] Hint Constants Transparent : pyauto.

(** [invc H]: invert and clean up. *)
Ltac invc H := inversion H; clear H; subst.

(** Case on every boolean test of the goal that comes from [N.eqb],
    [N.ltb] or [N.leb], keeping the equation as a proposition. *)
Ltac case_Nb :=
  repeat match goal with
  | |- context [N.eqb ?a ?b] =>
      destruct (N.eqb_spec a b); try subst
  | |- context [N.ltb ?a ?b] => destruct (N.ltb_spec a b)
  | |- context [N.leb ?a ?b] => destruct (N.leb_spec a b)
  end.

(** Unfold the literal decoder on a closed literal. *)
Ltac lit := unfold u; cbn [lit_bytes utf8_lit lit_ascii N_of_ascii]; try reflexivity.

(** ** Lists *)

(** The sources build lists with comprehensions, i.e. [map]. *)
Lemma elem_of_map_2 {A B} (f : A -> B) (l : list A) x : x ∈ l -> f x ∈ map f l.
Proof. rewrite !list_elem_of_In. apply in_map. Qed.

Lemma elem_of_map_1 {A B} (f : A -> B) (l : list A) y : y ∈ map f l -> exists x, y = f x /\ x ∈ l.
Proof. rewrite list_elem_of_In. intros (x & <- & Hx)%in_map_iff. exists x. by rewrite list_elem_of_In. Qed.

#[export] Hint Resolve elem_of_map_2 : pyauto.

(** Decide a closed decidable proposition by evaluation. *)
Ltac decide_closed := apply (bool_decide_unpack _); vm_compute; reflexivity.
