(* ===== verification/PyStr.v ===== *)
(** * Python [str] operations used by the services

    The methods of Python's [str] that services.py calls, on strings as
    lists of code points: the whitespace test of [str.isspace] (also the
    [\s] class of the [re] module on [str] patterns), [strip], [split] and
    [join] (and [replace] through them), slicing [s[:n]], [startswith],
    [str(int)] and [int(str)].  [split] recurses on the part after the
    first separator, with fuel; [py_split_unfold] shows the fuel is never
    short, so [py_split] is the total function Python computes. *)

From S2P Require Import Prelude.
From Stdlib Require Import DecimalN.

Local Open Scope N_scope.

(** ** Character classes *)

(** [Py_UNICODE_ISSPACE]: the code points for which [str.isspace()] holds;
    [str.strip()], [int()] and the regex class [\s] all use this set. *)
Definition is_space (c : N) : bool :=
  ((9 <=? c) && (c <=? 13)) || ((28 <=? c) && (c <=? 32)) || (c =? 133) || (c =? 160)
  || (c =? 5760) || ((8192 <=? c) && (c <=? 8202)) || (c =? 8232) || (c =? 8233)
  || (c =? 8239) || (c =? 8287) || (c =? 12288).

(** ASCII decimal digits (the model does not include the other Unicode
    decimal digits that [\d] and [int()] also accept). *)
Definition is_digit (c : N) : bool := (48 <=? c) && (c <=? 57).

(** ** Stripping *)

Fixpoint lstrip (s : pystr) : pystr :=
  match s with
  | [] => []
  | c :: r => if is_space c then lstrip r else s
  end.

Definition rstrip (s : pystr) : pystr := reverse (lstrip (reverse s)).

(** [s.strip()] *)
Definition strip (s : pystr) : pystr := rstrip (lstrip s).

(** A string is stripped when it neither starts nor ends with whitespace. *)
Definition stripped (s : pystr) : Prop := lstrip s = s /\ lstrip (reverse s) = reverse s.

(** ** Prefixes *)

(** [s.startswith(p)] *)
Fixpoint starts_with (p s : pystr) : bool :=
  match p, s with
  | [], _ => true
  | c :: p', d :: s' => (c =? d) && starts_with p' s'
  | _ :: _, [] => false
  end.

(** ** split, join, replace *)

(** The first occurrence of [sep] in [s]: the text before it and after it. *)
Fixpoint break_at (sep s : pystr) : option (pystr * pystr) :=
  if starts_with sep s then Some ([], drop (length sep) s)
  else match s with
       | [] => None
       | c :: r =>
           match break_at sep r with
           | Some (pre, post) => Some (c :: pre, post)
           | None => None
           end
       end.

Fixpoint split_fuel (fuel : nat) (sep s : pystr) : list pystr :=
  match fuel with
  | O => [s]
  | S f =>
      match break_at sep s with
      | Some (pre, post) => pre :: split_fuel f sep post
      | None => [s]
      end
  end.

(** [s.split(sep)] for a non-empty separator (every call site of the
    sources passes a constant non-empty one). *)
Definition py_split (sep s : pystr) : list pystr := split_fuel (S (length s)) sep s.

(** [sep.join(parts)] *)
Fixpoint py_join (sep : pystr) (parts : list pystr) : pystr :=
  match parts with
  | [] => []
  | [p] => p
  | p :: ps => p ++ sep ++ py_join sep ps
  end.

(** [s.replace(old, new)] for a non-empty [old]: Python replaces the
    non-overlapping occurrences from left to right, which is
    [new.join(s.split(old))]. *)
Definition py_replace (old new s : pystr) : pystr := py_join new (py_split old s).

(** ** Integers and their decimal text *)

Fixpoint digits_of_uint (d : Decimal.uint) : pystr :=
  match d with
  | Decimal.Nil => []
  | Decimal.D0 r => 48 :: digits_of_uint r
  | Decimal.D1 r => 49 :: digits_of_uint r
  | Decimal.D2 r => 50 :: digits_of_uint r
  | Decimal.D3 r => 51 :: digits_of_uint r
  | Decimal.D4 r => 52 :: digits_of_uint r
  | Decimal.D5 r => 53 :: digits_of_uint r
  | Decimal.D6 r => 54 :: digits_of_uint r
  | Decimal.D7 r => 55 :: digits_of_uint r
  | Decimal.D8 r => 56 :: digits_of_uint r
  | Decimal.D9 r => 57 :: digits_of_uint r
  end.

Fixpoint uint_of_digits (s : pystr) : option Decimal.uint :=
  match s with
  | [] => Some Decimal.Nil
  | c :: r =>
      match uint_of_digits r with
      | None => None
      | Some d =>
          match c with
          | 48 => Some (Decimal.D0 d) | 49 => Some (Decimal.D1 d)
          | 50 => Some (Decimal.D2 d) | 51 => Some (Decimal.D3 d)
          | 52 => Some (Decimal.D4 d) | 53 => Some (Decimal.D5 d)
          | 54 => Some (Decimal.D6 d) | 55 => Some (Decimal.D7 d)
          | 56 => Some (Decimal.D8 d) | 57 => Some (Decimal.D9 d)
          | _ => None
          end%N
      end
  end.

(** [str(n)] for a non-negative integer. *)
Definition str_of_N (n : N) : pystr := digits_of_uint (N.to_uint n).

(** [str(z)] / [int.__repr__]. *)
Definition str_of_Z (z : Z) : pystr :=
  if (z <? 0)%Z then 45 :: str_of_N (Z.to_N (- z)) else str_of_N (Z.to_N z).

Definition str_of_nat (n : nat) : pystr := str_of_N (N.of_nat n).

(** CPython 3.11 refuses to convert a decimal string of more than 4300
    digits ([sys.int_info.default_max_str_digits]). *)
Definition max_str_digits : nat := 4300.

(** The digits of a base-10 literal with Python's underscore rule: one
    underscore may separate two digits. *)
Fixpoint drop_underscores (after_digit : bool) (s : pystr) : option pystr :=
  match s with
  | [] => if after_digit then Some [] else None
  | c :: r =>
      if is_digit c then
        match drop_underscores true r with Some ds => Some (c :: ds) | None => None end
      else if (c =? 95) && after_digit then
        match r with
        | d :: _ => if is_digit d then drop_underscores false r else None
        | [] => None
        end
      else None
  end.

(** The optional sign of an integer literal. *)
Definition sign_split (t : pystr) : bool * pystr :=
  match t with
  | c :: r => if c =? 45 then (true, r) else if c =? 43 then (false, r) else (false, t)
  | [] => (false, [])
  end.

(** [int(s)]: [None] is the [ValueError] Python raises. *)
Definition py_int (s : pystr) : option Z :=
  let '(neg, body) := sign_split (strip s) in
  match drop_underscores false body with
  | None => None
  | Some ds =>
      if Nat.ltb max_str_digits (length ds) then None
      else match uint_of_digits ds with
           | None => None
           | Some d => let n := Z.of_N (N.of_uint d) in Some (if neg then (- n)%Z else n)
           end
  end.

(** [s.encode("utf-8")] of a code point that is not a surrogate. *)
Definition utf8_char (c : N) : list N :=
  if c <? 128 then [c]
  else if c <? 2048 then [192 + c / 64; 128 + c mod 64]
  else if c <? 65536 then [224 + c / 4096; 128 + c / 64 mod 64; 128 + c mod 64]
  else [240 + c / 262144; 128 + c / 4096 mod 64; 128 + c / 64 mod 64; 128 + c mod 64].

Definition is_surrogate (c : N) : bool := (55296 <=? c) && (c <=? 57343).

(** [s.encode("utf-8")]: [None] is the [UnicodeEncodeError] (a
    [ValueError]) raised at the first surrogate, with its position. *)
Fixpoint utf8_encode_from (i : nat) (s : pystr) : nat + list N :=
  match s with
  | [] => inr []
  | c :: r =>
      if is_surrogate c then inl i
      else match utf8_encode_from (S i) r with inl j => inl j | inr bs => inr (utf8_char c ++ bs) end
  end.

Definition utf8_encode (s : pystr) : nat + list N := utf8_encode_from 0 s.

Definition in_range (lo hi c : N) : bool := (lo <=? c) && (c <=? hi).

(** A lead byte of a multi-byte sequence: the number of continuation
    bytes and the range the first of them must lie in (CPython's
    decoder refuses overlong forms, surrogates and code points past
    U+10FFFF through these ranges). *)
Definition utf8_lead (b : N) : option (nat * N * N) :=
  if in_range 194 223 b then Some (1%nat, 128, 191)
  else if b =? 224 then Some (2%nat, 160, 191)
  else if in_range 225 236 b || in_range 238 239 b then Some (2%nat, 128, 191)
  else if b =? 237 then Some (2%nat, 128, 159)
  else if b =? 240 then Some (3%nat, 144, 191)
  else if in_range 241 243 b then Some (3%nat, 128, 191)
  else if b =? 244 then Some (3%nat, 128, 143)
  else None.

Definition cont_ok (c : N) : bool := in_range 128 191 c.

(** A [UnicodeDecodeError]: start position, number of bytes it covers,
    the lead byte and the reason. *)
Definition decode_error : Type := nat * nat * N * pystr.

Definition cons_ok {E} (c : N) (r : E + pystr) : E + pystr :=
  match r with inl e => inl e | inr s => inr (c :: s) end.

(** [bytes.decode("utf-8")] (strict) from position [i]. *)
Fixpoint utf8_decode_from (i : nat) (bs : list N) : decode_error + pystr :=
  let eod k b := inl (i, k, b, u "unexpected end of data") in
  let bad k b := inl (i, k, b, u "invalid continuation byte") in
  match bs with
  | [] => inr []
  | b :: r =>
      if b <? 128 then cons_ok b (utf8_decode_from (S i) r)
      else match utf8_lead b with
      | None => inl (i, 1%nat, b, u "invalid start byte")
      | Some (n, lo, hi) =>
          match r with
          | [] => eod 1%nat b
          | c1 :: r1 =>
              if negb (in_range lo hi c1) then bad 1%nat b
              else match n with
              | 1%nat => cons_ok ((b - 192) * 64 + (c1 - 128)) (utf8_decode_from (2 + i) r1)
              | 2%nat =>
                  match r1 with
                  | [] => eod 2%nat b
                  | c2 :: r2 =>
                      if negb (cont_ok c2) then bad 2%nat b
                      else cons_ok ((b - 224) * 4096 + (c1 - 128) * 64 + (c2 - 128))
                             (utf8_decode_from (3 + i) r2)
                  end
              | _ =>
                  match r1 with
                  | [] => eod 2%nat b
                  | c2 :: r2 =>
                      if negb (cont_ok c2) then bad 2%nat b
                      else match r2 with
                           | [] => eod 3%nat b
                           | c3 :: r3 =>
                               if negb (cont_ok c3) then bad 3%nat b
                               else cons_ok ((b - 240) * 262144 + (c1 - 128) * 4096
                                             + (c2 - 128) * 64 + (c3 - 128))
                                      (utf8_decode_from (4 + i) r3)
                           end
                  end
              end
          end
      end
  end.

Definition utf8_decode (bs : list N) : decode_error + pystr := utf8_decode_from 0 bs.

(** ** Properties *)

Lemma lstrip_idem (s : pystr) : lstrip (lstrip s) = lstrip s.
Proof.
  induction s as [|c r IH]; [done|]. simpl.
  destruct (is_space c) eqn:E; [done|]. simpl. by rewrite E.
Qed.

Lemma lstrip_head (s : pystr) c r : lstrip s = c :: r -> is_space c = false.
Proof.
  induction s as [|d s IH]; [done|]. simpl.
  destruct (is_space d) eqn:E; [done|]. by intros [= <- _].
Qed.

Lemma lstrip_suffix (s : pystr) : exists w, s = w ++ lstrip s /\ Forall (fun c => is_space c = true) w.
Proof.
  induction s as [|c r (w & Hw & Hall)]; [by exists []|]. simpl.
  destruct (is_space c) eqn:E.
  - exists (c :: w). split; [by rewrite Hw at 1|]. by constructor.
  - by exists [].
Qed.

Lemma lstrip_spaces_app (w s : pystr) :
  Forall (fun c => is_space c = true) w -> lstrip (w ++ s) = lstrip s.
Proof. induction 1 as [|c w Hc _ IH]; [done|]. simpl. by rewrite Hc. Qed.

Lemma lstrip_nonspace (c : N) (r : pystr) : is_space c = false -> lstrip (c :: r) = c :: r.
Proof. intros H. simpl. by rewrite H. Qed.

#[export] Hint Resolve lstrip_idem : pyauto.

Lemma lstrip_app (s t : pystr) :
  lstrip (s ++ t) = match lstrip s with [] => lstrip t | l => l ++ t end.
Proof.
  induction s as [|c r IH]; [done|]. simpl.
  by destruct (is_space c).
Qed.

Lemma lstrip_spaces (w : pystr) : Forall (fun c => is_space c = true) w -> lstrip w = [].
Proof. intros H. rewrite <- (app_nil_r w), lstrip_spaces_app by done. done. Qed.

Lemma rstrip_app_spaces (t w : pystr) :
  Forall (fun c => is_space c = true) w -> rstrip (t ++ w) = rstrip t.
Proof.
  intros H. unfold rstrip. rewrite reverse_app, lstrip_spaces_app; [done|].
  by apply Forall_reverse.
Qed.

(** [strip] removes exactly the surrounding whitespace. *)
Lemma strip_spaces_app (w1 s w2 : pystr) :
  Forall (fun c => is_space c = true) w1 -> Forall (fun c => is_space c = true) w2 ->
  strip (w1 ++ s ++ w2) = strip s.
Proof.
  intros H1 H2. unfold strip. rewrite lstrip_spaces_app, lstrip_app by done.
  destruct (lstrip s) as [|c l] eqn:E.
  - by rewrite lstrip_spaces.
  - by apply rstrip_app_spaces.
Qed.

Lemma strip_id (s : pystr) : stripped s -> strip s = s.
Proof.
  intros [H1 H2]. unfold strip, rstrip. rewrite H1, H2. apply reverse_involutive.
Qed.

Lemma strip_stripped (s : pystr) : stripped (strip s).
Proof.
  unfold stripped, strip, rstrip. rewrite reverse_involutive, lstrip_idem. split; [|done].
  set (L := lstrip s). set (t := lstrip (reverse L)).
  destruct (lstrip_suffix (reverse L)) as (w & Hw & _). fold t in Hw.
  assert (HL : L = reverse t ++ reverse w)
    by (rewrite <- reverse_app, <- Hw, reverse_involutive; done).
  destruct (reverse t) as [|c r] eqn:Er; [done|].
  apply lstrip_nonspace. apply (lstrip_head L c (r ++ reverse w)).
  unfold L at 1. rewrite lstrip_idem. exact HL.
Qed.

(** ** split and join *)

Lemma starts_with_spec (p s : pystr) : starts_with p s = true <-> exists t, s = p ++ t.
Proof.
  revert s. induction p as [|c p IH]; intros [|d s]; simpl.
  - split; [by exists []|done].
  - split; [by exists (d :: s)|done].
  - split; [done|]. by intros [t ?].
  - rewrite andb_true_iff, N.eqb_eq, IH. split.
    + intros [-> [t ->]]. by exists t.
    + intros [t [= -> ->]]. eauto.
Qed.

Lemma starts_with_app (p t : pystr) : starts_with p (p ++ t) = true.
Proof. apply starts_with_spec. eauto. Qed.

#[export] Hint Resolve starts_with_app : pyauto.

(** [break_at] splits the string around the first separator, and what
    follows is strictly shorter when the separator is not empty. *)
Lemma break_at_spec (sep s pre post : pystr) :
  break_at sep s = Some (pre, post) -> s = pre ++ sep ++ post.
Proof.
  revert pre post. induction s as [|c r IH]; intros pre post; simpl.
  - destruct (starts_with sep []) eqn:E; [|done]. intros [= <- <-].
    apply starts_with_spec in E as [t Ht]. destruct sep; [done|]. by simpl.
  - destruct (starts_with sep (c :: r)) eqn:E.
    + intros [= <- <-]. apply starts_with_spec in E as [t ->]. simpl. by rewrite drop_app_length.
    + destruct (break_at sep r) as [[p q]|]; [|done]. intros [= <- <-]. simpl. by rewrite (IH p q).
Qed.

Lemma break_at_shorter (sep s pre post : pystr) :
  sep <> [] -> break_at sep s = Some (pre, post) -> (length post < length s)%nat.
Proof.
  intros Hne H. apply break_at_spec in H. subst s. rewrite !length_app.
  destruct sep; [done|]. simpl. lia.
Qed.

Lemma split_fuel_enough (sep s : pystr) (f1 f2 : nat) :
  sep <> [] -> (length s < f1)%nat -> (length s < f2)%nat ->
  split_fuel f1 sep s = split_fuel f2 sep s.
Proof.
  intros Hne. revert s f2. induction f1 as [|f1 IH]; intros s f2 H1 H2; [lia|].
  destruct f2 as [|f2]; [lia|]. simpl.
  destruct (break_at sep s) as [[pre post]|] eqn:E; [|done].
  f_equal. apply break_at_shorter in E; [|done]. apply IH; lia.
Qed.

(** The defining equation of [py_split]: the fuel never runs out. *)
Lemma py_split_unfold (sep s : pystr) :
  sep <> [] ->
  py_split sep s = match break_at sep s with
                   | Some (pre, post) => pre :: py_split sep post
                   | None => [s]
                   end.
Proof.
  intros Hne. unfold py_split at 1. simpl.
  destruct (break_at sep s) as [[pre post]|] eqn:E; [|done].
  f_equal. apply split_fuel_enough; [done| |lia].
  apply break_at_shorter in E; [lia|done].
Qed.

Lemma split_fuel_nonempty (f : nat) (sep s : pystr) : split_fuel f sep s <> [].
Proof. destruct f; simpl; [done|]. by destruct (break_at sep s) as [[]|]. Qed.

(** Round trip: [sep.join(s.split(sep)) == s]. *)
Lemma py_join_split (sep s : pystr) : py_join sep (py_split sep s) = s.
Proof.
  unfold py_split. generalize (S (length s)) as f. intros f. revert s.
  induction f as [|f IH]; intros s; [done|]. simpl.
  destruct (break_at sep s) as [[pre post]|] eqn:E; [|done].
  apply break_at_spec in E. subst s.
  pose proof (split_fuel_nonempty f sep post) as Hne.
  destruct (split_fuel f sep post) as [|p ps] eqn:Es; [done|].
  change (pre ++ sep ++ py_join sep (p :: ps) = pre ++ sep ++ post).
  by rewrite <- Es, IH.
Qed.

(** ** Decimal text of integers *)

Lemma uint_of_digits_of_uint (d : Decimal.uint) : uint_of_digits (digits_of_uint d) = Some d.
Proof. induction d; simpl; try rewrite IHd; done. Qed.

Lemma digits_of_uint_digits (d : Decimal.uint) : Forall (fun c => is_digit c = true) (digits_of_uint d).
Proof. induction d; simpl; constructor; done. Qed.

Lemma drop_underscores_digits (b : bool) (ds : pystr) :
  ds <> [] -> Forall (fun c => is_digit c = true) ds -> drop_underscores b ds = Some ds.
Proof.
  intros Hne Hall. revert b Hne. induction Hall as [|c r Hc Hr IH]; intros b Hne; [done|].
  simpl. rewrite Hc. destruct r as [|c' r'].
  - done.
  - rewrite IH; done.
Qed.

Lemma digit_not_space (c : N) : is_digit c = true -> is_space c = false.
Proof.
  unfold is_digit, is_space. intros H. apply andb_true_iff in H as [H1 H2].
  apply N.leb_le in H1, H2.
  destruct (_ || _) eqn:E; [|done].
  repeat rewrite ?orb_true_iff, ?andb_true_iff, ?N.leb_le, ?N.eqb_eq in E. lia.
Qed.

Lemma digits_stripped (l : pystr) : Forall (fun c => is_digit c = true) l -> stripped l.
Proof.
  intros H. split.
  - destruct H as [|c r Hc _]; [done|]. by apply lstrip_nonspace, digit_not_space.
  - apply Forall_reverse in H. destruct H as [|c r Hc _]; [done|].
    by apply lstrip_nonspace, digit_not_space.
Qed.

Lemma str_of_N_nonempty (n : N) : str_of_N n <> [].
Proof.
  unfold str_of_N. destruct (N.to_uint n) eqn:E; try done.
  pose proof (DecimalN.Unsigned.of_to n) as H. rewrite E in H. simpl in H. subst n. done.
Qed.

Lemma str_of_N_digits (n : N) : Forall (fun c => is_digit c = true) (str_of_N n).
Proof. apply digits_of_uint_digits. Qed.

#[export] Hint Resolve str_of_N_nonempty str_of_N_digits : pyauto.

(** Round trip: [int(str(n)) == n] within the 4300-digit limit of
    CPython 3.11. *)
Lemma py_int_str_of_N (n : N) :
  (length (str_of_N n) <= max_str_digits)%nat -> py_int (str_of_N n) = Some (Z.of_N n).
Proof.
  intros Hlen. unfold py_int.
  rewrite strip_id by (apply digits_stripped, str_of_N_digits).
  pose proof (str_of_N_digits n) as Hd.
  destruct (str_of_N n) as [|c r] eqn:E; [by destruct (str_of_N_nonempty n)|].
  inversion Hd as [|? ? Hc _]; subst.
  assert (Hs : sign_split (c :: r) = (false, c :: r)).
  { unfold is_digit in Hc. apply andb_true_iff in Hc as [H1 H2].
    apply N.leb_le in H1, H2. simpl. case_Nb; [lia|lia|done]. }
  rewrite Hs, drop_underscores_digits by done.
  destruct (Nat.ltb_spec max_str_digits (length (c :: r))); [lia|].
  rewrite <- E. unfold str_of_N. rewrite uint_of_digits_of_uint, DecimalN.Unsigned.of_to.
  done.
Qed.

Lemma str_of_N_inj (m n : N) : str_of_N m = str_of_N n -> m = n.
Proof.
  intros H. rewrite <-(DecimalN.Unsigned.of_to m), <-(DecimalN.Unsigned.of_to n).
  pose proof (uint_of_digits_of_uint (N.to_uint m)) as Hm.
  pose proof (uint_of_digits_of_uint (N.to_uint n)) as Hn.
  unfold str_of_N in H. rewrite H, Hn in Hm. by injection Hm as ->.
Qed.

Lemma str_of_Z_inj (y z : Z) : str_of_Z y = str_of_Z z -> y = z.
Proof.
  unfold str_of_Z. pose proof (str_of_N_digits (Z.to_N y)) as Hy.
  pose proof (str_of_N_digits (Z.to_N z)) as Hz.
  destruct (Z.ltb_spec y 0), (Z.ltb_spec z 0); intros Heq.
  - injection Heq as Heq%str_of_N_inj. lia.
  - destruct (str_of_N (Z.to_N z)); [by destruct (str_of_N_nonempty (Z.to_N z))|].
    injection Heq as <- _. inversion Hz; subst. done.
  - destruct (str_of_N (Z.to_N y)); [by destruct (str_of_N_nonempty (Z.to_N y))|].
    injection Heq as -> _. inversion Hy; subst. done.
  - apply str_of_N_inj in Heq. lia.
Qed.

(** A one-character separator: [break_at] stops at its first occurrence. *)
Lemma break_at_char_absent (c : N) (s : pystr) : c ∉ s -> break_at [c] s = None.
Proof.
  induction s as [|d r IH]; intros Hc; [done|]. rewrite not_elem_of_cons in Hc.
  simpl. destruct (N.eqb_spec c d); [by destruct Hc|]. simpl. by rewrite IH by tauto.
Qed.

Lemma break_at_char_first (c : N) (a r : pystr) : c ∉ a -> break_at [c] (a ++ c :: r) = Some (a, r).
Proof.
  induction a as [|d a IH]; intros Hc; simpl; [by rewrite N.eqb_refl|].
  rewrite not_elem_of_cons in Hc. destruct (N.eqb_spec c d); [by destruct Hc|]. simpl.
  by rewrite IH by tauto.
Qed.

Lemma py_split_char_absent (c : N) (s : pystr) : c ∉ s -> py_split [c] s = [s].
Proof. intros Hc. rewrite py_split_unfold by done. by rewrite break_at_char_absent. Qed.

Lemma py_split_char_first (c : N) (a r : pystr) :
  c ∉ a -> exists rest, py_split [c] (a ++ c :: r) = a :: rest.
Proof. intros Hc. rewrite py_split_unfold by done. rewrite break_at_char_first by done. by eexists. Qed.

Lemma py_replace_absent (c : N) (new s : pystr) : c ∉ s -> py_replace [c] new s = s.
Proof. intros Hc. unfold py_replace. by rewrite py_split_char_absent. Qed.

(** Digits are neither [','] nor ['.']. *)
Lemma digits_no_char (c : N) (s : pystr) :
  is_digit c = false -> Forall (fun x => is_digit x = true) s -> c ∉ s.
Proof. intros Hc Hs Hin. rewrite Forall_forall in Hs. specialize (Hs c (proj1 (list_elem_of_In _ _) Hin)). congruence. Qed.
