(* ===== verification/PyExn.v ===== *)
(** * Python exceptions and the state/exception monad of the services

    The exceptions the services raise or catch, with the part of Python's
    class hierarchy that the [except] clauses test ([JSONDecodeError] and
    pydantic's [ValidationError] are [ValueError]s), their [str(e)], and
    the monad [PyM S] (state [S], exceptions [exn]) in which the handlers
    are written: [raise], [try_except] (one [except C as e:] clause) and
    [try_excepts] (a [try] statement with several clauses). *)

From S2P Require Import Prelude PyStr.

(** ** Exceptions *)

Inductive exn : Type :=
| JSONDecodeError (msg : pystr) (doc : pystr) (pos : nat)
    (** json.decoder.JSONDecodeError(msg, doc, pos) *)
| ValueError (msg : pystr)
| TypeError (msg : pystr)
| AttributeError (msg : pystr)
| KeyError (key : pystr)
| ValidationError (title : pystr) (errors : list pystr)
    (** pydantic_core.ValidationError: the model name and one line per error *)
| HTTPException (status_code : Z) (detail : pystr)
    (** fastapi.HTTPException *)
| UpstreamError (msg : pystr)
    (** any error of the model client (transport, quota, blocked answer) *)
| FileNotFound (path : pystr).

(** The classes named in the [except] clauses of the sources. *)
Inductive pyclass : Type :=
| CException | CValueError | CJSONDecodeError | CHTTPException.

(** [isinstance(e, C)] *)
Definition isinstance (e : exn) (c : pyclass) : bool :=
  match c, e with
  | CException, _ => true
  | CValueError, (JSONDecodeError _ _ _ | ValueError _ | ValidationError _ _) => true
  | CJSONDecodeError, JSONDecodeError _ _ _ => true
  | CHTTPException, HTTPException _ _ => true
  | _, _ => false
  end.

(** Line and column of a position, as [JSONDecodeError.__init__] computes
    them: [doc.count('\n', 0, pos) + 1] and [pos - doc.rfind('\n', 0, pos)]. *)
Definition json_lineno (doc : pystr) (pos : nat) : nat :=
  S (length (filter (fun c => c = c_newline) (take pos doc))).

Fixpoint last_newline_before (i : nat) (l : pystr) : Z :=
  match l with
  | [] => -1
  | c :: r =>
      let rest := last_newline_before (S i) r in
      if (rest >=? 0)%Z then rest else if N.eqb c c_newline then Z.of_nat i else -1
  end.

Definition json_colno (doc : pystr) (pos : nat) : Z :=
  (Z.of_nat pos - last_newline_before 0 (take pos doc))%Z.

(** [str(e)]. *)
Definition exn_str (e : exn) : pystr :=
  match e with
  | JSONDecodeError msg doc pos =>
      msg ++ u ": line " ++ str_of_nat (json_lineno doc pos) ++ u " column "
          ++ str_of_Z (json_colno doc pos) ++ u " (char " ++ str_of_nat pos ++ u ")"
  | ValueError m | TypeError m | AttributeError m | UpstreamError m => m
  | KeyError k => u "'" ++ k ++ u "'"
  | ValidationError title errs =>
      str_of_nat (length errs) ++ u " validation error"
        ++ (if Nat.eqb (length errs) 1 then [] else u "s") ++ u " for " ++ title
        ++ mjoin (map (fun l => c_newline :: l) errs)
  | HTTPException code detail => str_of_Z code ++ u ": " ++ detail
  | FileNotFound p => u "[Errno 2] No such file or directory: '" ++ p ++ u "'"
  end.

(** The results of a loop that stops at the first exception. *)
Fixpoint seq_results {A} (items : list (exn + A)) : exn + list A :=
  match items with
  | [] => inr []
  | inl e :: _ => inl e
  | inr a :: r => match seq_results r with inl e => inl e | inr l => inr (a :: l) end
  end.

(** ** The monad *)

(** A computation reads and writes a state [S] and ends with a value or
    an exception; the state it leaves is kept either way, as Python keeps
    the effects that ran before an exception. *)
Definition PyM (S A : Type) : Type := S -> (exn + A) * S.

Section Monad.
Context {S : Type}.

#[export] Instance PyM_ret : MRet (PyM S) := fun A a s => (inr a, s).
#[export] Instance PyM_bind : MBind (PyM S) := fun A B f m s =>
  match m s with
  | (inr a, s') => f a s'
  | (inl e, s') => (inl e, s')
  end.

Definition raise {A} (e : exn) : PyM S A := fun s => (inl e, s).

Definition get_state : PyM S S := fun s => (inr s, s).
Definition put_state (s' : S) : PyM S unit := fun _ => (inr tt, s').
Definition modify_state (f : S -> S) : PyM S unit := fun s => (inr tt, f s).

(** [try: m  except C as e: h(e)]: an exception of class [C] runs the
    handler in the state [m] left; any other one propagates. *)
Definition try_except {A} (m : PyM S A) (c : pyclass) (h : exn -> PyM S A) : PyM S A :=
  fun s =>
    match m s with
    | (inl e, s') => if isinstance e c then h e s' else (inl e, s')
    | r => r
    end.

(** The first [except] clause of a [try] statement whose class matches. *)
Fixpoint first_handler {A} (hs : list (pyclass * (exn -> PyM S A))) (e : exn)
  : option (exn -> PyM S A) :=
  match hs with
  | [] => None
  | (c, h) :: r => if isinstance e c then Some h else first_handler r e
  end.

(** [try: m  except C1 as e: h1(e)  except C2 as e: h2(e) ...]: an
    exception raised by a handler is not caught by the later clauses. *)
Definition try_excepts {A} (m : PyM S A) (hs : list (pyclass * (exn -> PyM S A))) : PyM S A :=
  fun s =>
    match m s with
    | (inl e, s') => match first_handler hs e with Some h => h e s' | None => (inl e, s') end
    | r => r
    end.

(** Lift a value of a pure computation that may raise. *)
Definition of_sum {A} (r : exn + A) : PyM S A := fun s => (r, s).

(** Run and keep the result only. *)
Definition eval {A} (m : PyM S A) (s : S) : exn + A := fst (m s).
End Monad.

Arguments raise {S A} e _.

(** ** Reasoning about handlers

    [ensures P m]: whatever [m] returns satisfies [P] (it may raise).
    [returns P m]: from every state [m] returns, never raises, and its
    value satisfies [P].  A [try] whose first clause is [except Exception]
    turns the first into the second when the handler returns. *)

Section Logic.
Context {S : Type}.

Definition ensures {A} (P : A -> Prop) (m : PyM S A) : Prop :=
  forall s a, fst (m s) = inr a -> P a.

Definition returns {A} (P : A -> Prop) (m : PyM S A) : Prop :=
  forall s, exists a, fst (m s) = inr a /\ P a.

Lemma seq_results_inr {A} (l : list (exn + A)) (xs : list A) :
  seq_results l = inr xs -> l = map inr xs.
Proof.
  revert xs; induction l as [|[e|a] l IH]; intros xs H; simpl in H; simplify_eq; [done|].
  destruct (seq_results l) eqn:E; simplify_eq. by rewrite (IH _ eq_refl).
Qed.

Lemma seq_results_map_inr {A B} (f : A -> B) (l : list A) :
  seq_results (map (fun x => inr (f x)) l) = inr (map f l).
Proof. induction l as [|x l IH]; simpl; [done|]. by rewrite IH. Qed.

Lemma seq_results_Forall {A} (P : A -> Prop) (l : list (exn + A)) (xs : list A) :
  seq_results l = inr xs -> (forall a, inr a ∈ l -> P a) -> Forall P xs.
Proof.
  intros H HP. apply seq_results_inr in H; subst l.
  apply Forall_forall. intros a Ha. apply HP. apply list_elem_of_In, in_map, Ha.
Qed.

Lemma run_bind_inr {A B} (m : PyM S A) (k : A -> PyM S B) s a s' :
  m s = (inr a, s') -> (m ≫= k) s = k a s'.
Proof. intros H. unfold mbind, PyM_bind. by rewrite H. Qed.

Lemma run_bind_inl {A B} (m : PyM S A) (k : A -> PyM S B) s e s' :
  m s = (inl e, s') -> (m ≫= k) s = (inl e, s').
Proof. intros H. unfold mbind, PyM_bind. by rewrite H. Qed.

Lemma run_try_inl {A} (m : PyM S A) h hs s e s' :
  m s = (inl e, s') -> try_excepts m ((CException, h) :: hs) s = h e s'.
Proof. intros H. unfold try_excepts. by rewrite H. Qed.

Lemma run_try_inr {A} (m : PyM S A) hs s a s' :
  m s = (inr a, s') -> try_excepts m hs s = (inr a, s').
Proof. intros H. unfold try_excepts. by rewrite H. Qed.

Lemma ensures_ret {A} (P : A -> Prop) a : P a -> ensures P (mret a).
Proof. by intros HP s b [= <-]. Qed.

Lemma ensures_raise {A} (P : A -> Prop) e : ensures P (raise e).
Proof. by intros s b. Qed.

Lemma ensures_of_sum {A} (P : A -> Prop) (r : exn + A) :
  (forall a, r = inr a -> P a) -> ensures P (of_sum r).
Proof. intros HP s a H. by apply HP. Qed.

Lemma ensures_bind {A B} (Q : A -> Prop) (P : B -> Prop) (m : PyM S A) (k : A -> PyM S B) :
  ensures Q m -> (forall a, Q a -> ensures P (k a)) -> ensures P (m ≫= k).
Proof.
  intros Hm Hk s b. unfold mbind, PyM_bind.
  destruct (m s) as [[e|a] s'] eqn:E; [done|]. apply (Hk a). by apply (Hm s); rewrite E.
Qed.

Lemma ensures_bind_any {A B} (P : B -> Prop) (m : PyM S A) (k : A -> PyM S B) :
  (forall a, ensures P (k a)) -> ensures P (m ≫= k).
Proof. intros Hk. apply (ensures_bind (fun _ => True)); [by intros ??|auto]. Qed.

Lemma returns_ret {A} (P : A -> Prop) a : P a -> returns P (mret a).
Proof. intros HP s. by exists a. Qed.

Lemma returns_bind {A B} (Q : A -> Prop) (P : B -> Prop) (m : PyM S A) (k : A -> PyM S B) :
  returns Q m -> (forall a, Q a -> returns P (k a)) -> returns P (m ≫= k).
Proof.
  intros Hm Hk s. unfold mbind, PyM_bind. destruct (Hm s) as (a & Ha & HQ).
  destruct (m s) as [r s'] eqn:E; simpl in Ha; subst r. by apply Hk.
Qed.

(** [try: m  except Exception as e: h(e)] returns when the handler does. *)
Lemma returns_try_catch_all {A} (P : A -> Prop) (m : PyM S A) h hs :
  ensures P m -> (forall e, returns P (h e)) -> returns P (try_excepts m ((CException, h) :: hs)).
Proof.
  intros Hm Hh s. unfold try_excepts.
  destruct (m s) as [[e|a] s'] eqn:E; [by apply Hh|]. exists a. split; [done|].
  by apply (Hm s); rewrite E.
Qed.
End Logic.

#[export] Hint Resolve ensures_ret ensures_raise returns_ret : pyauto.

Lemma run_of_sum {S A} (r : exn + A) (s : S) : of_sum r s = (r, s).
Proof. done. Qed.

Lemma seq_results_ok {A B} (f : A -> exn + B) (l : list A) :
  (forall x, exists b, f x = inr b) -> exists bs, seq_results (map f l) = inr bs.
Proof.
  intros Hf. induction l as [|x l [bs IH]]; simpl; [by eexists|].
  destruct (Hf x) as [b ->]. rewrite IH. by eexists.
Qed.

Lemma returns_of_sum {S A} (a : A) : returns (S := S) (fun b => b = a) (of_sum (inr a)).
Proof. intros s. by exists a. Qed.

Lemma run_try_handler {S A} (m : PyM S A) hs (h : exn -> PyM S A) (s s' : S) e :
  m s = (inl e, s') -> first_handler hs e = Some h -> try_excepts m hs s = h e s'.
Proof. intros Hm Hh. unfold try_excepts. by rewrite Hm, Hh. Qed.

Lemma seq_results_imap_inr {A B} (f : nat -> A -> exn + B) (g : A -> B) (l : list A) :
  (forall n x, f n x = inr (g x)) -> seq_results (imap f l) = inr (map g l).
Proof.
  revert f; induction l as [|x l IH]; intros f Hf; simpl; [done|].
  rewrite Hf, IH; [done|]. intros n y. apply Hf.
Qed.

Lemma returns_ensures {S A} (P : A -> Prop) (m : PyM S A) : returns P m -> ensures P m.
Proof. intros Hm s a Ha. destruct (Hm s) as (b & Hb & HP). rewrite Ha in Hb. by injection Hb as ->. Qed.

(** A body that never raises makes its [except] clauses dead code. *)
Lemma returns_try {S A} (P : A -> Prop) (m : PyM S A) hs : returns P m -> returns P (try_excepts m hs).
Proof.
  intros Hm s. destruct (Hm s) as (a & Ha & HP). exists a. split; [|done].
  unfold try_excepts. destruct (m s) as [r s']. simpl in Ha. by subst r.
Qed.

Lemma seq_results_imap_inr_dep {A B} (f : nat -> A -> exn + B) (g : nat -> A -> B) (l : list A) :
  (forall n x, f n x = inr (g n x)) -> seq_results (imap f l) = inr (imap g l).
Proof.
  revert f g; induction l as [|x l IH]; intros f g Hf; simpl; [done|].
  rewrite Hf, (IH (f ∘ S) (g ∘ S)); [done|]. intros n y. apply Hf.
Qed.

Lemma run_mapM_cons_inl {S A B} (f : A -> PyM S B) x l (s s' : S) e :
  f x s = (inl e, s') -> mapM f (x :: l) s = (inl e, s').
Proof. intros H. cbn. unfold mbind, PyM_bind. by rewrite H. Qed.
