(* ===== verification/Json.v ===== *)
(** * The JSON codec: json.loads and json.dumps of CPython 3.11

    Every model answer goes through [json.loads] (services.py lines 72,
    183, 307, 420) and the services print values with [json.dumps] (lines
    82 and 256); FastAPI prints the responses the same way.  This file
    holds the Python values a JSON text denotes ([pyval]: None, bool, int,
    float, str, list and dict, a dict being an ordered association list
    with Python's insertion semantics), the decoder of the C scanner
    ([_json.c]: [scanstring_unicode], [_match_number_unicode],
    [_parse_object_unicode], [_parse_array_unicode], [scan_once_unicode]
    and [JSONDecoder.decode]) with its error messages and positions, and
    the encoder ([json.dumps] with [ensure_ascii], [indent], [separators]
    and [allow_nan]).

    The scanner recurses on a fuel argument; [scan_once_fuel_enough] at
    the end of this file proves that the fuel [json_loads] gives is never
    exhausted.  Floats are exact
    decimals [(-1)^neg * mant * 10^exp]: Python rounds them to binary64,
    which the model does not do (the two agree on literals of at most 15
    significant digits in the normal range).  The recursion limit of
    CPython (a [RecursionError] past about 1000 nested containers) is not
    modelled. *)

From S2P Require Import Prelude PyStr PyExn.

Local Open Scope N_scope.

(** ** Python values *)

Inductive pyfloat : Type :=
| FFin (neg : bool) (mant : N) (exp : Z)
| FInf (neg : bool)
| FNaN.

Inductive pyval : Type :=
| VNone
| VBool (b : bool)
| VInt (z : Z)
| VFloat (f : pyfloat)
| VStr (s : pystr)
| VList (l : list pyval)
| VDict (d : list (pystr * pyval)).

Abbreviation pydict := (list (pystr * pyval)) (only parsing).

(** The induction principle over the nested lists of [pyval]. *)
Section pyval_ind.
Variable P : pyval -> Prop.
Hypothesis HNone : P VNone.
Hypothesis HBool : forall b, P (VBool b).
Hypothesis HInt : forall z, P (VInt z).
Hypothesis HFloat : forall f, P (VFloat f).
Hypothesis HStr : forall s, P (VStr s).
Hypothesis HList : forall l, Forall P l -> P (VList l).
Hypothesis HDict : forall d, Forall (fun kv => P kv.2) d -> P (VDict d).

Fixpoint pyval_ind' (v : pyval) : P v :=
  match v with
  | VNone => HNone
  | VBool b => HBool b
  | VInt z => HInt z
  | VFloat f => HFloat f
  | VStr s => HStr s
  | VList l =>
      HList l ((fix go (l : list pyval) : Forall P l :=
                  match l with
                  | [] => Forall_nil _
                  | x :: r => Forall_cons _ x r (pyval_ind' x) (go r)
                  end) l)
  | VDict d =>
      HDict d ((fix go (d : list (pystr * pyval)) : Forall (fun kv => P kv.2) d :=
                  match d with
                  | [] => Forall_nil _
                  | kv :: r => Forall_cons _ kv r (pyval_ind' kv.2) (go r)
                  end) d)
  end.
End pyval_ind.

(** ** Dictionaries *)

(** [d.get(k)] *)
Fixpoint dict_get (d : pydict) (k : pystr) : option pyval :=
  match d with
  | [] => None
  | (k', v) :: r => if decide (k = k') then Some v else dict_get r k
  end.

(** [d[k] = v]: an existing key keeps its place, a new one goes last. *)
Fixpoint dict_set (d : pydict) (k : pystr) (v : pyval) : pydict :=
  match d with
  | [] => [(k, v)]
  | (k', v') :: r => if decide (k = k') then (k', v) :: r else (k', v') :: dict_set r k v
  end.

(** [k in d] *)
Definition dict_has (d : pydict) (k : pystr) : bool :=
  match dict_get d k with Some _ => true | None => false end.

(** [d.get(k, default)] *)
Definition dict_get_or (d : pydict) (k : pystr) (default : pyval) : pyval :=
  match dict_get d k with Some v => v | None => default end.

(** ** Code points of the JSON grammar *)

Definition is_json_ws (c : N) : bool := (c =? 32) || (c =? 9) || (c =? 10) || (c =? 13).

Fixpoint skip_ws (s : pystr) : pystr :=
  match s with
  | c :: r => if is_json_ws c then skip_ws r else s
  | [] => []
  end.

Definition hex_val (c : N) : option N :=
  if (48 <=? c) && (c <=? 57) then Some (c - 48)
  else if (97 <=? c) && (c <=? 102) then Some (c - 87)
  else if (65 <=? c) && (c <=? 70) then Some (c - 55)
  else None.

Definition hex4_val (h1 h2 h3 h4 : N) : option N :=
  match hex_val h1, hex_val h2, hex_val h3, hex_val h4 with
  | Some a, Some b, Some c, Some d => Some (((a * 16 + b) * 16 + c) * 16 + d)
  | _, _, _, _ => None
  end.

Definition is_high_surrogate (c : N) : bool := (55296 <=? c) && (c <=? 56319).
Definition is_low_surrogate (c : N) : bool := (56320 <=? c) && (c <=? 57343).
Definition join_surrogates (hi lo : N) : N := 65536 + (hi - 55296) * 1024 + (lo - 56320).

(** The one-character escapes after a backslash: quote, backslash, slash,
    b, f, n, r and t. *)
Definition simple_escape (c : N) : option N :=
  if c =? 34 then Some 34 else if c =? 92 then Some 92 else if c =? 47 then Some 47
  else if c =? 98 then Some 8 else if c =? 102 then Some 12 else if c =? 110 then Some 10
  else if c =? 114 then Some 13 else if c =? 116 then Some 9 else None.

(** ** Decoder *)

(** Why the scanner stopped: an error with its message at a position
    (given as the length of the input left from there), the [ValueError]
    of an integer past the digit limit, or exhausted fuel. *)
Inductive jfail : Type :=
| JFail (msg : pystr) (rem : nat)
| JValue (msg : pystr)
| JFuel.

Definition jres (A : Type) : Type := jfail + (A * pystr).

Definition msg_expecting_value : pystr := u "Expecting value".
Definition msg_extra_data : pystr := u "Extra data".
Definition msg_unterminated : pystr := u "Unterminated string starting at".
Definition msg_control : pystr := u "Invalid control character at".
Definition msg_bad_escape : pystr := u "Invalid \escape".
Definition msg_bad_uescape : pystr := u "Invalid \uXXXX escape".
Definition msg_prop_name : pystr := u "Expecting property name enclosed in double quotes".
Definition msg_colon : pystr := u "Expecting ':' delimiter".
Definition msg_comma : pystr := u "Expecting ',' delimiter".
Definition msg_bom : pystr := u "Unexpected UTF-8 BOM (decode using utf-8-sig)".

(** [scanstring_unicode]: [r] is the text after the opening quote, whose
    position is [begin_rem]; [acc] holds the decoded characters, last
    first. *)
Fixpoint scan_str (begin_rem : nat) (r : pystr) (acc : pystr) : jres pystr :=
  match r with
  | [] => inl (JFail msg_unterminated begin_rem)
  | c :: r1 =>
      if c =? 34 then inr (reverse acc, r1)
      else if c =? 92 then
        match r1 with
        | [] => inl (JFail msg_unterminated begin_rem)
        | e :: r2 =>
            if e =? 117 then
              match r2 with
              | h1 :: h2 :: h3 :: h4 :: ((_ :: _) as r3) =>
                  match hex4_val h1 h2 h3 h4 with
                  | None => inl (JFail msg_bad_uescape (length r1))
                  | Some cp =>
                      if is_high_surrogate cp then
                        match r3 with
                        | b :: v :: k1 :: k2 :: k3 :: k4 :: ((_ :: _) as r4) =>
                            if (b =? 92) && (v =? 117) then
                              match hex4_val k1 k2 k3 k4 with
                              | None => inl (JFail msg_bad_uescape (length (v :: k1 :: k2 :: k3 :: k4 :: r4)))
                              | Some lo =>
                                  if is_low_surrogate lo then
                                    scan_str begin_rem r4 (join_surrogates cp lo :: acc)
                                  else scan_str begin_rem r3 (cp :: acc)
                              end
                            else scan_str begin_rem r3 (cp :: acc)
                        | _ => scan_str begin_rem r3 (cp :: acc)
                        end
                      else scan_str begin_rem r3 (cp :: acc)
                  end
              | _ => inl (JFail msg_bad_uescape (length r1))
              end
            else match simple_escape e with
                 | Some ch => scan_str begin_rem r2 (ch :: acc)
                 | None => inl (JFail msg_bad_escape (length r))
                 end
        end
      else if c <=? 31 then inl (JFail msg_control (length r))
      else scan_str begin_rem r1 (c :: acc)
  end.

(** The longest prefix of ASCII digits. *)
Fixpoint span_digits (s : pystr) : pystr * pystr :=
  match s with
  | c :: r => if is_digit c then let '(ds, t) := span_digits r in (c :: ds, t) else ([], s)
  | [] => ([], [])
  end.

(** The value of a string of ASCII digits. *)
Definition digits_value (ds : pystr) : N := foldl (fun acc c => acc * 10 + (c - 48)) 0 ds.

(** The exponent part [[eE][-+]?\d+] after the [e]: the sign is taken only
    when a character follows it, as [_match_number_unicode] does. *)
Definition exp_part (t : pystr) : option (bool * pystr * pystr) :=
  let '(neg, t1) :=
    match t with
    | s :: ((_ :: _) as t') =>
        if s =? 45 then (true, t') else if s =? 43 then (false, t') else (false, t)
    | _ => (false, t)
    end in
  let '(ds, t2) := span_digits t1 in
  match ds with [] => None | _ => Some (neg, ds, t2) end.

(** A float [m * 10^e] with the trailing zeros of [m] moved to [e]. *)
Fixpoint normalize_fuel (fuel : nat) (m : N) (e : Z) : N * Z :=
  match fuel with
  | O => (m, e)
  | S f => if (m =? 0) then (0, 0%Z)
           else if (m mod 10 =? 0) then normalize_fuel f (m / 10) (e + 1)%Z else (m, e)
  end.

Definition mk_float (neg : bool) (m : N) (e : Z) : pyfloat :=
  let '(m', e') := normalize_fuel (N.to_nat (N.log2 m) + 1) m e in FFin neg m' e'.

Definition int_limit_msg (n : nat) : pystr :=
  u "Exceeds the limit (4300 digits) for integer string conversion: value has "
    ++ str_of_nat n ++ u " digits; use sys.set_int_max_str_digits() to increase the limit".

(** [_match_number_unicode]; a text that is no number is the
    [StopIteration] that [raw_decode] reports as "Expecting value". *)
Definition scan_number (r : pystr) : jres pyval :=
  let stop := inl (JFail msg_expecting_value (length r)) in
  let '(neg, r1) := match r with c :: t => if c =? 45 then (true, t) else (false, r) | [] => (false, r) end in
  let int_part :=
    match r1 with
    | c :: t =>
        if (49 <=? c) && (c <=? 57) then let '(ds, t') := span_digits t in Some (c :: ds, t')
        else if c =? 48 then Some ([c], t) else None
    | [] => None
    end in
  match int_part with
  | None => stop
  | Some (ids, r2) =>
      let '(frac, r3) :=
        match r2 with
        | p :: d :: t => if (p =? 46) && is_digit d then span_digits (d :: t) else ([], r2)
        | _ => ([], r2)
        end in
      let '(ex, r4) :=
        match r3 with
        | e :: t =>
            if (e =? 101) || (e =? 69) then
              match exp_part t with Some x => (Some x, x.2) | None => (None, r3) end
            else (None, r3)
        | [] => (None, r3)
        end in
      match frac, ex with
      | [], None =>
          if Nat.ltb max_str_digits (length ids) then inl (JValue (int_limit_msg (length ids)))
          else let n := Z.of_N (digits_value ids) in inr (VInt (if neg then - n else n)%Z, r4)
      | _, _ =>
          let e := match ex with
                   | Some (eneg, eds, _) =>
                       let z := Z.of_N (digits_value eds) in if eneg then (- z)%Z else z
                   | None => 0%Z
                   end in
          inr (VFloat (mk_float neg (digits_value (ids ++ frac)) (e - Z.of_nat (length frac))%Z), r4)
      end
  end.

(** [scan_once_unicode] and the loops of [_parse_object_unicode] and
    [_parse_array_unicode]; [obj_members] and [arr_items] start at a key
    and at an element. *)
Fixpoint scan_once (n : nat) (r : pystr) {struct n} : jres pyval :=
  match n with
  | O => inl JFuel
  | S n' =>
      match r with
      | [] => inl (JFail msg_expecting_value 0)
      | c :: t =>
          if c =? 34 then
            match scan_str (length r) t [] with
            | inl f => inl f
            | inr (s, rest) => inr (VStr s, rest)
            end
          else if c =? 123 then
            match skip_ws t with
            | d :: t' => if d =? 125 then inr (VDict [], t') else obj_members n' (d :: t') []
            | [] => obj_members n' [] []
            end
          else if c =? 91 then
            match skip_ws t with
            | d :: t' => if d =? 93 then inr (VList [], t') else arr_items n' (d :: t') []
            | [] => arr_items n' [] []
            end
          else if starts_with (u "null") r then inr (VNone, drop 4 r)
          else if starts_with (u "true") r then inr (VBool true, drop 4 r)
          else if starts_with (u "false") r then inr (VBool false, drop 5 r)
          else if starts_with (u "NaN") r then inr (VFloat FNaN, drop 3 r)
          else if starts_with (u "Infinity") r then inr (VFloat (FInf false), drop 8 r)
          else if starts_with (u "-Infinity") r then inr (VFloat (FInf true), drop 9 r)
          else scan_number r
      end
  end
with obj_members (n : nat) (r : pystr) (acc : pydict) {struct n} : jres pyval :=
  match n with
  | O => inl JFuel
  | S n' =>
      match r with
      | c :: t =>
          if c =? 34 then
            match scan_str (length r) t [] with
            | inl f => inl f
            | inr (key, r1) =>
                match skip_ws r1 with
                | d :: t1 =>
                    if d =? 58 then
                      match scan_once n' (skip_ws t1) with
                      | inl f => inl f
                      | inr (v, r3) =>
                          let acc' := dict_set acc key v in
                          match skip_ws r3 with
                          | e :: t3 =>
                              if e =? 125 then inr (VDict acc', t3)
                              else if e =? 44 then obj_members n' (skip_ws t3) acc'
                              else inl (JFail msg_comma (length (e :: t3)))
                          | [] => inl (JFail msg_comma 0)
                          end
                      end
                    else inl (JFail msg_colon (length (d :: t1)))
                | [] => inl (JFail msg_colon 0)
                end
            end
          else inl (JFail msg_prop_name (length r))
      | [] => inl (JFail msg_prop_name 0)
      end
  end
with arr_items (n : nat) (r : pystr) (acc : list pyval) {struct n} : jres pyval :=
  match n with
  | O => inl JFuel
  | S n' =>
      match scan_once n' r with
      | inl f => inl f
      | inr (v, r1) =>
          match skip_ws r1 with
          | e :: t =>
              if e =? 93 then inr (VList (acc ++ [v]), t)
              else if e =? 44 then arr_items n' (skip_ws t) (acc ++ [v])
              else inl (JFail msg_comma (length (e :: t)))
          | [] => inl (JFail msg_comma 0)
          end
      end
  end.

(** The fuel [json_loads] gives the scanner: twice the length of the text
    plus one (see [scan_once_fuel_enough]). *)
Definition scan_fuel (r : pystr) : nat := 2 * length r + 1.

(** [json.loads(doc)] on a [str]. *)
Definition json_loads (doc : pystr) : exn + pyval :=
  if starts_with [65279] doc then inl (JSONDecodeError msg_bom doc 0)
  else
    let r := skip_ws doc in
    match scan_once (scan_fuel r) r with
    | inl (JFail msg rem) => inl (JSONDecodeError msg doc (length doc - rem))
    | inl (JValue msg) => inl (ValueError msg)
    | inl JFuel => inl (ValueError [])
    | inr (v, rest) =>
        match skip_ws rest with
        | [] => inr v
        | rest' => inl (JSONDecodeError msg_extra_data doc (length doc - length rest'))
        end
    end.

(** ** Encoder *)

Record dump_opts : Type := {
  ensure_ascii : bool;
  indent : option nat;
  item_sep : pystr;
  key_sep : pystr;
  allow_nan : bool
}.

(** [json.dumps(v)] *)
Definition opts_default : dump_opts :=
  {| ensure_ascii := true; indent := None; item_sep := u ", "; key_sep := u ": ";
     allow_nan := true |}.

(** [json.dumps(v, indent=k)] *)
Definition opts_indent (k : nat) : dump_opts :=
  {| ensure_ascii := true; indent := Some k; item_sep := u ","; key_sep := u ": ";
     allow_nan := true |}.

Definition hex_digit (n : N) : N := if n <? 10 then 48 + n else 87 + n.

Definition hex4 (n : N) : pystr :=
  [hex_digit (n / 4096 mod 16); hex_digit (n / 256 mod 16); hex_digit (n / 16 mod 16);
   hex_digit (n mod 16)].

Definition u_escape (n : N) : pystr := 92 :: 117 :: hex4 n.

(** One character of a string literal: [ascii_escape_unichar] when
    [ensure_ascii], [escape_unicode]'s rules otherwise. *)
Definition esc_char (ascii : bool) (c : N) : pystr :=
  if c =? 34 then [92; 34] else if c =? 92 then [92; 92]
  else if c =? 10 then [92; 110] else if c =? 13 then [92; 114]
  else if c =? 9 then [92; 116] else if c =? 8 then [92; 98]
  else if c =? 12 then [92; 102]
  else if c <? 32 then u_escape c
  else if ascii && (126 <? c) then
    if c <? 65536 then u_escape c
    else let v := c - 65536 in
         u_escape (55296 + v / 1024 mod 1024) ++ u_escape (56320 + v mod 1024)
  else [c].

Definition encode_str (ascii : bool) (s : pystr) : pystr :=
  34 :: mjoin (map (esc_char ascii) s) ++ [34].

Fixpoint repeat_char (c : N) (n : nat) : pystr :=
  match n with O => [] | S k => c :: repeat_char c k end.

(** The exponent of the scientific notation: a sign and two digits at
    least. *)
Definition exp_text (e : Z) : pystr :=
  (if (e <? 0)%Z then 45 else 43)
    :: (let ds := str_of_N (Z.to_N (Z.abs e)) in if Nat.ltb (length ds) 2 then 48 :: ds else ds).

(** [float.__repr__] of [mant * 10^exp] ([mant] normalized): the shortest
    digits, placed by [format_float_short] in 'r' mode. *)
Definition repr_finite (neg : bool) (mant : N) (exp : Z) : pystr :=
  let ds := str_of_N mant in
  let n := Z.of_nat (length ds) in
  let decpt := (n + exp)%Z in
  let body :=
    if (decpt <=? -4)%Z || (16 <? decpt)%Z then
      match ds with
      | d :: rest => d :: (match rest with [] => [] | _ => 46 :: rest end) ++ 101 :: exp_text (decpt - 1)
      | [] => []
      end
    else if (decpt <=? 0)%Z then u "0." ++ repeat_char 48 (Z.to_nat (- decpt)) ++ ds
    else if (decpt <? n)%Z then take (Z.to_nat decpt) ds ++ 46 :: drop (Z.to_nat decpt) ds
    else ds ++ repeat_char 48 (Z.to_nat (decpt - n)) ++ u ".0" in
  if neg then 45 :: body else body.

Definition float_text (allow : bool) (f : pyfloat) : exn + pystr :=
  match f with
  | FFin neg m e => inr (repr_finite neg m e)
  | FNaN => if allow then inr (u "NaN") else inl (ValueError (u "Out of range float values are not JSON compliant"))
  | FInf neg =>
      if allow then inr (if neg then u "-Infinity" else u "Infinity")
      else inl (ValueError (u "Out of range float values are not JSON compliant"))
  end.

(** The text around the items of a non-empty container at depth [lvl]:
    [_iterencode_list] and [_iterencode_dict]. *)
Definition wrap (o : dump_opts) (lvl : nat) (op cl : N) (items : list pystr) : pystr :=
  match indent o with
  | None => op :: py_join (item_sep o) items ++ [cl]
  | Some k =>
      let nl d := c_newline :: repeat_char 32 (k * d) in
      op :: nl (S lvl) ++ py_join (item_sep o ++ nl (S lvl)) items ++ nl lvl ++ [cl]
  end.

Fixpoint encode (o : dump_opts) (lvl : nat) (v : pyval) : exn + pystr :=
  match v with
  | VNone => inr (u "null")
  | VBool true => inr (u "true")
  | VBool false => inr (u "false")
  | VInt z => inr (str_of_Z z)
  | VFloat f => float_text (allow_nan o) f
  | VStr s => inr (encode_str (ensure_ascii o) s)
  | VList [] => inr (u "[]")
  | VList l =>
      match seq_results (map (encode o (S lvl)) l) with
      | inl e => inl e
      | inr items => inr (wrap o lvl 91 93 items)
      end
  | VDict [] => inr (u "{}")
  | VDict d =>
      match seq_results (map (fun kv => match encode o (S lvl) kv.2 with
                                    | inl e => inl e
                                    | inr t => inr (encode_str (ensure_ascii o) kv.1 ++ key_sep o ++ t)
                                    end) d) with
      | inl e => inl e
      | inr items => inr (wrap o lvl 123 125 items)
      end
  end.

(** [json.dumps(v, **opts)] *)
Definition json_dumps (o : dump_opts) (v : pyval) : exn + pystr := encode o 0 v.

(** ** Termination of the scanner *)

Local Open Scope nat_scope.

Lemma skip_ws_length s : length (skip_ws s) <= length s.
Proof. induction s as [|c s IH]; simpl; [lia|]. case_match; simpl; lia. Qed.

Lemma scan_str_length b r acc s rest :
  scan_str b r acc = inr (s, rest) -> length rest < length r.
Proof.
  remember (length r) as k eqn:Hk. revert r acc Hk.
  induction k as [k IH] using lt_wf_ind. intros r acc -> Hs.
  destruct r as [|c r1]; cbn [scan_str] in Hs; [done|].
  repeat (case_match; simplify_eq; try done); cbn [length]; try lia.
  all: match goal with
       | H : scan_str _ ?r' _ = inr _ |- _ =>
           pose proof (IH (length r') ltac:(cbn [length]; lia) r' _ eq_refl H); cbn [length] in *; lia
       end.
Qed.

Lemma span_digits_length s ds t : span_digits s = (ds, t) -> length ds + length t = length s.
Proof.
  revert ds t; induction s as [|c s IH]; intros ds t H; cbn [span_digits] in H.
  - by simplify_eq.
  - case_match; [|simplify_eq; done]. destruct (span_digits s) as [ds' t'] eqn:E.
    simplify_eq. cbn [length]. rewrite <- (IH _ _ eq_refl). lia.
Qed.

Ltac span_lengths :=
  repeat match goal with H : span_digits _ = (_, _) |- _ => apply span_digits_length in H end.

Lemma exp_part_length t neg ds t2 : exp_part t = Some (neg, ds, t2) -> length t2 < length t.
Proof.
  unfold exp_part. intros H.
  repeat (case_match; simplify_eq; try done); span_lengths; cbn [length] in *; lia.
Qed.

Lemma scan_number_length r v rest : scan_number r = inr (v, rest) -> length rest < length r.
Proof.
  unfold scan_number. intros H.
  repeat (case_match; simplify_eq; try done);
    repeat match goal with
           | H : exp_part _ = Some ?p |- _ => destruct p as [[??]?]; apply exp_part_length in H
           end; span_lengths; cbn [length fst snd] in *; lia.
Qed.

Ltac ws_lengths :=
  repeat match goal with
  | H : skip_ws ?x = ?y |- _ =>
      let L := fresh "L" in pose proof (skip_ws_length x) as L; rewrite H in L; clear H
  end;
  repeat match goal with
  | |- context [skip_ws ?x] =>
      let L := fresh "L" in pose proof (skip_ws_length x) as L; revert L;
      generalize (skip_ws x); intros ? L
  | H : context [skip_ws ?x] |- _ =>
      let L := fresh "L" in pose proof (skip_ws_length x) as L; revert L H;
      generalize (skip_ws x); intros ? L H
  end.

Ltac consume IH1 IH2 IH3 :=
  repeat match goal with
  | H : scan_str _ _ _ = inr _ |- _ => apply scan_str_length in H
  | H : scan_number _ = inr _ |- _ => apply scan_number_length in H
  | H : scan_once _ _ = inr _ |- _ => apply IH1 in H
  | H : obj_members _ _ _ = inr _ |- _ => apply IH2 in H
  | H : arr_items _ _ _ = inr _ |- _ => apply IH3 in H
  end; ws_lengths; rewrite ?length_drop; cbn [length] in *; lia.

(** Every successful scan consumes input. *)
Lemma scan_consumes n :
  (forall r v rest, scan_once n r = inr (v, rest) -> length rest < length r) /\
  (forall r acc v rest, obj_members n r acc = inr (v, rest) -> length rest < length r) /\
  (forall r acc v rest, arr_items n r acc = inr (v, rest) -> length rest < length r).
Proof.
  induction n as [|n (IH1 & IH2 & IH3)]; [split_and!; done|].
  split_and!; intros r.
  - intros v rest H. cbn [scan_once] in H.
    repeat (case_match; simplify_eq; try done); consume IH1 IH2 IH3.
  - intros acc v rest H. cbn [obj_members] in H.
    repeat (case_match; simplify_eq; try done); consume IH1 IH2 IH3.
  - intros acc v rest H. cbn [arr_items] in H.
    repeat (case_match; simplify_eq; try done); consume IH1 IH2 IH3.
Qed.

Lemma scan_str_no_fuel b r acc : scan_str b r acc <> inl JFuel.
Proof.
  revert acc. induction r as [r IH] using (induction_ltof1 _ (@length N)); unfold ltof in IH.
  intros acc. destruct r as [|c r1]; cbn [scan_str]; [done|].
  repeat (case_match; simplify_eq; try done); apply IH; cbn [length]; lia.
Qed.

Lemma scan_number_no_fuel r : scan_number r <> inl JFuel.
Proof. unfold scan_number. by repeat (case_match; simplify_eq; try done). Qed.

Ltac fuel_ok IH1 IH2 IH3 :=
  let Hc := fresh "Hc" in
  repeat match goal with
  | H : scan_str _ _ _ = inr _ |- _ => apply scan_str_length in H
  | H : scan_once _ _ = inr _ |- _ => apply (proj1 (scan_consumes _)) in H
  end;
  first
  [ done
  | apply scan_number_no_fuel
  | match goal with
    | H : scan_str _ _ _ = inl ?j |- inl ?j <> inl JFuel =>
        intros ?; simplify_eq; by apply scan_str_no_fuel in H
    | H : scan_once _ _ = inl ?j |- inl ?j <> inl JFuel => intros ?; simplify_eq; revert H; apply IH1
    | |- obj_members _ _ _ <> inl JFuel => apply IH2
    | |- arr_items _ _ _ <> inl JFuel => apply IH3
    end; ws_lengths; cbn [length] in *; lia ].

(** The fuel each scanner needs: twice the length of its input plus one,
    and one more for the array loop, which scans an item with the fuel it
    was given less one. *)
Lemma scan_fuel_sufficient n :
  (forall r, 2 * length r + 1 <= n -> scan_once n r <> inl JFuel) /\
  (forall r acc, 2 * length r + 1 <= n -> obj_members n r acc <> inl JFuel) /\
  (forall r acc, 2 * length r + 2 <= n -> arr_items n r acc <> inl JFuel).
Proof.
  induction n as [|n (IH1 & IH2 & IH3)]; [split_and!; intros; lia|].
  split_and!; intros r.
  - intros Hn. cbn [scan_once].
    repeat (case_match; simplify_eq; try done); fuel_ok IH1 IH2 IH3.
  - intros acc Hn. cbn [obj_members].
    repeat (case_match; simplify_eq; try done); fuel_ok IH1 IH2 IH3.
  - intros acc Hn. cbn [arr_items].
    repeat (case_match; simplify_eq; try done); fuel_ok IH1 IH2 IH3.
Qed.

(** The scanner never runs out of fuel: [scan_once] started with
    [scan_fuel r] (twice the length of the text plus one) ends with a value
    or a JSON error, never with exhausted fuel, so [json_loads] never takes
    its [JFuel] branch.  Each object member and each array item consumes
    input, and an array item spends two units of fuel. *)
Theorem scan_once_fuel_enough (r : pystr) : scan_once (scan_fuel r) r <> inl JFuel.
Proof. apply scan_fuel_sufficient. unfold scan_fuel. lia. Qed.
