(* ===== verification/PyObj.v ===== *)
(** * Python operators on the values json.loads returns

    The services apply Python operators to whatever the model answered:
    [k in x], [x[k] = v], [x.get(k, d)], [x[:n]], [for y in x],
    [Model( **x)], [str(x)] and [repr(x)].  Each is modelled on [pyval] with
    the exception CPython 3.11 raises when [x] has the wrong type: a
    [TypeError] for a membership test on a number, an [AttributeError] for
    [.get] on a list, and so on.  These are the paths by which a malformed
    answer reaches the [except] clauses of services.py.

    [repr] escapes the characters the model knows to be unprintable (C0
    and C1 controls, the soft hyphen, the Unicode spaces other than the
    ASCII space, surrogates); the full Unicode printability table of
    [str.isprintable] is not modelled. *)

From S2P Require Import Prelude PyStr PyExn Json.

Local Open Scope N_scope.

(** [type(x).__name__] *)
Definition type_name (v : pyval) : pystr :=
  match v with
  | VNone => u "NoneType" | VBool _ => u "bool" | VInt _ => u "int"
  | VFloat _ => u "float" | VStr _ => u "str" | VList _ => u "list" | VDict _ => u "dict"
  end.

(** [p in s] on strings: [p] occurs in [s]. *)
Fixpoint is_substring (p s : pystr) : bool :=
  starts_with p s || match s with [] => false | _ :: r => is_substring p r end.

(** [needle in x] for a string [needle]. *)
Definition py_contains (x : pyval) (needle : pystr) : exn + bool :=
  match x with
  | VDict d => inr (dict_has d needle)
  | VList l => inr (existsb (fun y => match y with VStr s => bool_decide (s = needle) | _ => false end) l)
  | VStr s => inr (is_substring needle s)
  | _ => inl (TypeError (u "argument of type '" ++ type_name x ++ u "' is not iterable"))
  end.

(** [x[k] = v] for a string key [k]: the new value of [x]. *)
Definition py_setitem (x : pyval) (k : pystr) (v : pyval) : exn + pyval :=
  match x with
  | VDict d => inr (VDict (dict_set d k v))
  | VList _ => inl (TypeError (u "list indices must be integers or slices, not str"))
  | _ => inl (TypeError (u "'" ++ type_name x ++ u "' object does not support item assignment"))
  end.

(** [x.get(k, default)] *)
Definition py_get (x : pyval) (k : pystr) (default : pyval) : exn + pyval :=
  match x with
  | VDict d => inr (dict_get_or d k default)
  | _ => inl (AttributeError (u "'" ++ type_name x ++ u "' object has no attribute 'get'"))
  end.

(** [x[:n]] *)
Definition py_slice_to (x : pyval) (n : nat) : exn + pyval :=
  match x with
  | VStr s => inr (VStr (take n s))
  | VList l => inr (VList (take n l))
  | VDict _ => inl (TypeError (u "unhashable type: 'slice'"))
  | _ => inl (TypeError (u "'" ++ type_name x ++ u "' object is not subscriptable"))
  end.

(** The items [for y in x] visits. *)
Definition py_iter (x : pyval) : exn + list pyval :=
  match x with
  | VList l => inr l
  | VStr s => inr (map (fun c => VStr [c]) s)
  | VDict d => inr (map (fun kv => VStr kv.1) d)
  | _ => inl (TypeError (u "'" ++ type_name x ++ u "' object is not iterable"))
  end.

(** The keyword arguments of [Model( **x)]. *)
Definition py_kwargs (model : pystr) (x : pyval) : exn + pydict :=
  match x with
  | VDict d => inr d
  | _ => inl (TypeError (model ++ u "() argument after ** must be a mapping, not " ++ type_name x))
  end.

(** ** repr and str *)

Definition hex2 (n : N) : pystr := [hex_digit (n / 16 mod 16); hex_digit (n mod 16)].

Definition is_unprintable (c : N) : bool :=
  (c <? 32) || ((127 <=? c) && (c <=? 160)) || (c =? 173)
  || ((128 <=? c) && is_space c) || ((55296 <=? c) && (c <=? 57343)).

Definition repr_char (q c : N) : pystr :=
  if c =? q then [92; q] else if c =? 92 then [92; 92]
  else if c =? 9 then [92; 116] else if c =? 10 then [92; 110] else if c =? 13 then [92; 114]
  else if is_unprintable c then
    if c <? 256 then 92 :: 120 :: hex2 c else 92 :: 117 :: hex4 c
  else [c].

(** [repr(s)] of a string: single quotes unless the text has a single
    quote and no double quote. *)
Definition repr_str (s : pystr) : pystr :=
  let q := if existsb (fun c => c =? 39) s && negb (existsb (fun c => c =? 34) s) then 34 else 39 in
  q :: mjoin (map (repr_char q) s) ++ [q].

Definition repr_float (f : pyfloat) : pystr :=
  match f with
  | FFin neg m e => repr_finite neg m e
  | FInf neg => if neg then u "-inf" else u "inf"
  | FNaN => u "nan"
  end.

Fixpoint py_repr (v : pyval) : pystr :=
  match v with
  | VNone => u "None"
  | VBool b => if b then u "True" else u "False"
  | VInt z => str_of_Z z
  | VFloat f => repr_float f
  | VStr s => repr_str s
  | VList l => 91 :: py_join (u ", ") (map py_repr l) ++ [93]
  | VDict d => 123 :: py_join (u ", ") (map (fun kv => repr_str kv.1 ++ u ": " ++ py_repr kv.2) d) ++ [125]
  end.

(** [str(x)] *)
Definition py_str (v : pyval) : pystr := match v with VStr s => s | _ => py_repr v end.
