(* ===== verification/World.v ===== *)
(** * The world a request runs in: model gateway, clock, files, libraries

    The handlers of services.py and routers.py touch the outside world in
    five ways, each an operation of this file:

    - [generate_content]: [model.generate_content(parts).text] (config.py
      builds [model]); the answer of the hosted model to the n-th call of
      the process is given by the environment, [env_model], which may also
      raise (quota, transport, blocked answer).  Every call is recorded in
      [w_calls], so theorems can speak of the prompts sent and of their
      number and order.
    - [now]: [datetime.now()], read from [env_clock] at the n-th reading,
      in microseconds of local time since the epoch.
    - [print]: a line on standard output, [w_stdout].
    - the file system ([w_files], path to bytes, and [w_dirs]):
      [os.path.exists], [open(..).read()], writes, [os.unlink],
      [os.makedirs] and [tempfile.NamedTemporaryFile(delete=False)].
    - the python-docx and PIL libraries, which the model does not open:
      [env_docx] gives the paragraphs of a document and [env_image] the
      image a byte string decodes to.

    The environment is the interface between the modelled code and the
    outside: every theorem about a handler holds for all environments, or
    for those satisfying a stated hypothesis (for instance a model that
    always fails). *)

From S2P Require Import Prelude PyStr PyExn.

(** A part of a prompt: text, or an image (a PIL image, by its mode). *)
Record image : Type := { img_mode : pystr; img_data : list N }.

Inductive part : Type :=
| PText (s : pystr)
| PImage (i : image).

Record Env : Type := {
  env_model : nat -> list part -> exn + pystr;
  env_clock : nat -> Z;
  env_docx : list N -> exn + list pystr;
  env_image : list N -> exn + image;
  env_convert : image -> pystr -> exn + image
}.

Record World : Type := {
  w_env : Env;
  w_calls : list (list part);   (** prompts sent, oldest first *)
  w_reads : nat;                (** clock readings so far *)
  w_stdout : list pystr;        (** printed lines, oldest first *)
  w_files : list (pystr * list N);
  w_dirs : list pystr;
  w_tmp : nat                   (** temporary files created so far *)
}.

Abbreviation M := (PyM World).

Definition set_calls (w : World) (c : list (list part)) : World :=
  {| w_env := w_env w; w_calls := c; w_reads := w_reads w; w_stdout := w_stdout w;
     w_files := w_files w; w_dirs := w_dirs w; w_tmp := w_tmp w |}.
Definition set_reads (w : World) (n : nat) : World :=
  {| w_env := w_env w; w_calls := w_calls w; w_reads := n; w_stdout := w_stdout w;
     w_files := w_files w; w_dirs := w_dirs w; w_tmp := w_tmp w |}.
Definition set_stdout (w : World) (o : list pystr) : World :=
  {| w_env := w_env w; w_calls := w_calls w; w_reads := w_reads w; w_stdout := o;
     w_files := w_files w; w_dirs := w_dirs w; w_tmp := w_tmp w |}.
Definition set_files (w : World) (f : list (pystr * list N)) : World :=
  {| w_env := w_env w; w_calls := w_calls w; w_reads := w_reads w; w_stdout := w_stdout w;
     w_files := f; w_dirs := w_dirs w; w_tmp := w_tmp w |}.
Definition set_dirs (w : World) (d : list pystr) : World :=
  {| w_env := w_env w; w_calls := w_calls w; w_reads := w_reads w; w_stdout := w_stdout w;
     w_files := w_files w; w_dirs := d; w_tmp := w_tmp w |}.
Definition set_tmp (w : World) (n : nat) : World :=
  {| w_env := w_env w; w_calls := w_calls w; w_reads := w_reads w; w_stdout := w_stdout w;
     w_files := w_files w; w_dirs := w_dirs w; w_tmp := n |}.

(** [model.generate_content(parts).text]: the call is recorded whether it
    answers or raises. *)
Definition generate_content (parts : list part) : M pystr := fun w =>
  (env_model (w_env w) (length (w_calls w)) parts, set_calls w (w_calls w ++ [parts])).

(** [datetime.now()] *)
Definition now : M Z := fun w =>
  (inr (env_clock (w_env w) (w_reads w)), set_reads w (S (w_reads w))).

(** [print(s)] *)
Definition print (s : pystr) : M unit := fun w =>
  (inr tt, set_stdout w (w_stdout w ++ [s])).

(** ** Files *)

Fixpoint file_lookup (fs : list (pystr * list N)) (p : pystr) : option (list N) :=
  match fs with
  | [] => None
  | (q, b) :: r => if decide (p = q) then Some b else file_lookup r p
  end.

Definition file_remove (fs : list (pystr * list N)) (p : pystr) : list (pystr * list N) :=
  filter (fun qb => qb.1 <> p) fs.

(** [os.path.exists(p)] *)
Definition path_exists (p : pystr) : M bool := fun w =>
  (inr (bool_decide (is_Some (file_lookup (w_files w) p)) || bool_decide (p ∈ w_dirs w)), w).

(** [open(p, "rb").read()] *)
Definition read_file (p : pystr) : M (list N) := fun w =>
  match file_lookup (w_files w) p with
  | Some b => (inr b, w)
  | None => (inl (FileNotFound p), w)
  end.

(** [open(p, "w"/"wb").write(b)]: the directory must exist. *)
Definition write_file (dir p : pystr) (b : list N) : M unit := fun w =>
  if bool_decide (dir = [] \/ dir ∈ w_dirs w) then
    (inr tt, set_files w (file_remove (w_files w) p ++ [(p, b)]))
  else (inl (FileNotFound p), w).

(** [os.unlink(p)] *)
Definition unlink (p : pystr) : M unit := fun w =>
  match file_lookup (w_files w) p with
  | Some _ => (inr tt, set_files w (file_remove (w_files w) p))
  | None => (inl (FileNotFound p), w)
  end.

(** [os.makedirs(d, exist_ok=True)] *)
Definition makedirs (d : pystr) : M unit := fun w =>
  (inr tt, if bool_decide (d ∈ w_dirs w) then w else set_dirs w (w_dirs w ++ [d])).

(** The name of the n-th temporary file with a given suffix. *)
Definition tmp_name (n : nat) (suffix : pystr) : pystr := u "/tmp/tmp" ++ str_of_nat n ++ suffix.

(** [tempfile.NamedTemporaryFile(delete=False, suffix=...)] written with
    [b] and closed: its name. *)
Definition tmp_file_write (suffix : pystr) (b : list N) : M pystr := fun w =>
  let p := tmp_name (w_tmp w) suffix in
  (inr p, set_tmp (set_files w (w_files w ++ [(p, b)])) (S (w_tmp w))).

(** ** Libraries *)

(** [[p.text for p in Document(path).paragraphs]] *)
Definition docx_paragraphs (path : pystr) : M (list pystr) := fun w =>
  match file_lookup (w_files w) path with
  | Some b => (env_docx (w_env w) b, w)
  | None => (inl (FileNotFound path), w)
  end.

(** [Image.open(io.BytesIO(data))] *)
Definition image_open (data : list N) : M image := fun w => (env_image (w_env w) data, w).

(** [img.convert(mode)] *)
Definition image_convert (i : image) (mode : pystr) : M image := fun w =>
  (env_convert (w_env w) i mode, w).

(** ** Sample environments

    A clock that starts at 2023-11-14T22:13:20 UTC and advances one
    second per reading, a model that answers from a list (and raises once
    the list is used up), and a model that is down. *)

(** The hosted model is down: every call raises [e]. *)
Definition model_down (env : Env) (e : exn) : Prop := forall n parts, env_model env n parts = inl e.

(** The n-th call of the process is answered with [resp], whatever the prompt. *)
Definition model_answers (env : Env) (n : nat) (resp : pystr) : Prop :=
  forall parts, env_model env n parts = inr resp.

Definition sample_clock (n : nat) : Z := (1700000000000000 + Z.of_nat n * 1000000)%Z.

Definition env_answers (answers : list pystr) : Env :=
  {| env_model := fun n _ => match answers !! n with
                             | Some a => inr a
                             | None => inl (UpstreamError (u "429 Resource has been exhausted"))
                             end;
     env_clock := sample_clock;
     env_docx := fun _ => inl (ValueError (u "File is not a zip file"));
     env_image := fun _ => inl (ValueError (u "cannot identify image file"));
     env_convert := fun i _ => inr i |}.

Definition world_of (env : Env) : World :=
  {| w_env := env; w_calls := []; w_reads := 0; w_stdout := []; w_files := []; w_dirs := []; w_tmp := 0 |}.

(** ** Operations that cannot raise *)

Lemma print_returns (s : pystr) : returns (fun _ => True) (print s).
Proof. intros w. by eexists. Qed.

Lemma now_returns : returns (fun _ => True) now.
Proof. intros w. by eexists. Qed.

Lemma makedirs_returns (d : pystr) : returns (fun _ => True) (makedirs d).
Proof. intros w. by eexists. Qed.

#[export] Hint Resolve print_returns now_returns makedirs_returns : pyauto.

(** ** Running the operations *)

Lemma run_generate_content_down (w : World) e parts :
  model_down (w_env w) e -> generate_content parts w = (inl e, set_calls w (w_calls w ++ [parts])).
Proof. intros Hd. unfold generate_content. by rewrite Hd. Qed.

Lemma run_print {A} (s : pystr) (k : M A) (w : World) :
  (print s;; k) w = k (set_stdout w (w_stdout w ++ [s])).
Proof. reflexivity. Qed.

Lemma run_now {A} (k : Z -> M A) (w : World) :
  (now ≫= k) w = k (env_clock (w_env w) (w_reads w)) (set_reads w (S (w_reads w))).
Proof. reflexivity. Qed.

Lemma w_env_set_calls w c : w_env (set_calls w c) = w_env w. Proof. done. Qed.
Lemma w_env_set_stdout w o : w_env (set_stdout w o) = w_env w. Proof. done. Qed.
Lemma w_env_set_reads w n : w_env (set_reads w n) = w_env w. Proof. done. Qed.
Lemma w_reads_set_calls w c : w_reads (set_calls w c) = w_reads w. Proof. done. Qed.
Lemma w_reads_set_stdout w o : w_reads (set_stdout w o) = w_reads w. Proof. done. Qed.
Lemma w_reads_set_reads w n : w_reads (set_reads w n) = n. Proof. done. Qed.

Lemma run_generate_content_answers (w : World) resp parts :
  model_answers (w_env w) (length (w_calls w)) resp ->
  generate_content parts w = (inr resp, set_calls w (w_calls w ++ [parts])).
Proof. intros Ha. unfold generate_content. by rewrite Ha. Qed.

Lemma file_lookup_remove_app fs p q b :
  file_lookup (file_remove fs p ++ [(q, b)]) p = if decide (p = q) then Some b else None.
Proof.
  induction fs as [|[r c] fs IH]; [done|]. unfold file_remove in *. rewrite filter_cons. simpl.
  destruct (decide (r ≠ p)) as [Hr|Hr]; simpl; [|apply IH].
  rewrite decide_False; [apply IH|]. intros Heq. apply Hr. by symmetry.
Qed.

Lemma file_lookup_write fs p b : file_lookup (file_remove fs p ++ [(p, b)]) p = Some b.
Proof. rewrite file_lookup_remove_app. by rewrite decide_True. Qed.

Lemma file_lookup_app_fresh fs p b : file_lookup fs p = None -> file_lookup (fs ++ [(p, b)]) p = Some b.
Proof.
  induction fs as [|[q c] fs IH]; simpl; [by rewrite decide_True|].
  case_decide; [done|]. apply IH.
Qed.

Lemma file_lookup_remove fs p : file_lookup (file_remove fs p) p = None.
Proof.
  induction fs as [|[q c] fs IH]; [done|]. unfold file_remove in *. rewrite filter_cons.
  destruct (decide ((q, c).1 ≠ p)) as [Hq|Hq]; simpl; [|apply IH].
  rewrite decide_False; [apply IH|]. intros ->. by apply Hq.
Qed.
