(* ===== verification/Clock.v ===== *)
(** * Texts of datetime.now(): timestamps, isoformat, strftime

    [World.now] reads the clock as microseconds since 1970-01-01T00:00 of
    local time; the model takes the process to run in UTC, so that
    [datetime.now().timestamp()] is that count divided by 10^6.  The
    services use [int(datetime.now().timestamp())] (claim and plan ids),
    [datetime.now().timestamp()] printed in a report id,
    [datetime.now().isoformat()] and [strftime("%Y%m%d_%H%M%S")].  The
    calendar date of a day count is Howard Hinnant's [civil_from_days],
    the algorithm CPython's [ord_to_ymd] computes with other constants. *)

From S2P Require Import Prelude PyStr Json.

Local Open Scope Z_scope.

(** Year, month, day of the day [z] counted from 1970-01-01. *)
Definition civil_from_days (z : Z) : Z * Z * Z :=
  let z := z + 719468 in
  let era := z / 146097 in
  let doe := z - era * 146097 in
  let yoe := (doe - doe / 1460 + doe / 36524 - doe / 146096) / 365 in
  let y := yoe + era * 400 in
  let doy := doe - (365 * yoe + yoe / 4 - yoe / 100) in
  let mp := (5 * doy + 2) / 153 in
  let d := doy - (153 * mp + 2) / 5 + 1 in
  let m := if mp <? 10 then mp + 3 else mp - 9 in
  (if m <=? 2 then y + 1 else y, m, d).

(** The day count of a date: the inverse of [civil_from_days]. *)
Definition days_from_civil (y m d : Z) : Z :=
  let y := if m <=? 2 then y - 1 else y in
  let era := y / 400 in
  let yoe := y - era * 400 in
  let doy := (153 * (if m >? 2 then m - 3 else m + 9) + 2) / 5 + d - 1 in
  let doe := yoe * 365 + yoe / 4 - yoe / 100 + doy in
  era * 146097 + doe - 719468.

(** [n] in decimal, padded with zeros to [w] digits. *)
Definition pad (w : nat) (n : Z) : pystr :=
  let ds := str_of_N (Z.to_N n) in repeat_char 48 (w - length ds) ++ ds.

Definition usec_per_day : Z := 86400000000.

(** [int(datetime.now().timestamp())] *)
Definition timestamp_int (us : Z) : Z := Z.quot us 1000000.

(** [datetime.now().timestamp()] as a float. *)
Definition timestamp_float (us : Z) : pyfloat := mk_float (us <? 0) (Z.abs_N us) (-6).

Definition split_time (us : Z) : Z * Z * Z * Z * Z * Z * Z :=
  let days := us / usec_per_day in
  let rest := us mod usec_per_day in
  let '(y, mo, d) := civil_from_days days in
  let secs := rest / 1000000 in
  (y, mo, d, secs / 3600, secs / 60 mod 60, secs mod 60, rest mod 1000000).

(** [datetime.isoformat()]: the microseconds are shown when not zero. *)
Definition isoformat (us : Z) : pystr :=
  let '(y, mo, d, h, mi, s, f) := split_time us in
  pad 4 y ++ [45%N] ++ pad 2 mo ++ [45%N] ++ pad 2 d ++ [84%N] ++ pad 2 h ++ [58%N] ++ pad 2 mi
    ++ [58%N] ++ pad 2 s ++ (if f =? 0 then [] else 46%N :: pad 6 f).

(** [datetime.strftime("%Y%m%d_%H%M%S")] *)
Definition strftime_compact (us : Z) : pystr :=
  let '(y, mo, d, h, mi, s, _) := split_time us in
  pad 4 y ++ pad 2 mo ++ pad 2 d ++ [95%N] ++ pad 2 h ++ pad 2 mi ++ pad 2 s.
