(* ===== verification/Models.v ===== *)
(** * The pydantic models of models.py

    One Module per class of models.py: its enum constructors or record
    fields with the source's names, the validation pydantic (v2, lax mode)
    performs when the code calls [Model( **data)] on values decoded from
    JSON, and [dump], the value of [.dict()] ([model_dump()] in Python mode, a
    non-finite float kept as it is; FastAPI's JSON mode for the
    responses of a [response_model] is [Server.json_mode]).  Validation checks every field and collects all errors before
    raising one [ValidationError], as pydantic does; fields that are not
    declared are ignored.  The lax conversions modelled are those a JSON
    value can meet: a float field takes an int, a bool or a numeric
    string, a bool field takes 0, 1 and the strings of
    [str_as_bool], a str field takes only a str.  The text of pydantic's
    error report is abbreviated to one line per error
    ([loc], message and error type). *)

From S2P Require Import Prelude PyStr PyExn Json PyObj.

Local Open Scope N_scope.

(** ** Validation results *)

(** Errors so far, or a value. *)
Definition vres (A : Type) : Type := list pystr + A.

Definition vap {A B} (f : vres (A -> B)) (x : vres A) : vres B :=
  match f, x with
  | inr g, inr a => inr (g a)
  | inl e1, inl e2 => inl (e1 ++ e2)
  | inl e, inr _ | inr _, inl e => inl e
  end.

Declare Scope vres_scope.
Local Notation "f <:> x" := (vap f x) (at level 40, left associativity) : vres_scope.
Local Open Scope vres_scope.

Definition verror (loc msg ty : pystr) : list pystr :=
  [loc ++ [c_newline; 32; 32] ++ msg ++ u " [type=" ++ ty ++ u "]"].

Definition loc_index (loc : pystr) (i : nat) : pystr := loc ++ [46] ++ str_of_nat i.

(** The [ValidationError] of a model, or its value. *)
Definition finish {A} (title : pystr) (r : vres A) : exn + A :=
  match r with inl errs => inl (ValidationError title errs) | inr a => inr a end.

(** A required field, and a field with a default. *)
Definition req {A} (d : pydict) (name : pystr) (f : pystr -> pyval -> vres A) : vres A :=
  match dict_get d name with
  | Some v => f name v
  | None => inl (verror name (u "Field required") (u "missing"))
  end.

Definition opt {A} (d : pydict) (name : pystr) (default : A) (f : pystr -> pyval -> vres A) : vres A :=
  match dict_get d name with Some v => f name v | None => inr default end.

(** ** Field types *)

Definition v_str (loc : pystr) (v : pyval) : vres pystr :=
  match v with
  | VStr s => inr s
  | _ => inl (verror loc (u "Input should be a valid string") (u "string_type"))
  end.

Definition ascii_lower (c : N) : N := if (65 <=? c) && (c <=? 90) then c + 32 else c.

(** [str_as_bool] of pydantic-core. *)
Definition str_as_bool (s : pystr) : option bool :=
  let l := map ascii_lower s in
  if bool_decide (l ∈ [u "0"; u "off"; u "f"; u "false"; u "n"; u "no"]) then Some false
  else if bool_decide (l ∈ [u "1"; u "on"; u "t"; u "true"; u "y"; u "yes"]) then Some true
  else None.

Definition v_bool (loc : pystr) (v : pyval) : vres bool :=
  let bad := inl (verror loc (u "Input should be a valid boolean, unable to interpret input")
                          (u "bool_parsing")) in
  match v with
  | VBool b => inr b
  | VInt z => if (z =? 0)%Z then inr false else if (z =? 1)%Z then inr true else bad
  | VFloat (FFin _ 0 _) => inr false
  | VFloat (FFin false 1 0) => inr true
  | VFloat _ => bad
  | VStr s => match str_as_bool s with Some b => inr b | None => bad end
  | _ => inl (verror loc (u "Input should be a valid boolean") (u "bool_type"))
  end.

Definition float_of_Z (z : Z) : pyfloat := mk_float (z <? 0)%Z (Z.abs_N z) 0.

(** The text of a float as Rust's [str::parse::<f64>] reads it after
    trimming: an optional sign, then [inf], [infinity], [nan] in any case,
    or digits with an optional fraction and exponent. *)
Definition parse_float_text (s : pystr) : option pyfloat :=
  let t := strip s in
  let '(neg, body) := sign_split t in
  let l := map ascii_lower body in
  if bool_decide (l = u "inf" \/ l = u "infinity") then Some (FInf neg)
  else if bool_decide (l = u "nan") then Some FNaN
  else
    let '(ids, r1) := span_digits body in
    let '(fds, r2) := match r1 with
                      | p :: t => if p =? 46 then span_digits t else ([], r1)
                      | [] => ([], [])
                      end in
    match ids, fds with
    | [], [] => None
    | _, _ =>
        let ex := match r2 with
                  | [] => Some (0%Z, [])
                  | e :: t =>
                      if (e =? 101) || (e =? 69) then
                        let '(eneg, t1) := sign_split t in
                        let '(eds, t2) := span_digits t1 in
                        match eds with
                        | [] => None
                        | _ => let z := Z.of_N (digits_value eds) in Some ((if eneg then - z else z)%Z, t2)
                        end
                      else None
                  end in
        match ex with
        | Some (e, []) => Some (mk_float neg (digits_value (ids ++ fds)) (e - Z.of_nat (length fds))%Z)
        | _ => None
        end
    end.

Definition v_float (loc : pystr) (v : pyval) : vres pyfloat :=
  match v with
  | VFloat f => inr f
  | VInt z => inr (float_of_Z z)
  | VBool b => inr (if b then float_of_Z 1 else float_of_Z 0)
  | VStr s =>
      match parse_float_text s with
      | Some f => inr f
      | None => inl (verror loc (u "Input should be a valid number, unable to parse string as a number")
                             (u "float_parsing"))
      end
  | _ => inl (verror loc (u "Input should be a valid number") (u "float_type"))
  end.

Definition v_optional {A} (f : pystr -> pyval -> vres A) (loc : pystr) (v : pyval) : vres (option A) :=
  match v with VNone => inr None | _ => match f loc v with inl e => inl e | inr a => inr (Some a) end end.

Fixpoint v_items {A} (f : pystr -> pyval -> vres A) (loc : pystr) (i : nat) (l : list pyval) : vres (list A) :=
  match l with
  | [] => inr []
  | x :: r => inr cons <:> f (loc_index loc i) x <:> v_items f loc (S i) r
  end.

Definition v_list {A} (f : pystr -> pyval -> vres A) (loc : pystr) (v : pyval) : vres (list A) :=
  match v with
  | VList l => v_items f loc 0 l
  | _ => inl (verror loc (u "Input should be a valid list") (u "list_type"))
  end.

(** A [Dict[str, str]]. *)
Fixpoint v_str_pairs (loc : pystr) (d : pydict) : vres (list (pystr * pystr)) :=
  match d with
  | [] => inr []
  | (k, x) :: r => inr (fun s rest => (k, s) :: rest) <:> v_str (loc ++ [46] ++ k) x <:> v_str_pairs loc r
  end.

Definition v_str_dict (loc : pystr) (v : pyval) : vres (list (pystr * pystr)) :=
  match v with
  | VDict d => v_str_pairs loc d
  | _ => inl (verror loc (u "Input should be a valid dictionary") (u "dict_type"))
  end.

(** A nested model given as a JSON object. *)
Definition v_model {A} (title : pystr) (f : pydict -> vres A) (loc : pystr) (v : pyval) : vres A :=
  match v with
  | VDict d =>
      match f d with
      | inl errs => inl (map (fun e => loc ++ [46] ++ e) errs)
      | inr a => inr a
      end
  | _ => inl (verror loc (u "Input should be a valid dictionary or instance of " ++ title) (u "model_type"))
  end.

(** ** Enums *)

Module ClaimStatus.
Inductive t : Type := APPROVED | REJECTED | NEEDS_MORE_INFO | PENDING_REVIEW.

Definition value (s : t) : pystr :=
  match s with
  | APPROVED => u "approved" | REJECTED => u "rejected"
  | NEEDS_MORE_INFO => u "needs_more_info" | PENDING_REVIEW => u "pending_review"
  end.

Definition all : list t := [APPROVED; REJECTED; NEEDS_MORE_INFO; PENDING_REVIEW].

Definition of_value (s : pystr) : option t := List.find (fun m => bool_decide (value m = s)) all.

(** [ClaimStatus(x)] *)
Definition call (x : pyval) : exn + t :=
  match x with
  | VStr s => match of_value s with
              | Some m => inr m
              | None => inl (ValueError (py_repr x ++ u " is not a valid ClaimStatus"))
              end
  | _ => inl (ValueError (py_repr x ++ u " is not a valid ClaimStatus"))
  end.

End ClaimStatus.

Module ValidationIssueType.
Inductive t : Type :=
| MISSING_DOCUMENT | EXCLUSION_CLAUSE | COVERAGE_LIMIT | EXPIRED_POLICY
| INCOMPLETE_INFO | CONFLICTING_INFO.

Definition value (s : t) : pystr :=
  match s with
  | MISSING_DOCUMENT => u "missing_document" | EXCLUSION_CLAUSE => u "exclusion_clause"
  | COVERAGE_LIMIT => u "coverage_limit" | EXPIRED_POLICY => u "expired_policy"
  | INCOMPLETE_INFO => u "incomplete_info" | CONFLICTING_INFO => u "conflicting_info"
  end.

Definition all : list t :=
  [MISSING_DOCUMENT; EXCLUSION_CLAUSE; COVERAGE_LIMIT; EXPIRED_POLICY; INCOMPLETE_INFO; CONFLICTING_INFO].

Definition of_value (s : pystr) : option t := List.find (fun m => bool_decide (value m = s)) all.
End ValidationIssueType.

Module ActionPriority.
Inductive t : Type := HIGH | MEDIUM | LOW.

Definition value (s : t) : pystr :=
  match s with HIGH => u "high" | MEDIUM => u "medium" | LOW => u "low" end.

Definition all : list t := [HIGH; MEDIUM; LOW].

Definition of_value (s : pystr) : option t := List.find (fun m => bool_decide (value m = s)) all.
End ActionPriority.

(** An enum field: the value text, or pydantic's [enum] error listing the
    permitted values. *)
Definition v_enum {E} (all : list E) (value : E -> pystr) (loc : pystr) (v : pyval) : vres E :=
  let expected :=
    match reverse (map (fun m => repr_str (value m)) all) with
    | [] => []
    | [x] => x
    | x :: r => py_join (u ", ") (reverse r) ++ u " or " ++ x
    end in
  let bad := inl (verror loc (u "Input should be " ++ expected) (u "enum")) in
  match v with
  | VStr s => match List.find (fun m => bool_decide (value m = s)) all with Some m => inr m | None => bad end
  | _ => bad
  end.

(** ** Records *)

Definition str_list_dump (l : list pystr) : pyval := VList (map VStr l).
Definition opt_str_dump (o : option pystr) : pyval := match o with Some s => VStr s | None => VNone end.
Definition opt_float_dump (o : option pyfloat) : pyval := match o with Some f => VFloat f | None => VNone end.

Module ContentSection.
Record t : Type := mk { id : pystr; text : pystr }.

Definition fields (d : pydict) : vres t :=
  inr mk <:> req d (u "id") v_str <:> req d (u "text") v_str.

(** [ContentSection( **d)] *)
Definition validate (d : pydict) : exn + t := finish (u "ContentSection") (fields d).

Definition dump (c : t) : pyval := VDict [(u "id", VStr (id c)); (u "text", VStr (text c))].
End ContentSection.

Definition v_sections (loc : pystr) (v : pyval) : vres (list ContentSection.t) :=
  v_list (v_model (u "ContentSection") ContentSection.fields) loc v.

Definition sections_dump (l : list ContentSection.t) : pyval := VList (map ContentSection.dump l).

Module PolicyFile.
Record t : Type := mk {
  id : pystr; name : pystr; type : pystr; size : Z; uploadDate : pystr;
  structuredContent : list ContentSection.t }.

Definition dump (p : t) : pyval :=
  VDict [(u "id", VStr (id p)); (u "name", VStr (name p)); (u "type", VStr (type p));
         (u "size", VInt (size p)); (u "uploadDate", VStr (uploadDate p));
         (u "structuredContent", sections_dump (structuredContent p))].
End PolicyFile.

Module ProcessedReport.
Record t : Type := mk {
  reportId : pystr; reportName : pystr; reportType : pystr; reportSize : Z;
  reportContent : list ContentSection.t; customerId : pystr; policy : PolicyFile.t;
  mappings : list (pystr * pystr) }.

Definition dump (r : t) : pyval :=
  VDict [(u "reportId", VStr (reportId r)); (u "reportName", VStr (reportName r));
         (u "reportType", VStr (reportType r)); (u "reportSize", VInt (reportSize r));
         (u "reportContent", sections_dump (reportContent r));
         (u "customerId", VStr (customerId r)); (u "policy", PolicyFile.dump (policy r));
         (u "mappings", VDict (map (fun kv => (kv.1, VStr kv.2)) (mappings r)))].
End ProcessedReport.

Module ChatRequest.
Record t : Type := mk {
  message : pystr; reportContent : option (list ContentSection.t);
  policyContent : option (list ContentSection.t) }.

Definition fields (d : pydict) : vres t :=
  inr mk <:> req d (u "message") v_str
         <:> opt d (u "reportContent") None (v_optional v_sections)
         <:> opt d (u "policyContent") None (v_optional v_sections).
End ChatRequest.

Module ChatResponse.
Record t : Type := mk { response : pystr; timestamp : pystr }.

Definition dump (r : t) : pyval :=
  VDict [(u "response", VStr (response r)); (u "timestamp", VStr (timestamp r))].
End ChatResponse.

Module ValidationIssue.
Record t : Type := mk {
  issueType : ValidationIssueType.t; severity : pystr; status : pystr;
  checklistItem : pystr; description : pystr; affectedSections : list pystr;
  recommendation : pystr }.

Definition fields (d : pydict) : vres t :=
  inr mk <:> req d (u "issueType") (v_enum ValidationIssueType.all ValidationIssueType.value)
         <:> req d (u "severity") v_str <:> req d (u "status") v_str
         <:> req d (u "checklistItem") v_str <:> req d (u "description") v_str
         <:> req d (u "affectedSections") (v_list v_str)
         <:> req d (u "recommendation") v_str.

(** [ValidationIssue( **d)] *)
Definition validate (d : pydict) : exn + t := finish (u "ValidationIssue") (fields d).

Definition dump (i : t) : pyval :=
  VDict [(u "issueType", VStr (ValidationIssueType.value (issueType i)));
         (u "severity", VStr (severity i)); (u "status", VStr (status i));
         (u "checklistItem", VStr (checklistItem i)); (u "description", VStr (description i));
         (u "affectedSections", str_list_dump (affectedSections i));
         (u "recommendation", VStr (recommendation i))].
End ValidationIssue.

(** [VerificationChecklistItem]: declared in models.py, used by no
    handler; its [status] is [Literal["met", "unmet"]]. *)
Module VerificationChecklistItem.
Record t : Type := mk {
  checklistItem : pystr; status : pystr; details : pystr; affectedSections : list pystr }.

Definition v_status (loc : pystr) (v : pyval) : vres pystr :=
  match v with
  | VStr s => if bool_decide (s = u "met" \/ s = u "unmet") then inr s
              else inl (verror loc (u "Input should be 'met' or 'unmet'") (u "literal_error"))
  | _ => inl (verror loc (u "Input should be 'met' or 'unmet'") (u "literal_error"))
  end.

Definition fields (d : pydict) : vres t :=
  inr mk <:> req d (u "checklistItem") v_str <:> req d (u "status") v_status
         <:> req d (u "details") v_str <:> req d (u "affectedSections") (v_list v_str).
End VerificationChecklistItem.

Module ClaimValidationResult.
Record t : Type := mk {
  claimId : pystr; status : ClaimStatus.t; isValid : bool; confidence : pyfloat;
  estimatedAmount : option pyfloat; maxCoverageAmount : option pyfloat;
  issues : list ValidationIssue.t; summary : pystr; timestamp : pystr }.

(** The constructor call of services.py: [claimId], [status], [issues]
    and [timestamp] are already typed, the other arguments are the values
    read from the model's JSON. *)
Definition build (claimId : pystr) (status : ClaimStatus.t) (isValid confidence est maxc : pyval)
    (issues : list ValidationIssue.t) (summary : pyval) (timestamp : pystr) : exn + t :=
  finish (u "ClaimValidationResult")
    (inr (fun b c e m s => mk claimId status b c e m issues s timestamp)
       <:> v_bool (u "isValid") isValid <:> v_float (u "confidence") confidence
       <:> v_optional v_float (u "estimatedAmount") est
       <:> v_optional v_float (u "maxCoverageAmount") maxc
       <:> v_str (u "summary") summary).

Definition fields (d : pydict) : vres t :=
  inr mk <:> req d (u "claimId") v_str
         <:> req d (u "status") (v_enum ClaimStatus.all ClaimStatus.value)
         <:> req d (u "isValid") v_bool <:> req d (u "confidence") v_float
         <:> opt d (u "estimatedAmount") None (v_optional v_float)
         <:> opt d (u "maxCoverageAmount") None (v_optional v_float)
         <:> req d (u "issues") (v_list (v_model (u "ValidationIssue") ValidationIssue.fields))
         <:> req d (u "summary") v_str <:> req d (u "timestamp") v_str.

Definition dump (r : t) : pyval :=
  VDict [(u "claimId", VStr (claimId r)); (u "status", VStr (ClaimStatus.value (status r)));
         (u "isValid", VBool (isValid r)); (u "confidence", VFloat (confidence r));
         (u "estimatedAmount", opt_float_dump (estimatedAmount r));
         (u "maxCoverageAmount", opt_float_dump (maxCoverageAmount r));
         (u "issues", VList (map ValidationIssue.dump (issues r)));
         (u "summary", VStr (summary r)); (u "timestamp", VStr (timestamp r))].
End ClaimValidationResult.

Module ActionItem.
Record t : Type := mk {
  id : pystr; title : pystr; description : pystr; priority : ActionPriority.t;
  dueDate : option pystr; assignee : option pystr; relatedSections : list pystr;
  estimatedTime : pystr }.

Definition fields (d : pydict) : vres t :=
  inr mk <:> req d (u "id") v_str <:> req d (u "title") v_str
         <:> req d (u "description") v_str
         <:> req d (u "priority") (v_enum ActionPriority.all ActionPriority.value)
         <:> opt d (u "dueDate") None (v_optional v_str)
         <:> opt d (u "assignee") None (v_optional v_str)
         <:> req d (u "relatedSections") (v_list v_str)
         <:> req d (u "estimatedTime") v_str.

(** [ActionItem( **d)] *)
Definition validate (d : pydict) : exn + t := finish (u "ActionItem") (fields d).

Definition dump (a : t) : pyval :=
  VDict [(u "id", VStr (id a)); (u "title", VStr (title a)); (u "description", VStr (description a));
         (u "priority", VStr (ActionPriority.value (priority a)));
         (u "dueDate", opt_str_dump (dueDate a)); (u "assignee", opt_str_dump (assignee a));
         (u "relatedSections", str_list_dump (relatedSections a));
         (u "estimatedTime", VStr (estimatedTime a))].
End ActionItem.

Module ActionPlan.
Record t : Type := mk {
  planId : pystr; claimId : pystr; status : ClaimStatus.t; actions : list ActionItem.t;
  totalEstimatedTime : pystr; criticalPath : list pystr; nextSteps : pystr; timestamp : pystr }.

(** The constructor call of services.py, with the JSON-read arguments
    untyped. *)
Definition build (planId claimId : pystr) (status : ClaimStatus.t) (actions : list ActionItem.t)
    (total critical next : pyval) (timestamp : pystr) : exn + t :=
  finish (u "ActionPlan")
    (inr (fun a c n => mk planId claimId status actions a c n timestamp)
       <:> v_str (u "totalEstimatedTime") total <:> v_list v_str (u "criticalPath") critical
       <:> v_str (u "nextSteps") next).

Definition dump (p : t) : pyval :=
  VDict [(u "planId", VStr (planId p)); (u "claimId", VStr (claimId p));
         (u "status", VStr (ClaimStatus.value (status p)));
         (u "actions", VList (map ActionItem.dump (actions p)));
         (u "totalEstimatedTime", VStr (totalEstimatedTime p));
         (u "criticalPath", str_list_dump (criticalPath p));
         (u "nextSteps", VStr (nextSteps p)); (u "timestamp", VStr (timestamp p))].
End ActionPlan.

Module ValidateClaimRequest.
Record t : Type := mk {
  reportContent : list ContentSection.t; policyContent : list ContentSection.t;
  mappings : list (pystr * pystr); customerId : pystr }.

Definition fields (d : pydict) : vres t :=
  inr mk <:> req d (u "reportContent") v_sections <:> req d (u "policyContent") v_sections
         <:> req d (u "mappings") v_str_dict <:> req d (u "customerId") v_str.
End ValidateClaimRequest.

Module SuggestPlanRequest.
Record t : Type := mk {
  reportContent : list ContentSection.t; policyContent : list ContentSection.t;
  validationResult : option ClaimValidationResult.t; customerId : pystr }.

Definition fields (d : pydict) : vres t :=
  inr mk <:> req d (u "reportContent") v_sections <:> req d (u "policyContent") v_sections
         <:> opt d (u "validationResult") None
               (v_optional (v_model (u "ClaimValidationResult") ClaimValidationResult.fields))
         <:> req d (u "customerId") v_str.
End SuggestPlanRequest.

Module CalculatePayoutRequest.
Record t : Type := mk { contract_text : pystr }.

Definition fields (d : pydict) : vres t := inr mk <:> req d (u "contract_text") v_str.
End CalculatePayoutRequest.

(** Sections of a sample claim, used by the witnesses below. *)

Definition sample_report : list ContentSection.t :=
  [ContentSection.mk (u "report_sec_A") (u "Tai nạn xe máy ngày 01/03");
   ContentSection.mk (u "report_sec_B") (u "Chi phí điều trị 12.000.000 VND");
   ContentSection.mk (u "report_sec_C") (u "Hồ sơ đính kèm: giấy ra viện")].

Definition sample_policy : list ContentSection.t :=
  [ContentSection.mk (u "policy_sec_1") (u "Quyền lợi tai nạn");
   ContentSection.mk (u "policy_sec_2") (u "Chi phí y tế")].

(** ** Properties *)

Lemma vap_inr {A B} (f : vres (A -> B)) (x : vres A) (b : B) :
  vap f x = inr b -> exists g a, f = inr g /\ x = inr a /\ b = g a.
Proof. destruct f, x; simpl; intros; simplify_eq; eauto. Qed.

(** Peel the applications of a successful validation. *)
Ltac vap_inv :=
  repeat match goal with
  | H : vap _ _ = inr _ |- _ => apply vap_inr in H as (? & ? & H & ? & ?)
  | H : inr _ = inr _ |- _ => injection H as H
  end; subst.

(** C26: every member of [ClaimStatus] is read back from its value, and
    [ClaimStatus(x)] accepts exactly the four values. *)
Theorem ClaimStatus_call_spec (x : pyval) (s : ClaimStatus.t) :
  ClaimStatus.call x = inr s <-> x = VStr (ClaimStatus.value s).
Proof.
  split.
  - destruct x as [| | | |t| |]; simpl; try done. unfold ClaimStatus.of_value.
    destruct (List.find _ _) as [m|] eqn:E; [|done]. intros [= <-].
    apply find_some in E as [_ E%bool_decide_eq_true]. by rewrite E.
  - intros ->. by destruct s.
Qed.

Lemma ClaimStatus_call_value (s : ClaimStatus.t) : ClaimStatus.call (VStr (ClaimStatus.value s)) = inr s.
Proof. by destruct s. Qed.

Lemma ClaimValidationResult_build_inr cid st b c e m issues s ts r :
  ClaimValidationResult.build cid st b c e m issues s ts = inr r ->
  ClaimValidationResult.claimId r = cid /\ ClaimValidationResult.status r = st
  /\ ClaimValidationResult.issues r = issues /\ ClaimValidationResult.timestamp r = ts.
Proof.
  unfold ClaimValidationResult.build, finish. case_match; intros; simplify_eq. vap_inv. done.
Qed.

Lemma ActionPlan_build_inr pid cid st acts total critical next ts p :
  ActionPlan.build pid cid st acts total critical next ts = inr p ->
  ActionPlan.planId p = pid /\ ActionPlan.claimId p = cid /\ ActionPlan.status p = st
  /\ ActionPlan.actions p = acts.
Proof. unfold ActionPlan.build, finish. case_match; intros; simplify_eq. vap_inv. done. Qed.

(** [ContentSection( **d)] takes the two fields of the dict when they are
    strings, ignoring any other key, and fails otherwise. *)
Lemma ContentSection_validate_spec (d : pydict) (c : ContentSection.t) :
  ContentSection.validate d = inr c <->
  dict_get d (u "id") = Some (VStr (ContentSection.id c)) /\
  dict_get d (u "text") = Some (VStr (ContentSection.text c)).
Proof.
  unfold ContentSection.validate, finish, ContentSection.fields, req. split.
  - case_match; intros; simplify_eq. vap_inv.
    repeat (case_match; simplify_eq/=); vap_inv; unfold v_str in *;
      repeat (case_match; simplify_eq/=); done.
  - destruct c as [i t]; simpl. intros [-> ->]. done.
Qed.
