(* ===== verification/Clean.v ===== *)
(** * _clean_json_response: stripping a markdown fence off a model answer

    services.py lines 25-30 apply three [re.sub] calls and [strip]:
    - [^```json\s*]: [^] without MULTILINE matches at position 0 only, so
      the substitution removes a leading ["```json"] and the whitespace
      after it;
    - [^```\s*]: the same for a bare leading fence;
    - [\s*```$]: [$] matches at the end or just before a final newline; the
      leftmost match starts at the whitespace run before a closing fence
      that ends the text, possibly followed by one newline, which stays.
    [\s] is Python's Unicode whitespace, [PyStr.is_space]. *)

From S2P Require Import Prelude PyStr.

Local Open Scope N_scope.

Definition fence : pystr := u "```".
Definition fence_json : pystr := u "```json".

(** [re.sub(r'^<p>\s*', '', s)] for a literal prefix [p]. *)
Definition sub_leading (p s : pystr) : pystr :=
  if starts_with p s then lstrip (drop (length p) s) else s.

(** The text from a position matches [\s*```$]: whitespace, the fence,
    and nothing or a final newline. *)
Definition fence_tail (t : pystr) : option pystr :=
  let t' := lstrip t in
  if bool_decide (t' = fence) then Some []
  else if bool_decide (t' = fence ++ [c_newline]) then Some [c_newline]
  else None.

(** [re.sub(r'\s*```$', '', s)]: the first position where the pattern
    matches is replaced; what [$] left (a final newline) stays. *)
Fixpoint sub_trailing (s : pystr) : pystr :=
  match fence_tail s with
  | Some keep => keep
  | None => match s with [] => [] | c :: r => c :: sub_trailing r end
  end.

(** [_clean_json_response] *)
Definition clean_json_response (response_text : pystr) : pystr :=
  strip (sub_trailing (sub_leading fence (sub_leading fence_json response_text))).

(** ** Properties *)

Lemma fence_tail_nonspace_head (c : N) (r : pystr) :
  is_space c = false -> c <> c_backtick -> fence_tail (c :: r) = None.
Proof.
  intros Hs Hb. unfold fence_tail. rewrite lstrip_nonspace by done.
  rewrite !bool_decide_eq_false_2; [done| |]; unfold fence; intros H; lit; inversion H; subst;
    by apply Hb.
Qed.

Lemma lstrip_last (b : pystr) (z : N) : is_space z = false -> exists p, lstrip (b ++ [z]) = p ++ [z].
Proof.
  intros Hz. induction b as [|c b [p IH]]; simpl.
  - rewrite Hz. by exists [].
  - destruct (is_space c); [by exists p|]. by exists (c :: b).
Qed.

(** A non-empty suffix of [b ++ [z]] ends with [z]. *)
Lemma suffix_last (b b1 b2 : pystr) (z : N) :
  b2 <> [] -> b ++ [z] = b1 ++ b2 -> exists b2', b2 = b2' ++ [z].
Proof.
  intros Hne Heq. destruct (exists_last Hne) as (b2' & y & ->).
  rewrite app_assoc in Heq. apply app_inj_tail in Heq as [_ ->]. by exists b2'.
Qed.

(** [sub_trailing] goes past every position of [b] where the pattern
    cannot match. *)
Lemma sub_trailing_app (b tail : pystr) :
  (forall b1 b2, b2 <> [] -> b = b1 ++ b2 -> fence_tail (b2 ++ tail) = None) ->
  sub_trailing (b ++ tail) = b ++ sub_trailing tail.
Proof.
  induction b as [|c b IH]; intros H; [done|]. simpl.
  replace (fence_tail (c :: b ++ tail)) with (@None pystr) by (symmetry; by apply (H [] (c :: b))).
  f_equal. apply IH.
  intros b1 b2 Hne ->. by apply (H (c :: b1) b2).
Qed.

Lemma fence_tail_long (t : pystr) : (5 <= length (lstrip t))%nat -> fence_tail t = None.
Proof.
  intros Hl. unfold fence_tail.
  rewrite !bool_decide_eq_false_2; [done| |]; intros Heq; rewrite Heq in Hl; vm_compute in Hl; lia.
Qed.

(** A text ending with a character that is neither whitespace nor a
    backtick: no suffix of it is a closing fence. *)
Lemma fence_tail_last (p : pystr) (z : N) :
  is_space z = false -> z <> c_backtick -> fence_tail (p ++ [z]) = None.
Proof.
  intros Hs Hb. unfold fence_tail. destruct (lstrip_last p z Hs) as [q ->].
  rewrite !bool_decide_eq_false_2; [done| |].
  - intros Heq. apply app_inj_tail in Heq as [_ ->]. done.
  - intros Heq. change fence with ([96; 96] ++ [96]) in Heq. apply app_inj_tail in Heq as [_ ->]. done.
Qed.

Lemma stripped_last (s : pystr) : stripped s -> s <> [] -> exists b z, s = b ++ [z] /\ is_space z = false.
Proof.
  intros [_ Hr] Hne. destruct (exists_last Hne) as (b & z & ->). exists b, z. split; [done|].
  rewrite reverse_snoc in Hr. by apply lstrip_head in Hr.
Qed.

Lemma starts_with_app_l (p q s : pystr) : starts_with (p ++ q) s = true -> starts_with p s = true.
Proof.
  rewrite !starts_with_spec. intros [t ->]. exists (q ++ t). by rewrite app_assoc.
Qed.

(** No suffix of [b ++ [z]] followed by a newline and a fence is itself
    a fence, when [z] is not whitespace. *)
Lemma fence_tail_before_fence (b : pystr) (z : N) b1 b2 :
  is_space z = false -> b2 <> [] -> b ++ [z] = b1 ++ b2 -> fence_tail (b2 ++ c_newline :: fence) = None.
Proof.
  intros Hz Hne Heq. destruct (suffix_last _ _ _ _ Hne Heq) as [b2' ->].
  apply fence_tail_long. rewrite lstrip_app. destruct (lstrip_last b2' z Hz) as [p ->].
  destruct p; simpl; rewrite ?length_app; simpl; lia.
Qed.

(** C23: an answer wrapped in a markdown fence, ["```json\n" + body +
    "\n```"], is cleaned to its body, when the body has no surrounding
    whitespace and does not start with a backtick. *)
Theorem clean_fenced (c : N) (r : pystr) :
  stripped (c :: r) -> c <> c_backtick ->
  clean_json_response (fence_json ++ c_newline :: (c :: r) ++ c_newline :: fence) = c :: r.
Proof.
  intros Hs Hc. unfold clean_json_response, sub_leading at 2.
  rewrite starts_with_app, drop_app_length. cbn [lstrip].
  replace (is_space c_newline) with true by reflexivity.
  rewrite lstrip_app. destruct Hs as [Hl Hr]. rewrite Hl.
  unfold sub_leading. replace (starts_with fence _) with false
    by (change fence with [96; 96; 96] at 1; cbn [starts_with app]; destruct (N.eqb_spec 96 c); [exfalso; subst; by apply Hc|done]).
  destruct (stripped_last (c :: r)) as (b & z & Hbz & Hz); [done|done|].
  rewrite sub_trailing_app.
  - replace (sub_trailing (c_newline :: fence)) with (@nil N) by reflexivity.
    rewrite app_nil_r. by apply strip_id.
  - intros b1 b2 Hne Heq. rewrite Hbz in Heq. by eapply fence_tail_before_fence.
Qed.

(** C24: an answer that is plain JSON (no surrounding whitespace, no
    leading fence, not ending with a backtick) is left as it is. *)
Theorem clean_plain (s : pystr) :
  stripped s -> starts_with fence s = false ->
  (forall b z, s = b ++ [z] -> z <> c_backtick) ->
  clean_json_response s = s.
Proof.
  intros Hs Hf Hlast. unfold clean_json_response, sub_leading.
  replace (starts_with fence_json s) with false
    by (symmetry; apply not_true_iff_false; intros H;
        change fence_json with (fence ++ u "json") in H; apply starts_with_app_l in H; congruence).
  rewrite Hf. destruct (decide (s = [])) as [->|Hne]; [reflexivity|].
  destruct (stripped_last s Hs Hne) as (b & z & -> & Hz).
  rewrite <-(app_nil_r (b ++ [z])) at 1. rewrite sub_trailing_app.
  - replace (sub_trailing []) with (@nil N) by reflexivity. rewrite app_nil_r. by apply strip_id.
  - intros b1 b2 Hne' Heq. destruct (suffix_last _ _ _ _ Hne' Heq) as [b2' ->].
    rewrite app_nil_r. apply fence_tail_last; [done|]. by apply (Hlast b).
Qed.

(** ** Witnesses *)

Lemma clean_fenced_witness :
  clean_json_response (fence_json ++ c_newline :: (123 :: u "~a~: 1}") ++ c_newline :: fence)
  = 123 :: u "~a~: 1}".
Proof. apply clean_fenced; [split; reflexivity|discriminate]. Defined.

Lemma clean_plain_witness : clean_json_response (u "[1, 2]") = u "[1, 2]".
Proof.
  apply clean_plain; [split; reflexivity|reflexivity|].
  intros b z H. change (u "[1, 2]") with ([91; 49; 44; 32; 50] ++ [93]) in H.
  apply app_inj_tail in H as [_ <-]. discriminate.
Defined.
