(* ===== verification/Structure.v ===== *)
(** * structure_content_with_ai: model answer to content sections

    services.py lines 32-100.  The handler sends one prompt (report or
    policy variant, [Prompts.structure_prompt_report] /
    [structure_prompt_policy]), strips a fence off the answer
    ([Clean.clean_json_response]), decodes it with [json.loads] and walks
    over the decoded value with [enumerate]:
    - a dict with keys [id] and [text] becomes [ContentSection( **d)],
      which raises pydantic's [ValidationError] when a field is not a str;
    - anything else is repaired: a synthetic id [report_sec_<chr(65+idx)>]
      or [policy_sec_<idx+1>] and, as text, the string itself or its
      [json.dumps].
    A [JSONDecodeError] falls back on the paragraphs of the text
    ([structure_fallback]); every other exception (the model call failing,
    an answer that is a number, a section whose id is not a string)
    becomes [HTTPException(500)]. *)

From S2P Require Import Prelude PyStr PyExn Json PyObj World Models Prompts Clean.

Local Open Scope N_scope.

Definition is_report (file_type : pystr) : bool := bool_decide (file_type = u "report").

(** [prefix = "report_sec_" if file_type == "report" else "policy_sec_"] *)
Definition section_prefix (file_type : pystr) : pystr :=
  if is_report file_type then u "report_sec_" else u "policy_sec_".

(** [f"{prefix}{chr(65+idx) if file_type == 'report' else idx+1}"] *)
Definition synth_id (file_type : pystr) (idx : nat) : pystr :=
  section_prefix file_type
    ++ (if is_report file_type then [65 + N.of_nat idx] else str_of_nat (idx + 1)).

(** One element of the decoded answer, at position [idx]. *)
Definition section_of (file_type : pystr) (idx : nat) (section_data : pyval) : exn + ContentSection.t :=
  let repaired :=
    match section_data with
    | VStr s => inr (ContentSection.mk (synth_id file_type idx) s)
    | _ => match json_dumps opts_default section_data with
           | inl e => inl e
           | inr t => inr (ContentSection.mk (synth_id file_type idx) t)
           end
    end in
  match section_data with
  | VDict d => if dict_has d (u "id") && dict_has d (u "text") then ContentSection.validate d else repaired
  | _ => repaired
  end.

(** [[p.strip() for p in text.split('\n\n') if p.strip()]] *)
Definition paragraphs (text : pystr) : list pystr :=
  filter (fun p => p <> []) (map strip (py_split [c_newline; c_newline] text)).

(** The [except json.JSONDecodeError] branch: at most ten paragraphs. *)
Definition structure_fallback (text file_type : pystr) : list ContentSection.t :=
  imap (fun i p => ContentSection.mk (synth_id file_type i) p) (take 10 (paragraphs text)).

Definition structure_prompt (text file_type : pystr) : pystr :=
  if is_report file_type then structure_prompt_report text else structure_prompt_policy text.

(** The [try] block. *)
Definition structure_try (text file_type : pystr) : M (list ContentSection.t) :=
  response ← generate_content [PText (structure_prompt text file_type)];
  let response_text := clean_json_response response in
  sections_data ← of_sum (json_loads response_text);
  items ← of_sum (py_iter sections_data);
  of_sum (seq_results (imap (section_of file_type) items)).

(** The document [json.loads] was given: in the handler it is the local
    [response_text], the only text decoded in the [try] block. *)
Definition decode_doc (e : exn) : pystr :=
  match e with JSONDecodeError _ doc _ => doc | _ => [] end.

(** [structure_content_with_ai(text, file_type)] *)
Definition structure_content_with_ai (text file_type : pystr) : M (list ContentSection.t) :=
  try_excepts (structure_try text file_type)
    [(CJSONDecodeError, fun e =>
        print (u "JSON Parse Error: " ++ exn_str e);;
        print (u "Response text: " ++ decode_doc e);;
        mret (structure_fallback text file_type));
     (CException, fun e =>
        print (u "AI Error: " ++ exn_str e);;
        raise (HTTPException 500 (u "Lỗi xử lý AI: " ++ exn_str e)))].

(** ** Properties *)

Lemma section_of_dump ft idx (c : ContentSection.t) :
  section_of ft idx (ContentSection.dump c) = inr c.
Proof.
  assert (Hi : dict_get [(u "id", VStr (ContentSection.id c)); (u "text", VStr (ContentSection.text c))] (u "id")
               = Some (VStr (ContentSection.id c))) by reflexivity.
  assert (Ht : dict_get [(u "id", VStr (ContentSection.id c)); (u "text", VStr (ContentSection.text c))] (u "text")
               = Some (VStr (ContentSection.text c))) by reflexivity.
  unfold section_of, ContentSection.dump, dict_has. rewrite Hi, Ht. by apply ContentSection_validate_spec.
Qed.

Lemma paragraphs_spec text p : p ∈ paragraphs text -> p <> [] /\ stripped p.
Proof.
  unfold paragraphs. intros (Hp & (q & -> & _)%elem_of_map_1)%list_elem_of_filter.
  split; [done|apply strip_stripped].
Qed.

Lemma synth_id_inj ft i j : synth_id ft i = synth_id ft j -> i = j.
Proof.
  unfold synth_id. intros H. apply app_inv_head in H.
  destruct (is_report ft).
  - injection H as H. lia.
  - apply str_of_N_inj in H. lia.
Qed.

Lemma structure_fallback_lookup text ft i c :
  structure_fallback text ft !! i = Some c ->
  ContentSection.id c = synth_id ft i /\ take 10 (paragraphs text) !! i = Some (ContentSection.text c).
Proof. unfold structure_fallback. intros (p & Hp & ->)%list_lookup_imap_Some. done. Qed.

(** C6: the paragraph fallback of [structure_content_with_ai] has at
    most ten sections, their ids are pairwise distinct, and each text is
    a non-empty paragraph without surrounding whitespace. *)
Theorem structure_fallback_wf text ft :
  (length (structure_fallback text ft) <= 10)%nat
  /\ NoDup (map ContentSection.id (structure_fallback text ft))
  /\ Forall (fun c => ContentSection.text c <> [] /\ stripped (ContentSection.text c)) (structure_fallback text ft).
Proof.
  split_and!.
  - unfold structure_fallback. rewrite length_imap, length_take. lia.
  - apply NoDup_alt. intros i j x. change (map ContentSection.id ?l) with (ContentSection.id <$> l).
    rewrite !list_lookup_fmap.
    intros (c1 & (H1 & _)%structure_fallback_lookup & ->)%fmap_Some
           (c2 & (H2 & _)%structure_fallback_lookup & Heq)%fmap_Some.
    apply (synth_id_inj ft). congruence.
  - apply Forall_lookup. intros i c (_ & Hp)%structure_fallback_lookup.
    apply (paragraphs_spec text). eapply (subseteq_take 10), list_elem_of_lookup_2, Hp.
Qed.

(** C5: when the model is down (with an error that is not a
    [JSONDecodeError]), [structure_content_with_ai] raises
    [HTTPException(500)]: the paragraph fallback is not used. *)
Theorem structure_model_down text ft (w : World) e :
  model_down (w_env w) e -> isinstance e CJSONDecodeError = false ->
  eval (structure_content_with_ai text ft) w = inl (HTTPException 500 (u "Lỗi xử lý AI: " ++ exn_str e)).
Proof.
  intros Hd He. unfold eval, structure_content_with_ai.
  erewrite run_try_handler; [| unfold structure_try; apply run_bind_inl, run_generate_content_down, Hd
                             | cbn [first_handler]; rewrite He; reflexivity].
  cbv beta. rewrite run_print. done.
Qed.

(** C22: an answer that is not JSON gives the paragraph fallback. *)
Theorem structure_decode_error text ft (w : World) resp msg doc pos :
  model_answers (w_env w) (length (w_calls w)) resp ->
  json_loads (clean_json_response resp) = inl (JSONDecodeError msg doc pos) ->
  eval (structure_content_with_ai text ft) w = inr (structure_fallback text ft).
Proof.
  intros Ha Hl. unfold eval, structure_content_with_ai.
  erewrite run_try_handler; [| unfold structure_try; erewrite run_bind_inr;
                               [cbv beta zeta; rewrite Hl; apply run_bind_inl, run_of_sum
                               |apply run_generate_content_answers, Ha]
                             | reflexivity].
  cbv beta. rewrite !run_print. done.
Qed.

(** C7: an answer that is the JSON array of well-formed sections gives
    back exactly those sections, in order. *)
Theorem structure_preserves_sections text ft (w : World) resp (secs : list ContentSection.t) :
  model_answers (w_env w) (length (w_calls w)) resp ->
  json_loads (clean_json_response resp) = inr (sections_dump secs) ->
  eval (structure_content_with_ai text ft) w = inr secs.
Proof.
  intros Ha Hl. unfold eval, structure_content_with_ai.
  erewrite run_try_inr; [done|]. unfold structure_try.
  erewrite run_bind_inr; [|apply run_generate_content_answers, Ha]. cbv beta zeta. rewrite Hl.
  erewrite run_bind_inr; [|apply run_of_sum]. erewrite run_bind_inr; [|apply run_of_sum].
  rewrite run_of_sum. unfold sections_dump. rewrite imap_fmap.
  rewrite (seq_results_imap_inr _ id); [by rewrite map_id|]. intros n c. apply section_of_dump.
Qed.

(** C31: an answer that decodes to a JSON string is iterated character by
    character: every character becomes a section of its own, with a
    synthetic id. *)
Theorem structure_string_answer text ft (w : World) resp (s : pystr) :
  model_answers (w_env w) (length (w_calls w)) resp ->
  json_loads (clean_json_response resp) = inr (VStr s) ->
  eval (structure_content_with_ai text ft) w
  = inr (imap (fun i c => ContentSection.mk (synth_id ft i) [c]) s).
Proof.
  intros Ha Hl. unfold eval, structure_content_with_ai.
  erewrite run_try_inr; [done|]. unfold structure_try.
  erewrite run_bind_inr; [|apply run_generate_content_answers, Ha]. cbv beta zeta. rewrite Hl.
  erewrite run_bind_inr; [|apply run_of_sum]. erewrite run_bind_inr; [|apply run_of_sum].
  rewrite run_of_sum. cbn [py_iter]. rewrite imap_fmap.
  by rewrite (seq_results_imap_inr_dep _ (fun i c => ContentSection.mk (synth_id ft i) [c])).
Qed.

(** ** Witnesses *)

Lemma structure_model_down_witness :
  eval (structure_content_with_ai (u "Biên bản tai nạn") (u "report")) (world_of (env_answers []))
  = inl (HTTPException 500 (u "Lỗi xử lý AI: " ++ exn_str (UpstreamError (u "429 Resource has been exhausted")))).
Proof.
  apply structure_model_down; [intros n parts; reflexivity|reflexivity].
Defined.

Lemma structure_decode_error_witness :
  eval (structure_content_with_ai (u "Tai nạn ngày 01/03.") (u "report"))
       (world_of (env_answers [u "Xin lỗi, tôi không thể phân tích."]))
  = inr (structure_fallback (u "Tai nạn ngày 01/03.") (u "report")).
Proof.
  apply (structure_decode_error _ _ _ (u "Xin lỗi, tôi không thể phân tích.") (u "Expecting value")
           (u "Xin lỗi, tôi không thể phân tích.") 0); [intros parts; reflexivity|vm_compute; reflexivity].
Defined.

Lemma structure_preserves_sections_witness :
  eval (structure_content_with_ai (u "Tai nạn") (u "report"))
       (world_of (env_answers [u "```json
[{~id~: ~report_sec_A~, ~text~: ~Tai nạn~}]
```"]))
  = inr [ContentSection.mk (u "report_sec_A") (u "Tai nạn")].
Proof.
  apply (structure_preserves_sections _ _ _ (u "```json
[{~id~: ~report_sec_A~, ~text~: ~Tai nạn~}]
```")); [intros parts; reflexivity|vm_compute; reflexivity].
Defined.

Lemma structure_string_answer_witness :
  eval (structure_content_with_ai (u "Tai nạn") (u "report")) (world_of (env_answers [u "~ab~"]))
  = inr (imap (fun i c => ContentSection.mk (synth_id (u "report") i) [c]) (u "ab")).
Proof. apply (structure_string_answer _ _ _ (u "~ab~")); [intros parts; reflexivity|vm_compute; reflexivity]. Defined.
