(* ===== verification/Mappings.v ===== *)
(** * create_mappings_with_ai: links from report sections to policy sections

    services.py lines 152-200.  The answer is decoded and filtered by the
    dict comprehension
    [{k: v for k, v in mappings.items() if k in valid_report_ids and v in valid_policy_ids}]:
    the [and] short-circuits, and [v in set] raises [TypeError] when [v]
    is a list or a dict (unhashable) whose key was valid.  Any exception
    (the model failing, an answer that is not JSON or not a dict, the
    [TypeError] above) falls back on pairing the sections by position.
    The result is a Python dict from str to str, an association list with
    unique keys in insertion order. *)

From S2P Require Import Prelude PyStr PyExn Json PyObj World Models Prompts Clean.
From stdpp Require Import sets.

Local Open Scope N_scope.

Abbreviation strdict := (list (pystr * pystr)) (only parsing).

(** [d[k] = v] on a dict from str to str. *)
Fixpoint strdict_set (d : strdict) (k v : pystr) : strdict :=
  match d with
  | [] => [(k, v)]
  | (k', v') :: r => if decide (k = k') then (k', v) :: r else (k', v') :: strdict_set r k v
  end.

(** [v in s] for a set [s] of strings: unhashable values raise. *)
Definition in_str_set (v : pyval) (s : list pystr) : exn + bool :=
  match v with
  | VStr t => inr (bool_decide (t ∈ s))
  | VList _ => inl (TypeError (u "unhashable type: 'list'"))
  | VDict _ => inl (TypeError (u "unhashable type: 'dict'"))
  | _ => inr false
  end.

(** The dict comprehension over [mappings.items()]. *)
Fixpoint filter_mappings (items : pydict) (report_ids policy_ids : list pystr) : exn + strdict :=
  match items with
  | [] => inr []
  | (k, v) :: r =>
      let keep :=
        if bool_decide (k ∈ report_ids) then
          match in_str_set v policy_ids with
          | inl e => inl e
          | inr b => inr (if b then match v with VStr t => Some t | _ => None end else None)
          end
        else inr None in
      match keep with
      | inl e => inl e
      | inr o =>
          match filter_mappings r report_ids policy_ids with
          | inl e => inl e
          | inr rest => inr (match o with Some t => (k, t) :: rest | None => rest end)
          end
      end
  end.

(** [mappings.items()] *)
Definition py_items (x : pyval) : exn + pydict :=
  match x with
  | VDict d => inr d
  | _ => inl (AttributeError (u "'" ++ type_name x ++ u "' object has no attribute 'items'"))
  end.

(** [f"ID: {s.id}\nNội dung: {s.text}"] joined by blank lines. *)
Definition sections_listing (secs : list ContentSection.t) : pystr :=
  py_join [c_newline; c_newline]
    (map (fun s => u "ID: " ++ ContentSection.id s ++ [c_newline] ++ u "Nội dung: " ++ ContentSection.text s) secs).

(** The [except Exception] branch: the i-th report section to the i-th
    policy section, up to the shorter list. *)
Definition positional_mappings (report_content policy_content : list ContentSection.t) : strdict :=
  foldl (fun m '(r, p) => strdict_set m (ContentSection.id r) (ContentSection.id p)) []
    (zip (take (length policy_content) report_content) policy_content).

Definition mappings_try (report_content policy_content : list ContentSection.t) : M strdict :=
  response ← generate_content [PText (mappings_prompt (sections_listing report_content)
                                                      (sections_listing policy_content))];
  let response_text := clean_json_response response in
  mappings ← of_sum (json_loads response_text);
  items ← of_sum (py_items mappings);
  of_sum (filter_mappings items (map ContentSection.id report_content) (map ContentSection.id policy_content)).

(** [create_mappings_with_ai(report_content, policy_content)] *)
Definition create_mappings_with_ai (report_content policy_content : list ContentSection.t) : M strdict :=
  try_excepts (mappings_try report_content policy_content)
    [(CException, fun e =>
        print (u "Error creating mappings: " ++ exn_str e);;
        mret (positional_mappings report_content policy_content))].

(** ** Properties *)

(** Every pair is a report id mapped to a policy id. *)
Definition ids_valid (report_content policy_content : list ContentSection.t) (d : strdict) : Prop :=
  forall k v, (k, v) ∈ d -> k ∈ map ContentSection.id report_content /\ v ∈ map ContentSection.id policy_content.

Lemma strdict_set_elem (d : strdict) k v kv :
  kv ∈ strdict_set d k v -> kv ∈ d \/ kv = (k, v).
Proof.
  induction d as [|[k' v'] d IH]; simpl; [set_solver|].
  case_decide as Hk; subst; rewrite !elem_of_cons; [intros [<-|?]; auto|].
  intros [<-|Hin]; [auto|]. destruct (IH Hin); auto.
Qed.

Lemma strdict_set_fresh (d : strdict) k v :
  k ∉ d.*1 -> strdict_set d k v = d ++ [(k, v)].
Proof.
  induction d as [|[k' v'] d IH]; simpl; [done|]. rewrite not_elem_of_cons.
  intros [Hk Hd]. rewrite decide_False by done. by rewrite IH.
Qed.

Lemma filter_mappings_sound items report_ids policy_ids d :
  filter_mappings items report_ids policy_ids = inr d ->
  forall k v, (k, v) ∈ d -> k ∈ report_ids /\ v ∈ policy_ids.
Proof.
  revert d; induction items as [|[k v] items IH]; intros d H; simpl in H; [simplify_eq; set_solver|].
  case_bool_decide as Hk.
  - destruct v; simpl in H; simplify_eq;
      try (destruct (filter_mappings items _ _) eqn:E; simplify_eq; by eapply IH).
    case_bool_decide as Hv; destruct (filter_mappings items _ _) eqn:E; simplify_eq;
      [|by eapply IH]. intros k' v'. rewrite elem_of_cons. intros [[= <- <-]|?]; [done|]. by eapply IH.
  - destruct (filter_mappings items _ _) eqn:E; simplify_eq. by eapply IH.
Qed.

Lemma positional_fold_sound (l : list (ContentSection.t * ContentSection.t)) (m : strdict)
    (P : pystr * pystr -> Prop) :
  (forall kv, kv ∈ m -> P kv) -> (forall r p, (r, p) ∈ l -> P (ContentSection.id r, ContentSection.id p)) ->
  forall kv, kv ∈ foldl (fun m '(r, p) => strdict_set m (ContentSection.id r) (ContentSection.id p)) m l -> P kv.
Proof.
  revert m; induction l as [|[r p] l IH]; intros m Hm Hl; simpl; [done|].
  apply IH; [|intros; apply Hl; set_solver].
  intros kv [?| ->]%strdict_set_elem; [auto|]. apply Hl; set_solver.
Qed.

Lemma positional_mappings_valid report_content policy_content :
  ids_valid report_content policy_content (positional_mappings report_content policy_content).
Proof.
  intros k v Hkv. unfold positional_mappings in Hkv.
  refine (positional_fold_sound _ [] (fun kv => kv.1 ∈ _ /\ kv.2 ∈ _) _ _ (k, v) Hkv); [set_solver|].
  intros r p Hrp; simpl. split; apply elem_of_map_2;
    [apply (subseteq_take (length policy_content)); eapply elem_of_zip_l | eapply elem_of_zip_r]; done.
Qed.

Lemma mappings_try_valid report_content policy_content :
  ensures (ids_valid report_content policy_content) (mappings_try report_content policy_content).
Proof.
  unfold mappings_try. do 3 (apply ensures_bind_any; intros ?; cbv beta zeta).
  apply ensures_of_sum. intros d Hd k v. by apply (filter_mappings_sound _ _ _ _ Hd).
Qed.

(** C3: [create_mappings_with_ai] never raises, whatever the model
    answers, and every pair of the dict it returns links an id of a
    report section to an id of a policy section. *)
Theorem create_mappings_with_ai_valid report_content policy_content :
  returns (ids_valid report_content policy_content) (create_mappings_with_ai report_content policy_content).
Proof.
  apply returns_try_catch_all; [apply mappings_try_valid|]. intros e.
  eapply returns_bind; [apply print_returns|]. intros _ _.
  apply returns_ret, positional_mappings_valid.
Qed.

Lemma positional_fold_fresh (l : list (ContentSection.t * ContentSection.t)) (m : strdict) :
  NoDup (m.*1 ++ map (ContentSection.id ∘ fst) l) ->
  foldl (fun m '(r, p) => strdict_set m (ContentSection.id r) (ContentSection.id p)) m l
  = m ++ map (fun '(r, p) => (ContentSection.id r, ContentSection.id p)) l.
Proof.
  revert m; induction l as [|[r p] l IH]; intros m Hnd; simpl; [by rewrite app_nil_r|].
  rewrite strdict_set_fresh.
  - rewrite IH, <-app_assoc; [done|]. by rewrite fmap_app, <-app_assoc.
  - intros Hin. apply NoDup_app in Hnd as (_ & Hnd & _). simpl in Hnd. apply (Hnd _ Hin). set_solver.
Qed.

(** With distinct report ids, the fallback is the list of pairs of ids
    by position, in order, up to the shorter list. *)
Lemma positional_mappings_zip report_content policy_content :
  NoDup (map ContentSection.id report_content) ->
  positional_mappings report_content policy_content
  = zip (map ContentSection.id (take (length policy_content) report_content))
        (map ContentSection.id policy_content).
Proof.
  intros Hnd. unfold positional_mappings. rewrite positional_fold_fresh; simpl.
  - clear Hnd. generalize (length policy_content) as n. revert policy_content.
    induction report_content as [|r rs IH]; intros [|p ps] [|n]; simpl; try done. f_equal. apply IH.
  - generalize (length policy_content) as n. revert Hnd. revert policy_content.
    induction report_content as [|r rs IH]; intros [|p ps] Hnd [|n]; simpl; try by constructor.
    apply NoDup_cons in Hnd as [Hr Hrs]. apply NoDup_cons; split; [|by apply IH].
    intros Hin. apply Hr. apply elem_of_map_1 in Hin as ([r' p'] & -> & Hin); simpl.
    apply elem_of_map_2. eapply (subseteq_take n), elem_of_zip_l, Hin.
Qed.

(** C11: when the model is down, [create_mappings_with_ai] pairs the
    report sections with the policy sections by position (report ids
    distinct): the i-th report id is mapped to the i-th policy id, up to
    the shorter list. *)
Theorem create_mappings_model_down report_content policy_content (w : World) e :
  model_down (w_env w) e -> NoDup (map ContentSection.id report_content) ->
  eval (create_mappings_with_ai report_content policy_content) w
  = inr (zip (map ContentSection.id (take (length policy_content) report_content))
             (map ContentSection.id policy_content)).
Proof.
  intros Hd Hnd. unfold eval, create_mappings_with_ai.
  erewrite run_try_inl; [|unfold mappings_try; apply run_bind_inl, run_generate_content_down, Hd].
  rewrite run_print. simpl. by rewrite positional_mappings_zip.
Qed.

(** ** Witnesses *)

Lemma create_mappings_model_down_witness :
  eval (create_mappings_with_ai sample_report sample_policy)
       (world_of {| env_model := fun _ _ => inl (UpstreamError (u "503 Service Unavailable"));
                    env_clock := sample_clock; env_docx := fun _ => inr []; env_image := fun _ => inl (ValueError []);
                    env_convert := fun i _ => inr i |})
  = inr [(u "report_sec_A", u "policy_sec_1"); (u "report_sec_B", u "policy_sec_2")].
Proof.
  rewrite (create_mappings_model_down _ _ _ (UpstreamError (u "503 Service Unavailable"))).
  - vm_compute. reflexivity.
  - intros ??; reflexivity.
  - decide_closed.
Defined.
