(* ===== verification/CustomerId.v ===== *)
(** * extract_customer_id_with_ai: the customer id of a report

    services.py lines 102-127.  The model reads the first 1000 characters
    of the report; its answer, stripped, is accepted when it is not empty,
    not the sentinel ["UNKNOWN"] and longer than three characters.  Every
    other answer, and every exception, gives ["UNKNOWN"]. *)

From S2P Require Import Prelude PyStr PyExn World Prompts.

Local Open Scope N_scope.

Definition UNKNOWN : pystr := u "UNKNOWN".

(** [customer_id and customer_id != "UNKNOWN" and len(customer_id) > 3] *)
Definition accept_customer_id (customer_id : pystr) : bool :=
  bool_decide (customer_id <> []) && bool_decide (customer_id <> UNKNOWN)
  && Nat.ltb 3 (length customer_id).

(** [extract_customer_id_with_ai(text)] *)
Definition extract_customer_id_with_ai (text : pystr) : M pystr :=
  try_excepts
    (response ← generate_content [PText (customer_id_prompt text)];
     let customer_id := strip response in
     if accept_customer_id customer_id then mret customer_id else mret UNKNOWN)
    [(CException, fun e =>
        print (u "Error extracting customer ID: " ++ exn_str e);;
        mret UNKNOWN)].

(** ** Properties *)

(** C12: whatever the model answers, [extract_customer_id_with_ai]
    returns [UNKNOWN] or a text longer than three characters, different
    from [UNKNOWN], with no leading or trailing whitespace. *)
Theorem extract_customer_id_safe (text : pystr) :
  returns (fun r => r = UNKNOWN \/ ((3 < length r)%nat /\ r <> UNKNOWN /\ stripped r))
    (extract_customer_id_with_ai text).
Proof.
  apply returns_try_catch_all.
  - apply ensures_bind_any. intros resp. cbv beta zeta.
    destruct (accept_customer_id (strip resp)) eqn:E; apply ensures_ret; [right|by left].
    unfold accept_customer_id in E. rewrite !andb_true_iff, Nat.ltb_lt in E.
    destruct E as [[_ ?%bool_decide_eq_true] ?]. split_and!; [done|done|apply strip_stripped].
  - intros e. eapply returns_bind; [apply print_returns|]. intros _ _. apply returns_ret. by left.
Qed.
