(* ===== verification/Validation.v ===== *)
(** * validate_claim_with_ai: the claim verdict

    services.py lines 246-356.  The prompt embeds the sections and the
    mappings ([json.dumps(mappings, indent=2)]); the answer is decoded and
    read with [result.get]:
    - the loop over [result.get("issues", [])] first sets a missing
      ["status"] to ["pending"] and a missing ["checklistItem"] to the
      first 50 characters of the description, on whatever the element is
      (a string element makes [x["status"] = ...] raise), then builds
      [ValidationIssue( **issue_data)] inside an inner [try] that skips
      the issue when it fails;
    - the verdict is [ClaimValidationResult(...)], whose [status] goes
      through [ClaimStatus(...)], which raises on a text outside the four
      values.
    Any exception of the outer [try] gives the fixed fallback verdict
    [validation_fallback]: pending review, not valid, confidence 0, one
    critical [incomplete_info] issue.  The claim id is
    [claim-<customer>-<seconds>] from a fresh clock reading, on every path. *)

From S2P Require Import Prelude PyStr PyExn Json PyObj World Clock Models Prompts Clean Mappings.

Local Open Scope N_scope.

(** [f"claim-{customer_id}-{int(datetime.now().timestamp())}"] *)
Definition claim_id (customer_id : pystr) (us : Z) : pystr :=
  u "claim-" ++ customer_id ++ u "-" ++ str_of_Z (timestamp_int us).

(** ["\n".join([f"[{s.id}] {s.text}" for s in secs])] *)
Definition bracket_listing (secs : list ContentSection.t) : pystr :=
  py_join [c_newline] (map (fun s => [91] ++ ContentSection.id s ++ u "] " ++ ContentSection.text s) secs).

Definition strdict_val (m : strdict) : pyval := VDict (map (fun kv => (kv.1, VStr kv.2)) m).

(** The two fix-ups of the loop body, in Python's order of evaluation. *)
Definition fix_issue (issue_data : pyval) : exn + pyval :=
  match py_contains issue_data (u "status") with
  | inl e => inl e
  | inr has_status =>
      match (if has_status then inr issue_data
             else py_setitem issue_data (u "status") (VStr (u "pending"))) with
      | inl e => inl e
      | inr d1 =>
          match py_contains d1 (u "checklistItem") with
          | inl e => inl e
          | inr true => inr d1
          | inr false =>
              match py_get d1 (u "description") (VStr (u "Mục kiểm tra")) with
              | inl e => inl e
              | inr desc =>
                  match py_slice_to desc 50 with
                  | inl e => inl e
                  | inr item => py_setitem d1 (u "checklistItem") item
                  end
              end
          end
      end
  end.

(** The inner [try]: the issue, or [None] when it is skipped. *)
Definition issue_step (issue_data : pyval) : M (option ValidationIssue.t) :=
  d ← of_sum (fix_issue issue_data);
  try_excepts
    (kw ← of_sum (py_kwargs (u "ValidationIssue") d);
     i ← of_sum (ValidationIssue.validate kw);
     mret (Some i))
    [(CException, fun e =>
        print (u "⚠️ Skipping invalid issue: " ++ exn_str e ++ u " | Data: " ++ py_str d);;
        mret None)].

Definition collect_issues (result : pyval) : M (list ValidationIssue.t) :=
  issues ← of_sum (py_get result (u "issues") (VList []));
  items ← of_sum (py_iter issues);
  found ← mapM issue_step items;
  mret (omap id found).

Definition validation_try (prompt customer_id : pystr) : M ClaimValidationResult.t :=
  response ← generate_content [PText prompt];
  let response_text := clean_json_response response in
  result ← of_sum (json_loads response_text);
  validated_issues ← collect_issues result;
  t1 ← now;
  st ← of_sum (py_get result (u "status") (VStr (u "pending_review")));
  status ← of_sum (ClaimStatus.call st);
  isValid ← of_sum (py_get result (u "isValid") (VBool false));
  confidence ← of_sum (py_get result (u "confidence") (VFloat (FFin false 5 (-1))));
  est ← of_sum (py_get result (u "estimatedAmount") VNone);
  maxc ← of_sum (py_get result (u "maxCoverageAmount") VNone);
  summary ← of_sum (py_get result (u "summary") (VStr (u "Đang xử lý đánh giá")));
  t2 ← now;
  of_sum (ClaimValidationResult.build (claim_id customer_id t1) status isValid confidence est maxc
            validated_issues summary (isoformat t2)).

(** The issue of the [except] branch. *)
Definition fallback_issue (e : exn) : ValidationIssue.t :=
  ValidationIssue.mk ValidationIssueType.INCOMPLETE_INFO (u "critical") (u "fail")
    (u "Lỗi hệ thống") (u "Lỗi xử lý validation: " ++ exn_str e) []
    (u "Vui lòng thử lại hoặc liên hệ support").

Definition validation_fallback (customer_id : pystr) (e : exn) (t1 t2 : Z) : ClaimValidationResult.t :=
  ClaimValidationResult.mk (claim_id customer_id t1) ClaimStatus.PENDING_REVIEW false
    (FFin false 0 0) None None [fallback_issue e]
    (u "Không thể hoàn thành validation do lỗi hệ thống") (isoformat t2).

(** [validate_claim_with_ai(report_content, policy_content, mappings, customer_id)] *)
Definition validate_claim_with_ai (report_content policy_content : list ContentSection.t)
    (mappings : strdict) (customer_id : pystr) : M ClaimValidationResult.t :=
  let report_text := bracket_listing report_content in
  let policy_text := bracket_listing policy_content in
  mappings_text ← of_sum (json_dumps (opts_indent 2) (strdict_val mappings));
  try_excepts (validation_try (validation_prompt report_text policy_text mappings_text) customer_id)
    [(CException, fun e =>
        print (u "Error validating claim: " ++ exn_str e);;
        t1 ← now;
        t2 ← now;
        mret (validation_fallback customer_id e t1 t2))].

(** ** Properties *)

Lemma json_dumps_strdict o (m : strdict) : exists t, json_dumps o (strdict_val m) = inr t.
Proof.
  unfold json_dumps, strdict_val. destruct m as [|kv m]; [by eexists|].
  cbn [encode]. rewrite map_map.
  destruct (seq_results_ok (fun x => match encode o 1 (VStr x.2) with
      | inl e => inl e | inr t => inr (encode_str (ensure_ascii o) x.1 ++ key_sep o ++ t) end) (kv :: m))
    as [bs Hbs]; [intros x; by eexists|].
  simpl in Hbs |- *. rewrite Hbs. by eexists.
Qed.

Lemma run_collect_issues_absent (d : pydict) (w : World) :
  dict_get d (u "issues") = None -> collect_issues (VDict d) w = (inr [], w).
Proof. intros Hi. unfold collect_issues, py_get, dict_get_or. by rewrite Hi. Qed.

(** [validate_claim_with_ai] never raises, whatever the model answers,
    and the verdict's claim id is [claim-<customer>-<seconds>] of a clock
    reading. *)
Lemma validate_claim_returns report_content policy_content mappings customer_id :
  returns (fun r => exists t, ClaimValidationResult.claimId r = claim_id customer_id t)
    (validate_claim_with_ai report_content policy_content mappings customer_id).
Proof.
  unfold validate_claim_with_ai. destruct (json_dumps_strdict (opts_indent 2) mappings) as [mt ->].
  eapply returns_bind; [apply returns_of_sum|]. intros ? ->.
  apply returns_try_catch_all.
  - unfold validation_try. repeat (apply ensures_bind_any; intros ?; cbv beta zeta).
    apply ensures_of_sum. intros r (-> & _)%ClaimValidationResult_build_inr. by eexists.
  - intros e. eapply returns_bind; [apply print_returns|]. intros _ _.
    eapply returns_bind; [apply now_returns|]. intros t1 _.
    eapply returns_bind; [apply now_returns|]. intros t2 _.
    apply returns_ret. by exists t1.
Qed.

(** C4: when the model is down, the verdict is the fallback: pending
    review, not valid, confidence 0, one critical [incomplete_info] issue
    that quotes the error, with the claim id and the timestamp of the next
    two clock readings. *)
Theorem validate_claim_model_down report_content policy_content mappings customer_id (w : World) e :
  model_down (w_env w) e ->
  eval (validate_claim_with_ai report_content policy_content mappings customer_id) w
  = inr (validation_fallback customer_id e (env_clock (w_env w) (w_reads w))
           (env_clock (w_env w) (S (w_reads w)))).
Proof.
  intros Hd. unfold eval, validate_claim_with_ai.
  destruct (json_dumps_strdict (opts_indent 2) mappings) as [mt ->].
  erewrite run_bind_inr; [|apply run_of_sum].
  erewrite run_try_inl; [|unfold validation_try; apply run_bind_inl, run_generate_content_down, Hd].
  rewrite run_print, run_now, run_now. done.
Qed.

(** C32: an element of [issues] that is a string (without the word
    [status] in it) is not skipped: [issue_data["status"] = ...] raises
    [TypeError] outside the inner [try], and the whole verdict is the
    fallback. *)
Theorem validate_claim_string_issue report_content policy_content mappings customer_id (w : World)
    resp d s rest :
  model_answers (w_env w) (length (w_calls w)) resp ->
  json_loads (clean_json_response resp) = inr (VDict d) ->
  dict_get d (u "issues") = Some (VList (VStr s :: rest)) ->
  is_substring (u "status") s = false ->
  eval (validate_claim_with_ai report_content policy_content mappings customer_id) w
  = inr (validation_fallback customer_id (TypeError (u "'str' object does not support item assignment"))
           (env_clock (w_env w) (w_reads w)) (env_clock (w_env w) (S (w_reads w)))).
Proof.
  intros Ha Hl Hi Hs. unfold eval, validate_claim_with_ai.
  assert (Hmsg : u "'" ++ type_name (VStr s) ++ u "' object does not support item assignment"
                 = u "'str' object does not support item assignment") by (vm_compute; reflexivity).
  destruct (json_dumps_strdict (opts_indent 2) mappings) as [mt ->].
  erewrite run_bind_inr; [|apply run_of_sum].
  erewrite run_try_inl; cycle 1.
  { unfold validation_try. erewrite run_bind_inr; [|apply run_generate_content_answers, Ha].
    cbv beta zeta. rewrite Hl. erewrite run_bind_inr; [|apply run_of_sum].
    apply run_bind_inl. unfold collect_issues, py_get, dict_get_or. rewrite Hi.
    erewrite run_bind_inr; [|apply run_of_sum]. erewrite run_bind_inr; [|apply run_of_sum].
    apply run_bind_inl. apply run_mapM_cons_inl. unfold issue_step. apply run_bind_inl.
    unfold fix_issue. cbn [py_contains]. rewrite Hs. unfold py_setitem. rewrite Hmsg. reflexivity. }
  rewrite run_print, run_now, run_now. done.
Qed.

(** C8: an answer whose overall status is not one of the four values of
    [ClaimStatus] (and which has no issues) gives the fallback verdict,
    whose issue quotes the [ValueError] of [ClaimStatus(...)]; the clock
    reading of the [try] block is lost, so the fallback's claim id comes
    from the next reading. *)
Theorem validate_claim_bad_status report_content policy_content mappings customer_id (w : World) resp d s :
  model_answers (w_env w) (length (w_calls w)) resp ->
  json_loads (clean_json_response resp) = inr (VDict d) ->
  dict_get d (u "issues") = None ->
  dict_get d (u "status") = Some (VStr s) -> ClaimStatus.of_value s = None ->
  eval (validate_claim_with_ai report_content policy_content mappings customer_id) w
  = inr (validation_fallback customer_id (ValueError (py_repr (VStr s) ++ u " is not a valid ClaimStatus"))
           (env_clock (w_env w) (S (w_reads w))) (env_clock (w_env w) (S (S (w_reads w))))).
Proof.
  intros Ha Hl Hi Hs Hv. unfold eval, validate_claim_with_ai.
  destruct (json_dumps_strdict (opts_indent 2) mappings) as [mt ->].
  erewrite run_bind_inr; [|apply run_of_sum].
  erewrite run_try_inl; cycle 1.
  { unfold validation_try. erewrite run_bind_inr; [|apply run_generate_content_answers, Ha].
    cbv beta zeta. rewrite Hl. erewrite run_bind_inr; [|apply run_of_sum].
    erewrite run_bind_inr; [|by apply run_collect_issues_absent].
    rewrite run_now. erewrite run_bind_inr; [|apply run_of_sum]. unfold dict_get_or. rewrite Hs.
    apply run_bind_inl. unfold ClaimStatus.call. rewrite Hv. reflexivity. }
  rewrite run_print, run_now, run_now. done.
Qed.

(** C25: two claim ids of the same customer are equal exactly when the
    two clock readings fall in the same second: verdicts computed within
    one second share their id. *)
Theorem claim_id_same_second (customer_id : pystr) (t1 t2 : Z) :
  claim_id customer_id t1 = claim_id customer_id t2 <-> timestamp_int t1 = timestamp_int t2.
Proof.
  unfold claim_id. split; [|by intros ->].
  intros H. do 3 apply app_inv_head in H. by apply str_of_Z_inj.
Qed.

(** The success path, with the world it leaves. *)
Lemma run_validate_claim_success report_content policy_content mappings customer_id (w : World)
    resp d st b f sm :
  model_answers (w_env w) (length (w_calls w)) resp ->
  json_loads (clean_json_response resp) = inr (VDict d) ->
  dict_get d (u "issues") = None ->
  dict_get d (u "status") = Some (VStr (ClaimStatus.value st)) ->
  dict_get d (u "isValid") = Some (VBool b) ->
  dict_get d (u "confidence") = Some (VFloat f) ->
  dict_get d (u "estimatedAmount") = None -> dict_get d (u "maxCoverageAmount") = None ->
  dict_get d (u "summary") = Some (VStr sm) ->
  exists w', validate_claim_with_ai report_content policy_content mappings customer_id w
  = (inr (ClaimValidationResult.mk (claim_id customer_id (env_clock (w_env w) (w_reads w))) st b f None None []
           sm (isoformat (env_clock (w_env w) (S (w_reads w))))), w').
Proof.
  intros Ha Hl Hi Hs Hb Hc He Hm Hsm. unfold validate_claim_with_ai.
  destruct (json_dumps_strdict (opts_indent 2) mappings) as [mt ->]. eexists.
  erewrite run_bind_inr; [|apply run_of_sum].
  erewrite run_try_inr; [done|]. unfold validation_try.
  erewrite run_bind_inr; [|apply run_generate_content_answers, Ha].
  cbv beta zeta. rewrite Hl. erewrite run_bind_inr; [|apply run_of_sum].
  erewrite run_bind_inr; [|by apply run_collect_issues_absent]. rewrite run_now.
  unfold py_get, dict_get_or. rewrite Hs, Hb, Hc, He, Hm, Hsm.
  erewrite run_bind_inr; [|apply run_of_sum].
  erewrite run_bind_inr; [|rewrite ClaimStatus_call_value; apply run_of_sum].
  do 5 (erewrite run_bind_inr; [|apply run_of_sum]). rewrite run_now.
  reflexivity.
Qed.

(** C30: the success path: an answer with a valid status, a boolean
    [isValid], a float [confidence], a [summary] and no issues or amounts
    gives the verdict built from those values, with the claim id and the
    timestamp of the next two clock readings.  The confidence is taken as
    it is: nothing checks that it lies in [0, 1]. *)
Theorem validate_claim_success report_content policy_content mappings customer_id (w : World)
    resp d st b f sm :
  model_answers (w_env w) (length (w_calls w)) resp ->
  json_loads (clean_json_response resp) = inr (VDict d) ->
  dict_get d (u "issues") = None ->
  dict_get d (u "status") = Some (VStr (ClaimStatus.value st)) ->
  dict_get d (u "isValid") = Some (VBool b) ->
  dict_get d (u "confidence") = Some (VFloat f) ->
  dict_get d (u "estimatedAmount") = None -> dict_get d (u "maxCoverageAmount") = None ->
  dict_get d (u "summary") = Some (VStr sm) ->
  eval (validate_claim_with_ai report_content policy_content mappings customer_id) w
  = inr (ClaimValidationResult.mk (claim_id customer_id (env_clock (w_env w) (w_reads w))) st b f None None []
           sm (isoformat (env_clock (w_env w) (S (w_reads w))))).
Proof.
  intros Ha Hl Hi Hs Hb Hc He Hm Hsm. unfold eval.
  by destruct (run_validate_claim_success report_content policy_content mappings customer_id w resp d st b f sm
                 Ha Hl Hi Hs Hb Hc He Hm Hsm) as [w' ->].
Qed.

(** ** Witnesses *)

Lemma validate_claim_model_down_witness :
  eval (validate_claim_with_ai sample_report sample_policy [] (u "BH-00123"))
       (world_of (env_answers []))
  = inr (validation_fallback (u "BH-00123") (UpstreamError (u "429 Resource has been exhausted"))
           (sample_clock 0) (sample_clock 1)).
Proof.
  rewrite (validate_claim_model_down _ _ _ _ _ (UpstreamError (u "429 Resource has been exhausted"))).
  - reflexivity.
  - intros n parts. reflexivity.
Defined.

Lemma validate_claim_bad_status_witness :
  eval (validate_claim_with_ai sample_report sample_policy [] (u "BH-00123"))
       (world_of (env_answers [u "```json
{~status~: ~done~, ~isValid~: true}
```"]))
  = inr (validation_fallback (u "BH-00123") (ValueError (u "'done' is not a valid ClaimStatus"))
           (sample_clock 1) (sample_clock 2)).
Proof.
  rewrite (validate_claim_bad_status _ _ _ _ _ (u "```json
{~status~: ~done~, ~isValid~: true}
```") [(u "status", VStr (u "done")); (u "isValid", VBool true)] (u "done")).
  - vm_compute. reflexivity.
  - intros parts. reflexivity.
  - vm_compute. reflexivity.
  - vm_compute. reflexivity.
  - vm_compute. reflexivity.
  - vm_compute. reflexivity.
Defined.

Lemma validate_claim_success_witness :
  eval (validate_claim_with_ai sample_report sample_policy [] (u "BH-00123"))
       (world_of (env_answers [u "{~status~: ~approved~, ~isValid~: true, ~confidence~: 1.5, ~summary~: ~OK~}"]))
  = inr (ClaimValidationResult.mk (claim_id (u "BH-00123") (sample_clock 0)) ClaimStatus.APPROVED true
           (FFin false 15 (-1)) None None [] (u "OK") (isoformat (sample_clock 1))).
Proof.
  rewrite (validate_claim_success _ _ _ _ _ (u "{~status~: ~approved~, ~isValid~: true, ~confidence~: 1.5, ~summary~: ~OK~}")
           [(u "status", VStr (u "approved")); (u "isValid", VBool true);
            (u "confidence", VFloat (FFin false 15 (-1))); (u "summary", VStr (u "OK"))]
           ClaimStatus.APPROVED true (FFin false 15 (-1)) (u "OK")).
  1: reflexivity.
  1: intros parts; reflexivity.
  all: vm_compute; reflexivity.
Defined.

Lemma validate_claim_string_issue_witness :
  eval (validate_claim_with_ai sample_report sample_policy [] (u "BH-00123"))
       (world_of (env_answers [u "{~status~: ~approved~, ~issues~: [~Thiếu giấy ra viện~]}"]))
  = inr (validation_fallback (u "BH-00123") (TypeError (u "'str' object does not support item assignment"))
           (sample_clock 0) (sample_clock 1)).
Proof.
  rewrite (validate_claim_string_issue _ _ _ _ _ (u "{~status~: ~approved~, ~issues~: [~Thiếu giấy ra viện~]}")
           [(u "status", VStr (u "approved")); (u "issues", VList [VStr (u "Thiếu giấy ra viện")])]
           (u "Thiếu giấy ra viện") []).
  1: reflexivity.
  1: intros parts; reflexivity.
  all: vm_compute; reflexivity.
Defined.
