(* ===== verification/ActionPlan.v ===== *)
(** * suggest_action_plan_with_ai: the remediation plan

    services.py lines 358-460.  When a prior verdict is given, the prompt
    embeds its summary; in Python 3.11 [f"{validation_result.status}"]
    formats the [str]-mixin enum as ["ClaimStatus.APPROVED"], not as its
    value, and [f"{isValid}"] as ["True"] / ["False"].  The answer's
    actions are built with [ActionItem( **action)] in a list
    comprehension, so one bad action sends the whole plan to the fallback
    (unlike the issues of [validate_claim_with_ai], which are skipped one
    by one).  The claim id is the prior verdict's when there is one, a
    fresh [claim-<customer>-<seconds>] otherwise; the fallback plan has one
    high-priority action on the first two report sections. *)

From S2P Require Import Prelude PyStr PyExn Json PyObj World Clock Models Prompts Clean Validation.

Local Open Scope N_scope.

(** [f"{status}"] of a [ClaimStatus] member in Python 3.11. *)
Definition status_format (s : ClaimStatus.t) : pystr :=
  u "ClaimStatus." ++
  match s with
  | ClaimStatus.APPROVED => u "APPROVED" | ClaimStatus.REJECTED => u "REJECTED"
  | ClaimStatus.NEEDS_MORE_INFO => u "NEEDS_MORE_INFO"
  | ClaimStatus.PENDING_REVIEW => u "PENDING_REVIEW"
  end.

Definition bool_format (b : bool) : pystr := if b then u "True" else u "False".

Definition validation_summary (vr : option ClaimValidationResult.t) : pystr :=
  match vr with
  | None => []
  | Some r =>
      plan_validation_summary (status_format (ClaimValidationResult.status r))
        (bool_format (ClaimValidationResult.isValid r)) (length (ClaimValidationResult.issues r))
        (ClaimValidationResult.summary r)
  end.

(** [validation_result.claimId if validation_result else f"claim-..."] *)
Definition plan_claim_id (vr : option ClaimValidationResult.t) (customer_id : pystr) : M pystr :=
  match vr with
  | Some r => mret (ClaimValidationResult.claimId r)
  | None => t ← now; mret (claim_id customer_id t)
  end.

Definition plan_id (us : Z) : pystr := u "plan-" ++ str_of_Z (timestamp_int us).

(** [[ActionItem( **action) for action in actions]]: the first failure
    ends the comprehension. *)
Definition build_actions (items : list pyval) : exn + list ActionItem.t :=
  seq_results (map (fun a => match py_kwargs (u "ActionItem") a with
                             | inl e => inl e
                             | inr kw => ActionItem.validate kw
                             end) items).

Definition plan_try (prompt : pystr) (vr : option ClaimValidationResult.t) (customer_id : pystr)
    : M ActionPlan.t :=
  response ← generate_content [PText prompt];
  let response_text := clean_json_response response in
  result ← of_sum (json_loads response_text);
  acts ← of_sum (py_get result (u "actions") (VList []));
  items ← of_sum (py_iter acts);
  actions ← of_sum (build_actions items);
  cid ← plan_claim_id vr customer_id;
  t1 ← now;
  st ← of_sum (py_get result (u "status") (VStr (u "pending_review")));
  status ← of_sum (ClaimStatus.call st);
  total ← of_sum (py_get result (u "totalEstimatedTime") (VStr (u "Unknown")));
  critical ← of_sum (py_get result (u "criticalPath") (VList []));
  next ← of_sum (py_get result (u "nextSteps") (VStr (u "Đang xử lý")));
  t2 ← now;
  of_sum (ActionPlan.build (plan_id t1) cid status actions total critical next (isoformat t2)).

(** The action of the [except] branch. *)
Definition fallback_action (report_content : list ContentSection.t) : ActionItem.t :=
  ActionItem.mk (u "action_1") (u "Review documents") (u "Kiểm tra tất cả tài liệu đính kèm")
    ActionPriority.HIGH None (Some (u "Claims Team"))
    (map ContentSection.id (take 2 report_content)) (u "1 hour").

Definition plan_fallback (report_content : list ContentSection.t) (cid : pystr) (t1 t2 : Z) : ActionPlan.t :=
  ActionPlan.mk (plan_id t1) cid ClaimStatus.PENDING_REVIEW [fallback_action report_content]
    (u "1 hour") [u "action_1"] (u "Bắt đầu review tài liệu") (isoformat t2).

(** [suggest_action_plan_with_ai(report_content, policy_content, validation_result, customer_id)] *)
Definition suggest_action_plan_with_ai (report_content policy_content : list ContentSection.t)
    (vr : option ClaimValidationResult.t) (customer_id : pystr) : M ActionPlan.t :=
  let prompt := plan_prompt (bracket_listing report_content) (bracket_listing policy_content)
                  (validation_summary vr) in
  try_excepts (plan_try prompt vr customer_id)
    [(CException, fun e =>
        print (u "Error suggesting action plan: " ++ exn_str e);;
        cid ← plan_claim_id vr customer_id;
        t1 ← now;
        t2 ← now;
        mret (plan_fallback report_content cid t1 t2))].

(** ** Properties *)

(** The claim id a plan must carry: the prior verdict's, or one made from
    a clock reading. *)
Definition plan_claim_ok (vr : option ClaimValidationResult.t) (customer_id : pystr) (p : ActionPlan.t) : Prop :=
  match vr with
  | Some r => ActionPlan.claimId p = ClaimValidationResult.claimId r
  | None => exists t, ActionPlan.claimId p = claim_id customer_id t
  end.

Lemma plan_claim_id_returns vr customer_id :
  returns (fun c => match vr with
                    | Some r => c = ClaimValidationResult.claimId r
                    | None => exists t, c = claim_id customer_id t
                    end) (plan_claim_id vr customer_id).
Proof.
  destruct vr as [r|]; simpl; [by apply returns_ret|].
  eapply returns_bind; [apply now_returns|]. intros t _. apply returns_ret. by exists t.
Qed.

Lemma plan_claim_id_ensures vr customer_id :
  ensures (fun c => match vr with
                    | Some r => c = ClaimValidationResult.claimId r
                    | None => exists t, c = claim_id customer_id t
                    end) (plan_claim_id vr customer_id).
Proof. intros s c Hc. destruct (plan_claim_id_returns vr customer_id s) as (c' & Hc' & HP). rewrite Hc in Hc'. by injection Hc' as <-. Qed.

(** [suggest_action_plan_with_ai] never raises, and the plan carries the
    claim id of the prior verdict when one is given, on the path that uses
    the model's plan and on the fallback alike. *)
Lemma suggest_action_plan_returns report_content policy_content vr customer_id :
  returns (plan_claim_ok vr customer_id)
    (suggest_action_plan_with_ai report_content policy_content vr customer_id).
Proof.
  apply returns_try_catch_all.
  - unfold plan_try. do 5 (apply ensures_bind_any; intros ?; cbv beta zeta).
    eapply ensures_bind; [apply plan_claim_id_ensures|]. intros c Hc.
    repeat (apply ensures_bind_any; intros ?; cbv beta zeta).
    apply ensures_of_sum. intros p (_ & Hp & _)%ActionPlan_build_inr.
    unfold plan_claim_ok. destruct vr; [congruence|]. destruct Hc as [t ->]. by exists t.
  - intros e. eapply returns_bind; [apply print_returns|]. intros _ _.
    eapply returns_bind; [apply plan_claim_id_returns|]. intros c Hc.
    eapply returns_bind; [apply now_returns|]. intros t1 _.
    eapply returns_bind; [apply now_returns|]. intros t2 _.
    apply returns_ret. unfold plan_claim_ok; simpl. destruct vr; [done|]. destruct Hc as [t ->]. by exists t.
Qed.

(** C9: one action of the answer that [ActionItem] rejects discards the
    whole plan of the model: the handler returns the fallback plan, one
    high-priority review of the first two report sections, with the claim
    id of the prior verdict. *)
Theorem suggest_action_plan_bad_action report_content policy_content r customer_id (w : World)
    resp d items err :
  model_answers (w_env w) (length (w_calls w)) resp ->
  json_loads (clean_json_response resp) = inr (VDict d) ->
  dict_get d (u "actions") = Some (VList items) ->
  build_actions items = inl err ->
  eval (suggest_action_plan_with_ai report_content policy_content (Some r) customer_id) w
  = inr (plan_fallback report_content (ClaimValidationResult.claimId r)
           (env_clock (w_env w) (w_reads w)) (env_clock (w_env w) (S (w_reads w)))).
Proof.
  intros Ha Hl Hd Hb. unfold eval, suggest_action_plan_with_ai.
  erewrite run_try_inl; cycle 1.
  { unfold plan_try. erewrite run_bind_inr; [|apply run_generate_content_answers, Ha].
    cbv beta zeta. rewrite Hl. erewrite run_bind_inr; [|apply run_of_sum].
    unfold py_get, dict_get_or. rewrite Hd. erewrite run_bind_inr; [|apply run_of_sum].
    erewrite run_bind_inr; [|apply run_of_sum]. apply run_bind_inl. by rewrite Hb. }
  rewrite run_print. cbn [plan_claim_id]. erewrite run_bind_inr; [|reflexivity].
  rewrite run_now, run_now. done.
Qed.

(** ** Witnesses *)

Lemma suggest_action_plan_bad_action_witness :
  eval (suggest_action_plan_with_ai sample_report sample_policy
          (Some (validation_fallback (u "BH-00123") (UpstreamError []) (sample_clock 0) (sample_clock 1)))
          (u "BH-00123"))
       (world_of (env_answers [u "{~actions~: [{~id~: ~action_1~, ~title~: ~Xác minh~}]}"]))
  = inr (plan_fallback sample_report (claim_id (u "BH-00123") (sample_clock 0)) (sample_clock 0) (sample_clock 1)).
Proof.
  rewrite (suggest_action_plan_bad_action _ _ _ _ _ (u "{~actions~: [{~id~: ~action_1~, ~title~: ~Xác minh~}]}")
             [(u "actions", VList [VDict [(u "id", VStr (u "action_1")); (u "title", VStr (u "Xác minh"))]])]
             [VDict [(u "id", VStr (u "action_1")); (u "title", VStr (u "Xác minh"))]]
             (ValidationError (u "ActionItem")
                (verror (u "description") (u "Field required") (u "missing")
                 ++ verror (u "priority") (u "Field required") (u "missing")
                 ++ verror (u "relatedSections") (u "Field required") (u "missing")
                 ++ verror (u "estimatedTime") (u "Field required") (u "missing")))).
  - reflexivity.
  - intros parts. reflexivity.
  - vm_compute. reflexivity.
  - vm_compute. reflexivity.
  - vm_compute. reflexivity.
Defined.
