(* ===== verification/Payout.v ===== *)
(** * calculate_payout_from_text: three fields read out of free text

    services.py lines 510-564.  The answer is searched with
    [re.search(pattern, raw_text, re.IGNORECASE)] for
    - [expected_value\s*[:=]\s*([\d.,]+)], whose group loses its commas,
      is cut at the first dot and goes through [int()] ([None] on
      [ValueError]);
    - [recommended_range\s*[:=]\s*(.+)], stripped;
    - [probability_of_success\s*[:=]\s*([\d.]+%?)].
    Each search is a leftmost match: [search_first] tries the positions
    from left to right and [match_field] decides a match at one position.
    In the first and third patterns the classes after [\s*] exclude
    whitespace, so the greedy [\s*] never backtracks; in the second, [.+]
    may take back the last non-newline character of the whitespace run
    when nothing follows it (Python captures [' '] from
    ["recommended_range: \n"]).  Case is ignored for ASCII letters (the
    model does not include the Unicode case foldings of [re]).  The
    extracted dict is written to [outputs/ket_qua_tinh_toan_<time>.json].
    A text that cannot be encoded leaves the file as [open] created it. *)

From S2P Require Import Prelude PyStr PyExn Json PyObj World Clock Prompts.
From stdpp Require Import sets.

Local Open Scope N_scope.

Definition ascii_fold (c : N) : N := if (65 <=? c) && (c <=? 90) then c + 32 else c.

(** The literal [key] at the head of [t], ignoring ASCII case. *)
Fixpoint istarts_with (key t : pystr) : bool :=
  match key, t with
  | [], _ => true
  | k :: key', c :: t' => (ascii_fold k =? ascii_fold c) && istarts_with key' t'
  | _ :: _, [] => false
  end.

(** The longest prefix of [t] whose characters satisfy [p]. *)
Fixpoint span (p : N -> bool) (t : pystr) : pystr * pystr :=
  match t with
  | c :: r => if p c then let '(a, b) := span p r in (c :: a, b) else ([], t)
  | [] => ([], [])
  end.

(** [key\s*[:=]] then [value] on what follows the delimiter. *)
Definition match_field (key : pystr) (value : pystr -> option pystr) (t : pystr) : option pystr :=
  if istarts_with key t then
    match lstrip (drop (length key) t) with
    | d :: r => if (d =? 58) || (d =? 61) then value r else None
    | [] => None
    end
  else None.

(** [re.search]: the first position where the pattern matches. *)
Fixpoint search_first (m : pystr -> option pystr) (t : pystr) : option pystr :=
  match m t with
  | Some g => Some g
  | None => match t with [] => None | _ :: r => search_first m r end
  end.

Definition is_num_char (c : N) : bool := is_digit c || (c =? 46) || (c =? 44).
Definition is_dec_char (c : N) : bool := is_digit c || (c =? 46).

(** [\s*([\d.,]+)] *)
Definition value_amount (r : pystr) : option pystr :=
  match span is_num_char (lstrip r) with ([], _) => None | (g, _) => Some g end.

(** [\s*([\d.]+%?)] *)
Definition value_probability (r : pystr) : option pystr :=
  match span is_dec_char (lstrip r) with
  | ([], _) => None
  | (g, 37 :: _) => Some (g ++ [37])
  | (g, _) => Some g
  end.

(** [\s*(.+)]: the rest of the line after the whitespace, or, when only
    whitespace follows, the last non-newline character of it. *)
Definition value_line (r : pystr) : option pystr :=
  let '(w, rest) := span is_space r in
  match rest with
  | _ :: _ => Some (span (fun c => negb (c =? c_newline)) rest).1
  | [] => match List.find (fun c => negb (c =? c_newline)) (reverse w) with
          | Some c => Some [c]
          | None => None
          end
  end.

Definition expected_value_match (raw : pystr) : option pystr :=
  search_first (match_field (u "expected_value") value_amount) raw.
Definition recommended_range_match (raw : pystr) : option pystr :=
  search_first (match_field (u "recommended_range") value_line) raw.
Definition probability_match (raw : pystr) : option pystr :=
  search_first (match_field (u "probability_of_success") value_probability) raw.

(** [int(group.replace(",", "").split(".")[0])], [None] on [ValueError]. *)
Definition amount_of_group (g : pystr) : option Z :=
  match py_split [46] (py_replace [44] [] g) with
  | first :: _ => py_int first
  | [] => None
  end.

Definition extracted_data (raw : pystr) : pyval :=
  let ev := match expected_value_match raw with
            | Some g => match amount_of_group g with Some z => VInt z | None => VNone end
            | None => VNone
            end in
  let rr := match recommended_range_match raw with Some g => VStr (strip g) | None => VNone end in
  let pr := match probability_match raw with Some g => VStr g | None => VNone end in
  VDict [(u "expected_value", ev); (u "recommended_range", rr); (u "probability_of_success", pr)].

(** [json.dump(data, f, ensure_ascii=False, indent=4)] *)
Definition opts_file : dump_opts :=
  {| ensure_ascii := false; indent := Some 4%nat; item_sep := u ","; key_sep := u ": "; allow_nan := true |}.

(** [with open(path, "w", encoding="utf-8") as f: f.write(text)] *)
Definition write_text (dir path text : pystr) : M unit :=
  write_file dir path [];;
  match utf8_encode text with
  | inl i => raise (ValueError (u "'utf-8' codec can't encode character in position " ++ str_of_nat i
                                 ++ u ": surrogates not allowed"))
  | inr bytes => write_file dir path bytes
  end.

Definition output_path (us : Z) : pystr :=
  u "outputs/ket_qua_tinh_toan_" ++ strftime_compact us ++ u ".json".

Definition payout_try (contract_text : pystr) : M pyval :=
  print (u "[LOG] /calculate_max_payout/: Gửi hồ sơ cho Gemini để phân tích...");;
  response ← generate_content [PText (PROMPT_TINH_TOAN_TOI_DA contract_text)];
  let raw_text := strip response in
  print (u "[LOG] /calculate_max_payout/: Đã có kết quả tính toán.");;
  let data := extracted_data raw_text in
  makedirs (u "outputs");;
  t ← now;
  let path := output_path t in
  text ← of_sum (json_dumps opts_file data);
  write_text (u "outputs") path text;;
  print (u "[LOG] /calculate_max_payout/: ✅ Đã lưu file JSON -> " ++ path);;
  mret (VDict [(u "message", VStr (u "✅ Tính toán thành công."));
               (u "ket_qua_tinh_toan_tu_hop_dong", VStr raw_text);
               (u "du_lieu_trich_xuat", data)]).

(** [calculate_payout_from_text(contract_text)] *)
Definition calculate_payout_from_text (contract_text : pystr) : M pyval :=
  if bool_decide (strip contract_text = []) then
    raise (HTTPException 400 (u "Văn bản 'contract_text' không có nội dung."))
  else
    try_excepts (payout_try contract_text)
      [(CException, fun e =>
          print (u "[LỖI API GEMINI] " ++ exn_str e);;
          raise (HTTPException 500 (u "Lỗi khi gọi API Gemini: " ++ exn_str e)))].

(** ** Properties *)

Lemma run_makedirs d (w : World) :
  exists w', makedirs d w = (inr tt, w') /\ d ∈ w_dirs w' /\ w_files w' = w_files w
             /\ w_env w' = w_env w /\ w_reads w' = w_reads w.
Proof.
  unfold makedirs. case_bool_decide; eexists; (split; [reflexivity|]); simpl; [done|].
  split_and!; [set_solver|done|done|done].
Qed.

Lemma run_write_text dir path text bytes (w : World) :
  dir ∈ w_dirs w -> utf8_encode text = inr bytes ->
  exists w', write_text dir path text w = (inr tt, w')
             /\ file_lookup (w_files w') path = Some bytes /\ w_env w' = w_env w /\ w_reads w' = w_reads w.
Proof.
  intros Hd He. unfold write_text.
  erewrite run_bind_inr; [|unfold write_file; rewrite bool_decide_eq_true_2 by auto; reflexivity].
  rewrite He. unfold write_file. simpl. rewrite bool_decide_eq_true_2 by auto.
  eexists. split; [reflexivity|]. simpl. split; [apply file_lookup_write|done].
Qed.

Lemma json_dumps_data raw : exists text, json_dumps opts_file (extracted_data raw) = inr text.
Proof.
  unfold extracted_data.
  destruct (expected_value_match raw) as [g|]; [destruct (amount_of_group g)|];
  destruct (recommended_range_match raw), (probability_match raw); by eexists.
Qed.

(** C13: when the model answers and the JSON text of the extracted data
    can be encoded in UTF-8, the handler returns the answer and the
    extracted data, and the file [outputs/ket_qua_tinh_toan_<time>.json]
    of the clock reading holds the UTF-8 bytes of that JSON text. *)
Theorem calculate_payout_success contract_text (w : World) resp text bytes :
  strip contract_text <> [] ->
  model_answers (w_env w) (length (w_calls w)) resp ->
  json_dumps opts_file (extracted_data (strip resp)) = inr text ->
  utf8_encode text = inr bytes ->
  exists w', calculate_payout_from_text contract_text w
     = (inr (VDict [(u "message", VStr (u "✅ Tính toán thành công."));
                    (u "ket_qua_tinh_toan_tu_hop_dong", VStr (strip resp));
                    (u "du_lieu_trich_xuat", extracted_data (strip resp))]), w')
   /\ file_lookup (w_files w') (output_path (env_clock (w_env w) (w_reads w))) = Some bytes.
Proof.
  intros Hne Ha Hj Hu. unfold calculate_payout_from_text. rewrite bool_decide_eq_false_2 by done.
  unfold payout_try, try_excepts. rewrite run_print.
  erewrite run_bind_inr; [|apply run_generate_content_answers; exact Ha]. cbv beta zeta.
  rewrite run_print.
  edestruct run_makedirs as (w1 & Hm & Hd1 & Hf1 & He1 & Hr1). erewrite run_bind_inr; [|exact Hm].
  rewrite run_now. rewrite Hj. erewrite run_bind_inr; [|apply run_of_sum].
  edestruct (run_write_text (u "outputs") (output_path (env_clock (w_env w1) (w_reads w1))) text bytes
               (set_reads w1 (S (w_reads w1)))) as (w2 & Hw & Hl & He2 & Hr2); [exact Hd1|exact Hu|].
  erewrite run_bind_inr; [|exact Hw]. rewrite run_print.
  eexists. split; [reflexivity|]. simpl. rewrite He1, Hr1 in Hl. exact Hl.
Qed.

(** C14: a contract text that is empty or only whitespace is refused
    with [HTTPException(400)] before any model call: the world is left
    as it was. *)
Theorem calculate_payout_blank contract_text (w : World) :
  strip contract_text = [] ->
  calculate_payout_from_text contract_text w
  = (inl (HTTPException 400 (u "Văn bản 'contract_text' không có nội dung.")), w).
Proof. intros Hs. unfold calculate_payout_from_text. by rewrite bool_decide_eq_true_2. Qed.

(** C17: when the model is down, the handler raises [HTTPException(500)]
    quoting the error, and writes no file. *)
Theorem calculate_payout_model_down contract_text (w : World) e :
  strip contract_text <> [] -> model_down (w_env w) e ->
  fst (calculate_payout_from_text contract_text w)
    = inl (HTTPException 500 (u "Lỗi khi gọi API Gemini: " ++ exn_str e))
  /\ w_files (snd (calculate_payout_from_text contract_text w)) = w_files w.
Proof.
  intros Hne Hd. unfold calculate_payout_from_text. rewrite bool_decide_eq_false_2 by done.
  erewrite run_try_inl; [|unfold payout_try; rewrite run_print; apply run_bind_inl, run_generate_content_down, Hd].
  cbv beta. rewrite run_print. done.
Qed.

Lemma amount_of_group_digits (a r : pystr) :
  Forall (fun c => is_digit c = true) a -> 44 ∉ a -> 44 ∉ r ->
  amount_of_group (a ++ 46 :: r) = py_int a.
Proof.
  intros Hd Ha Hr. unfold amount_of_group.
  rewrite py_replace_absent by (rewrite elem_of_app, elem_of_cons; intros [|[|]]; [done|lia|done]).
  destruct (py_split_char_first 46 a r) as [rest ->]; [|done].
  apply digits_no_char; [reflexivity|done].
Qed.

(** C16: [int(str(n))] round trip of the amount: a number printed
    without separators (within CPython's 4300-digit limit) is read back. *)
Theorem amount_of_group_str_of_N (n : N) :
  (length (str_of_N n) <= max_str_digits)%nat -> amount_of_group (str_of_N n) = Some (Z.of_N n).
Proof.
  intros Hl. unfold amount_of_group.
  assert (H44 : 44 ∉ str_of_N n) by (apply digits_no_char; [reflexivity|apply str_of_N_digits]).
  assert (H46 : 46 ∉ str_of_N n) by (apply digits_no_char; [reflexivity|apply str_of_N_digits]).
  rewrite py_replace_absent, py_split_char_absent by done. by apply py_int_str_of_N.
Qed.

(** C15: an amount written with dots as thousands separators, as
    Vietnamese texts do (["75.000.000"]), is cut at the first dot: the
    handler reads [n] from [str(n) + "." + rest]. *)
Theorem amount_of_group_dot_truncates (n : N) (rest : pystr) :
  (length (str_of_N n) <= max_str_digits)%nat -> 44 ∉ rest ->
  amount_of_group (str_of_N n ++ 46 :: rest) = Some (Z.of_N n).
Proof.
  intros Hl Hr. rewrite amount_of_group_digits; [by apply py_int_str_of_N|apply str_of_N_digits| |done].
  apply digits_no_char; [reflexivity|apply str_of_N_digits].
Qed.

(** [search_first] refines the leftmost-match contract of
    [re.search]: it answers the group of the match at the least position
    [i] (from [0] to the end of the text, the empty suffix included) where
    the pattern matches, and every position before [i] does not match. *)
Theorem search_first_leftmost (m : pystr -> option pystr) (t g : pystr) :
  search_first m t = Some g <->
  exists i, (i <= length t)%nat /\ m (drop i t) = Some g /\
            forall j, (j < i)%nat -> m (drop j t) = None.
Proof.
  induction t as [|c t IH]; cbn [search_first].
  - split; [case_match; intros; simplify_eq; exists 0%nat; split_and!; [done|done|lia]|].
    intros (i & Hi & Hm & _). cbn [length] in Hi. replace i with 0%nat in Hm by lia.
    cbn [drop] in Hm. by rewrite Hm.
  - destruct (m (c :: t)) as [g'|] eqn:E.
    + split; [intros [= ->]; exists 0%nat; split_and!; [simpl; lia|done|lia]|].
      intros (i & _ & Hm & Hb). destruct i as [|i]; [cbn [drop] in Hm; by rewrite Hm in E|].
      specialize (Hb 0%nat ltac:(lia)). cbn [drop] in Hb. congruence.
    + rewrite IH. split.
      * intros (i & Hi & Hm & Hb). exists (S i). cbn [length drop]. split_and!; [lia|done|].
        intros [|j] Hj; [done|]. apply Hb. lia.
      * intros ([|i] & Hi & Hm & Hb); [cbn [drop] in Hm; by rewrite Hm in E|]. cbn [length drop] in *.
        exists i. split_and!; [lia|done|]. intros j Hj. apply (Hb (S j)). lia.
Qed.

(** ** Witnesses *)

Lemma calculate_payout_success_witness :
  exists w', calculate_payout_from_text (u "Hợp đồng số 12") (world_of (env_answers [u "expected_value: 75,000,000"]))
     = (inr (VDict [(u "message", VStr (u "✅ Tính toán thành công."));
                    (u "ket_qua_tinh_toan_tu_hop_dong", VStr (strip (u "expected_value: 75,000,000")));
                    (u "du_lieu_trich_xuat", extracted_data (strip (u "expected_value: 75,000,000")))]), w')
   /\ file_lookup (w_files w') (output_path (env_clock (w_env (world_of (env_answers [u "expected_value: 75,000,000"]))) (w_reads (world_of (env_answers [u "expected_value: 75,000,000"])))))
       = Some (match utf8_encode (match json_dumps opts_file (extracted_data (strip (u "expected_value: 75,000,000"))) with inr t => t | inl _ => [] end) with inr b => b | inl _ => [] end).
Proof.
  refine (calculate_payout_success (u "Hợp đồng số 12") (world_of (env_answers [u "expected_value: 75,000,000"])) (u "expected_value: 75,000,000") (match json_dumps opts_file (extracted_data (strip (u "expected_value: 75,000,000"))) with inr t => t | inl _ => [] end) (match utf8_encode (match json_dumps opts_file (extracted_data (strip (u "expected_value: 75,000,000"))) with inr t => t | inl _ => [] end) with inr b => b | inl _ => [] end) _ _ _ _).
  - vm_compute. discriminate.
  - intros parts. reflexivity.
  - vm_compute. reflexivity.
  - vm_compute. reflexivity.
Defined.

Lemma calculate_payout_blank_witness :
  calculate_payout_from_text (u " 	 ") (world_of (env_answers []))
  = (inl (HTTPException 400 (u "Văn bản 'contract_text' không có nội dung.")), world_of (env_answers [])).
Proof. apply calculate_payout_blank. vm_compute. reflexivity. Defined.

Lemma calculate_payout_model_down_witness :
  fst (calculate_payout_from_text (u "Hợp đồng") (world_of (env_answers [])))
    = inl (HTTPException 500 (u "Lỗi khi gọi API Gemini: " ++ exn_str (UpstreamError (u "429 Resource has been exhausted"))))
  /\ w_files (snd (calculate_payout_from_text (u "Hợp đồng") (world_of (env_answers [])))) = [].
Proof.
  apply calculate_payout_model_down; [vm_compute; discriminate|intros n parts; reflexivity].
Defined.

Lemma amount_of_group_str_of_N_witness : amount_of_group (str_of_N 75000000) = Some 75000000%Z.
Proof. apply amount_of_group_str_of_N. apply Nat.leb_le. vm_compute. reflexivity. Defined.

Lemma amount_of_group_dot_truncates_witness : amount_of_group (u "75.000.000") = Some 75%Z.
Proof. apply (amount_of_group_dot_truncates 75 (u "000.000")); [apply Nat.leb_le; vm_compute; reflexivity|decide_closed]. Defined.
