(* ===== verification/Utils.v ===== *)
(** * utils.py: text of an uploaded file

    [extract_text_from_docx] (utils.py lines 6-20) writes the bytes to a
    [NamedTemporaryFile(delete=False, suffix='.docx')], opens it with
    python-docx ([World.docx_paragraphs]), joins the paragraphs with
    newlines, unlinks the file and strips the text; any exception becomes
    [HTTPException(400)].  When [Document] raises, the [os.unlink] line is
    skipped: the temporary file stays in the file system.
    [extract_text_from_file] (lines 22-29) dispatches on the declared
    content type; a plain-text upload is decoded as strict UTF-8 outside
    any [try], so invalid bytes raise [UnicodeDecodeError] (a
    [ValueError]). *)

From S2P Require Import Prelude PyStr PyExn Json PyObj World.

Local Open Scope N_scope.

(** fastapi's [UploadFile], after [await file.read()]. *)
Record upload : Type := {
  up_filename : pystr;
  up_content_type : option pystr;
  up_data : list N
}.

(** [str(UnicodeDecodeError)] *)
Definition decode_error_str (e : decode_error) : pystr :=
  let '(i, k, b, reason) := e in
  u "'utf-8' codec can't decode "
    ++ (if Nat.eqb k 1 then u "byte 0x" ++ hex2 b ++ u " in position " ++ str_of_nat i
        else u "bytes in position " ++ str_of_nat i ++ u "-" ++ str_of_nat (i + k - 1))
    ++ u ": " ++ reason.

(** [file_bytes.decode('utf-8')] *)
Definition bytes_decode (bs : list N) : exn + pystr :=
  match utf8_decode bs with
  | inl e => inl (ValueError (decode_error_str e))
  | inr s => inr s
  end.

Definition docx_type : pystr := u "application/vnd.openxmlformats-officedocument.wordprocessingml.document".

(** [extract_text_from_docx(file_bytes)] *)
Definition extract_text_from_docx (file_bytes : list N) : M pystr :=
  try_excepts
    (tmp_path ← tmp_file_write (u ".docx") file_bytes;
     paragraphs ← docx_paragraphs tmp_path;
     let text := py_join [c_newline] paragraphs in
     unlink tmp_path;;
     mret (strip text))
    [(CException, fun e => raise (HTTPException 400 (u "Lỗi đọc DOCX: " ++ exn_str e)))].

(** [extract_text_from_file(file, file_bytes)] *)
Definition extract_text_from_file (file : upload) (file_bytes : list N) : M pystr :=
  if bool_decide (up_content_type file = Some docx_type) then extract_text_from_docx file_bytes
  else if bool_decide (up_content_type file = Some (u "text/plain")) then of_sum (bytes_decode file_bytes)
  else raise (HTTPException 400 (u "Loại file không được hỗ trợ")).

(** ** Properties *)

(** C18: when python-docx cannot read the upload, [extract_text_from_docx]
    raises [HTTPException(400)] and the temporary file it created is still
    there, holding the uploaded bytes: the [os.unlink] line was skipped. *)
Theorem extract_docx_leaks_tmp (file_bytes : list N) (w : World) e :
  file_lookup (w_files w) (tmp_name (w_tmp w) (u ".docx")) = None ->
  env_docx (w_env w) file_bytes = inl e ->
  fst (extract_text_from_docx file_bytes w) = inl (HTTPException 400 (u "Lỗi đọc DOCX: " ++ exn_str e))
  /\ file_lookup (w_files (snd (extract_text_from_docx file_bytes w))) (tmp_name (w_tmp w) (u ".docx"))
     = Some file_bytes.
Proof.
  intros Hfresh Hd. unfold extract_text_from_docx, try_excepts, mbind, PyM_bind, tmp_file_write,
    docx_paragraphs. cbn [w_files set_tmp set_files w_env fst snd].
  rewrite file_lookup_app_fresh by done. rewrite Hd. cbn. split; [done|].
  by apply file_lookup_app_fresh.
Qed.

(** C19: when python-docx reads the upload, the text is its paragraphs
    joined by newlines and stripped, and no temporary file is left. *)
Theorem extract_docx_success (file_bytes : list N) (w : World) paragraphs :
  file_lookup (w_files w) (tmp_name (w_tmp w) (u ".docx")) = None ->
  env_docx (w_env w) file_bytes = inr paragraphs ->
  fst (extract_text_from_docx file_bytes w) = inr (strip (py_join [c_newline] paragraphs))
  /\ file_lookup (w_files (snd (extract_text_from_docx file_bytes w))) (tmp_name (w_tmp w) (u ".docx"))
     = None.
Proof.
  intros Hfresh Hd. unfold extract_text_from_docx, try_excepts, mbind, PyM_bind, tmp_file_write,
    docx_paragraphs, unlink. cbn [w_files set_tmp set_files w_env fst snd].
  rewrite file_lookup_app_fresh by done. rewrite Hd. cbv beta zeta.
  cbn [w_files set_tmp set_files w_env fst snd]. rewrite file_lookup_app_fresh by done.
  split; [done|]. apply file_lookup_remove.
Qed.

(** ** Witnesses *)

Lemma extract_docx_leaks_tmp_witness :
  fst (extract_text_from_docx [80; 75; 3; 4] (world_of (env_answers [])))
    = inl (HTTPException 400 (u "Lỗi đọc DOCX: " ++ exn_str (ValueError (u "File is not a zip file"))))
  /\ file_lookup (w_files (snd (extract_text_from_docx [80; 75; 3; 4] (world_of (env_answers [])))))
       (tmp_name (w_tmp (world_of (env_answers []))) (u ".docx")) = Some [80; 75; 3; 4].
Proof. apply extract_docx_leaks_tmp; reflexivity. Defined.

Lemma extract_docx_success_witness :
  fst (extract_text_from_docx [80; 75; 3; 4] (world_of {| env_model := fun _ _ => inl (UpstreamError []); env_clock := sample_clock;
                 env_docx := fun _ => inr [u " Điều 1. Phạm vi"; u "Điều 2. Quyền lợi "];
                 env_image := fun _ => inl (ValueError []); env_convert := fun i _ => inr i |}))
    = inr (strip (py_join [c_newline] [u " Điều 1. Phạm vi"; u "Điều 2. Quyền lợi "]))
  /\ file_lookup (w_files (snd (extract_text_from_docx [80; 75; 3; 4] (world_of {| env_model := fun _ _ => inl (UpstreamError []); env_clock := sample_clock;
                 env_docx := fun _ => inr [u " Điều 1. Phạm vi"; u "Điều 2. Quyền lợi "];
                 env_image := fun _ => inl (ValueError []); env_convert := fun i _ => inr i |}))))
       (tmp_name (w_tmp (world_of {| env_model := fun _ _ => inl (UpstreamError []); env_clock := sample_clock;
                 env_docx := fun _ => inr [u " Điều 1. Phạm vi"; u "Điều 2. Quyền lợi "];
                 env_image := fun _ => inl (ValueError []); env_convert := fun i _ => inr i |})) (u ".docx")) = None.
Proof. apply extract_docx_success; reflexivity. Defined.
