(* ===== verification/Policy.v ===== *)
(** * fetch_insurance_policy: the policy of a customer

    services.py lines 129-150.  The policy is always the file
    [policy_backend.docx] of the working directory, whatever the customer:
    a missing file is [HTTPException(404)]; otherwise its bytes go through
    [utils.extract_text_from_docx] and [structure_content_with_ai(...,
    "policy")], and the [PolicyFile] is named after the customer.  (A
    directory of that name passes [os.path.exists] and makes [open] raise;
    the model raises [FileNotFound] there.) *)

From S2P Require Import Prelude PyStr PyExn Json PyObj World Clock Models Structure Utils.

Local Open Scope N_scope.

Definition policy_path : pystr := u "policy_backend.docx".

(** [fetch_insurance_policy(customer_id)] *)
Definition fetch_insurance_policy (customer_id : pystr) : M PolicyFile.t :=
  ex ← path_exists policy_path;
  if negb ex then raise (HTTPException 404 (u "Không tìm thấy file policy_backend.docx"))
  else
    file_bytes ← read_file policy_path;
    policy_text ← extract_text_from_docx file_bytes;
    structured_content ← structure_content_with_ai policy_text (u "policy");
    t ← now;
    mret (PolicyFile.mk (u "policy-" ++ customer_id) (u "Hợp đồng bảo hiểm - " ++ customer_id ++ u ".pdf")
            (u "application/pdf") (Z.of_nat (length file_bytes)) (isoformat t) structured_content).
