(* ===== verification/Chat.v ===== *)
(** * get_chat_response and verify_claim_with_image

    [get_chat_response] (services.py lines 206-244) builds a context from
    the sections it is given (a list that is [None] or empty is left out,
    Python's truthiness) and returns the model's answer as it is: no
    [try], so a failing model call propagates.  [verify_claim_with_image]
    (lines 466-507) opens the uploaded image with PIL (an error is
    [HTTPException(400)]), converts an [RGBA] or palette image to [RGB],
    then makes two model calls, the image analysis and the comparison of
    the claim with that analysis; an error of either call is
    [HTTPException(500)]. *)

From S2P Require Import Prelude PyStr PyExn Json PyObj World Models Prompts Utils.

Local Open Scope N_scope.

(** ["\n".join([f"- {s.text}" for s in secs])] *)
Definition dash_listing (secs : list ContentSection.t) : pystr :=
  py_join [c_newline] (map (fun s => u "- " ++ ContentSection.text s) secs).

(** The [context_parts] of the handler. *)
Definition context_parts (report_content policy_content : option (list ContentSection.t)) : list pystr :=
  (match report_content with
   | Some (_ :: _ as l) => [u "BIÊN BẢN BÁO CÁO:" ++ [c_newline] ++ dash_listing l]
   | _ => []
   end) ++
  (match policy_content with
   | Some (_ :: _ as l) => [u "HỢP ĐỒNG BẢO HIỂM:" ++ [c_newline] ++ dash_listing l]
   | _ => []
   end).

(** [get_chat_response(message, report_content, policy_content)] *)
Definition get_chat_response (message : pystr) (report_content policy_content : option (list ContentSection.t))
    : M pystr :=
  let context := py_join [c_newline; c_newline] (context_parts report_content policy_content) in
  generate_content [PText (chat_prompt context message)].

(** The [try] block that opens the image. *)
Definition open_image (image_data : list N) : M image :=
  try_excepts
    (img ← image_open image_data;
     if bool_decide (img_mode img = u "RGBA") || bool_decide (img_mode img = u "P")
     then image_convert img (u "RGB") else mret img)
    [(CException, fun e => raise (HTTPException 400 (u "Không thể xử lý file ảnh: " ++ exn_str e)))].

Definition verify_try (claim_text : pystr) (img : image) : M pystr :=
  print (u "[LOG] Bước 1: Gửi ảnh cho Gemini để phân tích...");;
  image_analysis_result ← generate_content [PText PROMPT_PHAN_TICH_ANH; PImage img];
  print (u "[LOG] Bước 1: Đã có kết quả phân tích ảnh.");;
  print (u "[LOG] Bước 2: Gửi claim và phân tích ảnh để đối chiếu...");;
  comparison_result ← generate_content
    [PText PROMPT_SO_SANH_KEYPOINTS; PText (comparison_input_text claim_text image_analysis_result)];
  print (u "[LOG] Bước 2: Đã có kết quả đối chiếu.");;
  mret (strip comparison_result).

(** [verify_claim_with_image(claim_text, image_file)] *)
Definition verify_claim_with_image (claim_text : pystr) (image_file : upload) : M pystr :=
  img ← open_image (up_data image_file);
  try_excepts (verify_try claim_text img)
    [(CException, fun e =>
        print (u "[LỖI API GEMINI] " ++ exn_str e);;
        raise (HTTPException 500 (u "Lỗi khi gọi API Gemini: " ++ exn_str e)))].
