(* ===== verification/Routers.v ===== *)
(** * routers.py: the HTTP endpoints

    Each endpoint of routers.py is a computation of [World.M] on the
    request its body was validated into (FastAPI's own parsing and its
    422 answers are not modelled).  The endpoints compose the services:
    [/upload-report] runs text extraction, structuring, customer id,
    policy and mappings in this order; [/full-analysis] feeds the verdict
    of [validate_claim_with_ai] to [suggest_action_plan_with_ai].  The
    error handling is the code's: [except HTTPException: raise] keeps the
    status of an [HTTPException], and every other exception becomes a 500
    whose detail quotes it.  [/validate-claim], [/suggest-plan] and
    [/full-analysis] have no [except HTTPException] clause. *)

From S2P Require Import Prelude PyStr PyExn Json PyObj World Clock Models Prompts Clean Structure Mappings CustomerId Validation ActionPlan Payout Utils Policy Chat.

Local Open Scope N_scope.

(** [except Exception as e: print(...); raise HTTPException(500, ...)] *)
Definition fail_500 {A} (tag detail : pystr) (e : exn) : M A :=
  print (tag ++ exn_str e);;
  raise (HTTPException 500 (detail ++ exn_str e)).

(** [except HTTPException: raise] *)
Definition reraise {A} (e : exn) : M A := raise e.

(** [if not text or len(text) < 50: raise HTTPException(400, ...)] *)
Definition check_text (text : pystr) : M unit :=
  if bool_decide (text = []) || Nat.ltb (length text) 50
  then raise (HTTPException 400 (u "File không chứa đủ nội dung để xử lý"))
  else mret tt.

(** [reportType=file.content_type]: a [str] field of [ProcessedReport]. *)
Definition report_type (file : upload) : exn + pystr :=
  match up_content_type file with
  | Some ct => inr ct
  | None => inl (ValidationError (u "ProcessedReport")
                   [u "reportType" ++ [c_newline; 32; 32] ++ u "Input should be a valid string [type=string_type]"])
  end.

Definition upload_try (file : upload) : M ProcessedReport.t :=
  let file_bytes := up_data file in
  text ← extract_text_from_file file file_bytes;
  check_text text;;
  report_content ← structure_content_with_ai text (u "report");
  customer_id ← extract_customer_id_with_ai text;
  policy ← fetch_insurance_policy customer_id;
  mappings ← create_mappings_with_ai report_content (PolicyFile.structuredContent policy);
  t ← now;
  rtype ← of_sum (report_type file);
  mret (ProcessedReport.mk (u "report-" ++ repr_float (timestamp_float t)) (up_filename file) rtype
          (Z.of_nat (length file_bytes)) report_content customer_id policy mappings).

(** [POST /upload-report] *)
Definition upload_report (file : upload) : M ProcessedReport.t :=
  try_excepts (upload_try file)
    [(CHTTPException, reraise);
     (CException, fail_500 (u "Lỗi /upload-report: ") (u "Lỗi xử lý file: "))].

(** [POST /chat] *)
Definition chat (request : ChatRequest.t) : M ChatResponse.t :=
  try_excepts
    (response_text ← get_chat_response (ChatRequest.message request) (ChatRequest.reportContent request)
                       (ChatRequest.policyContent request);
     t ← now;
     mret (ChatResponse.mk response_text (isoformat t)))
    [(CException, fail_500 (u "Lỗi /chat: ") (u "Lỗi xử lý chat: "))].

(** [POST /verify_claim] *)
Definition verify_claim (claim_text : pystr) (file_anh : upload) : M pyval :=
  try_excepts
    (result ← verify_claim_with_image claim_text file_anh;
     mret (VDict [(u "ket_qua_doi_chieu", VStr result)]))
    [(CHTTPException, reraise);
     (CException, fail_500 (u "Lỗi /verify_claim: ") (u "Lỗi xử lý verify_claim: "))].

(** [POST /calculate_max_payout/] *)
Definition calculate_max_payout (request : CalculatePayoutRequest.t) : M pyval :=
  try_excepts (calculate_payout_from_text (CalculatePayoutRequest.contract_text request))
    [(CHTTPException, reraise);
     (CException, fail_500 (u "Lỗi /calculate_max_payout: ") (u "Lỗi xử lý calculate_max_payout: "))].

(** [POST /validate-claim] *)
Definition validate_claim (request : ValidateClaimRequest.t) : M ClaimValidationResult.t :=
  try_excepts
    (validate_claim_with_ai (ValidateClaimRequest.reportContent request)
       (ValidateClaimRequest.policyContent request) (ValidateClaimRequest.mappings request)
       (ValidateClaimRequest.customerId request))
    [(CException, fail_500 (u "Lỗi /validate-claim: ") (u "Lỗi validate claim: "))].

(** [POST /suggest-plan] *)
Definition suggest_plan (request : SuggestPlanRequest.t) : M ActionPlan.t :=
  try_excepts
    (suggest_action_plan_with_ai (SuggestPlanRequest.reportContent request)
       (SuggestPlanRequest.policyContent request) (SuggestPlanRequest.validationResult request)
       (SuggestPlanRequest.customerId request))
    [(CException, fail_500 (u "Lỗi /suggest-plan: ") (u "Lỗi suggest plan: "))].

Definition full_analysis_try (request : ValidateClaimRequest.t) : M pyval :=
  validation_result ← validate_claim_with_ai (ValidateClaimRequest.reportContent request)
                        (ValidateClaimRequest.policyContent request) (ValidateClaimRequest.mappings request)
                        (ValidateClaimRequest.customerId request);
  action_plan ← suggest_action_plan_with_ai (ValidateClaimRequest.reportContent request)
                  (ValidateClaimRequest.policyContent request) (Some validation_result)
                  (ValidateClaimRequest.customerId request);
  t ← now;
  mret (VDict [(u "validation", ClaimValidationResult.dump validation_result);
               (u "actionPlan", ActionPlan.dump action_plan);
               (u "timestamp", VStr (isoformat t))]).

(** [POST /full-analysis] *)
Definition full_analysis (request : ValidateClaimRequest.t) : M pyval :=
  try_excepts (full_analysis_try request)
    [(CException, fail_500 (u "Lỗi /full-analysis: ") (u "Lỗi full analysis: "))].

(** [GET /claim-status/{claim_id}] *)
Definition get_claim_status (claim_id : pystr) : M pyval :=
  t ← now;
  mret (VDict [(u "claimId", VStr claim_id); (u "status", VStr (u "pending_review"));
               (u "lastUpdated", VStr (isoformat t)); (u "assignedTo", VStr (u "Claims Team"));
               (u "progress", VInt 45); (u "message", VStr (u "Đang chờ bổ sung tài liệu"))]).

(** [GET /health] *)
Definition health_check : M pyval :=
  t ← now;
  mret (VDict [(u "status", VStr (u "healthy")); (u "timestamp", VStr (isoformat t));
               (u "version", VStr (u "2.0.0"));
               (u "features", VList (map VStr [u "upload-report"; u "chat"; u "validate-claim";
                                              u "suggest-plan"; u "full-analysis"]))]).

(** ** Properties *)

(** C2: [POST /validate-claim] never answers with an error, whatever the
    model does, and the verdict's claim id is [claim-<customer>-<seconds>]
    of a clock reading. *)
Theorem validate_claim_endpoint_returns (request : ValidateClaimRequest.t) :
  returns (fun r => exists t, ClaimValidationResult.claimId r
                              = claim_id (ValidateClaimRequest.customerId request) t)
    (validate_claim request).
Proof.
  apply returns_try, validate_claim_returns.
Qed.

(** C1: [POST /full-analysis] never answers with an error, and the action
    plan it returns carries the claim id of the verdict it returns beside
    it: the two services agree on the claim, on every path of each. *)
Theorem full_analysis_consistent (request : ValidateClaimRequest.t) :
  returns (fun v => exists rv p ts,
             v = VDict [(u "validation", ClaimValidationResult.dump rv);
                        (u "actionPlan", ActionPlan.dump p); (u "timestamp", VStr ts)]
             /\ ActionPlan.claimId p = ClaimValidationResult.claimId rv
             /\ exists t, ClaimValidationResult.claimId rv = claim_id (ValidateClaimRequest.customerId request) t)
    (full_analysis request).
Proof.
  apply returns_try. unfold full_analysis_try.
  eapply returns_bind; [apply validate_claim_returns|]. intros rv Hrv.
  eapply returns_bind; [apply suggest_action_plan_returns|]. intros p Hp.
  eapply returns_bind; [apply now_returns|]. intros t _.
  apply returns_ret. by exists rv, p, (isoformat t).
Qed.

(** C10: [POST /suggest-plan] never answers with an error, and the plan
    carries the claim id of the verdict the request gives. *)
Theorem suggest_plan_endpoint_returns (request : SuggestPlanRequest.t) :
  returns (plan_claim_ok (SuggestPlanRequest.validationResult request) (SuggestPlanRequest.customerId request))
    (suggest_plan request).
Proof. apply returns_try, suggest_action_plan_returns. Qed.

Lemma text_plain_not_docx : Some (u "text/plain") <> Some docx_type.
Proof. intros H. vm_compute in H. discriminate. Qed.

Lemma run_extract_text_plain (file : upload) (w : World) :
  up_content_type file = Some (u "text/plain") ->
  extract_text_from_file file (up_data file) w = (bytes_decode (up_data file), w).
Proof.
  intros Hct. unfold extract_text_from_file. rewrite Hct.
  rewrite bool_decide_eq_false_2 by apply text_plain_not_docx. by rewrite bool_decide_eq_true_2.
Qed.

(** C20: a plain-text upload of fewer than 50 characters is refused with
    [HTTPException(400)] before any model call, and the world is left as
    it was (the status survives the [except HTTPException: raise]). *)
Theorem upload_report_too_short (file : upload) (w : World) text :
  up_content_type file = Some (u "text/plain") -> utf8_decode (up_data file) = inr text ->
  (length text < 50)%nat ->
  upload_report file w = (inl (HTTPException 400 (u "File không chứa đủ nội dung để xử lý")), w).
Proof.
  intros Hct Hdec Hlen. unfold upload_report, upload_try.
  erewrite run_try_handler; cycle 1.
  { erewrite run_bind_inr; [|rewrite run_extract_text_plain by done; unfold bytes_decode; by rewrite Hdec].
    apply run_bind_inl. unfold check_text.
    replace (Nat.ltb (length text) 50) with true by (symmetry; by apply Nat.ltb_lt).
    by rewrite orb_true_r. }
  { reflexivity. }
  reflexivity.
Qed.

(** C21: a plain-text upload that is not valid UTF-8 is answered with
    [HTTPException(500)] quoting the [UnicodeDecodeError], not with the
    400 of a bad upload: the decoding is outside the [try] of
    [extract_text_from_file] and the endpoint turns it into a 500. *)
Theorem upload_report_bad_utf8 (file : upload) (w : World) err :
  up_content_type file = Some (u "text/plain") -> utf8_decode (up_data file) = inl err ->
  fst (upload_report file w)
  = inl (HTTPException 500 (u "Lỗi xử lý file: " ++ decode_error_str err)).
Proof.
  intros Hct Hdec. unfold upload_report, upload_try.
  erewrite run_try_handler; cycle 1.
  { apply run_bind_inl. rewrite run_extract_text_plain by done. unfold bytes_decode. by rewrite Hdec. }
  { reflexivity. }
  reflexivity.
Qed.

(** C28: when the model is down, [POST /chat] answers [HTTPException(500)]
    quoting the error: [get_chat_response] has no [try] of its own. *)
Theorem chat_model_down (request : ChatRequest.t) (w : World) e :
  model_down (w_env w) e ->
  fst (chat request w) = inl (HTTPException 500 (u "Lỗi xử lý chat: " ++ exn_str e)).
Proof.
  intros Hd. unfold chat.
  erewrite run_try_inl; [|apply run_bind_inl; unfold get_chat_response; apply run_generate_content_down, Hd].
  unfold fail_500. by rewrite run_print.
Qed.

(** C29: an upload that PIL cannot open is refused by [POST /verify_claim]
    with [HTTPException(400)], before any model call and with the world
    unchanged. *)
Theorem verify_claim_bad_image (claim_text : pystr) (file : upload) (w : World) e :
  env_image (w_env w) (up_data file) = inl e ->
  verify_claim claim_text file w
  = (inl (HTTPException 400 (u "Không thể xử lý file ảnh: " ++ exn_str e)), w).
Proof.
  intros Hi. unfold verify_claim.
  erewrite run_try_handler; cycle 1.
  { apply run_bind_inl. unfold verify_claim_with_image. apply run_bind_inl.
    unfold open_image. erewrite run_try_inl; [reflexivity|]. apply run_bind_inl. unfold image_open. by rewrite Hi. }
  { reflexivity. }
  reflexivity.
Qed.

(** ** Witnesses *)

Lemma upload_report_too_short_witness :
  upload_report {| up_filename := u "bien_ban.txt"; up_content_type := Some (u "text/plain");
                   up_data := [84; 97; 105; 32; 110; 97; 110] |} (world_of (env_answers []))
  = (inl (HTTPException 400 (u "File không chứa đủ nội dung để xử lý")), world_of (env_answers [])).
Proof. apply (upload_report_too_short _ _ (u "Tai nan")); [reflexivity|vm_compute; reflexivity|simpl; lia]. Defined.

Lemma upload_report_bad_utf8_witness :
  fst (upload_report {| up_filename := u "bien_ban.txt"; up_content_type := Some (u "text/plain");
                        up_data := [84; 97; 105; 255] |} (world_of (env_answers [])))
  = inl (HTTPException 500 (u "Lỗi xử lý file: " ++ decode_error_str (3%nat, 1%nat, 255, u "invalid start byte"))).
Proof. apply upload_report_bad_utf8; [reflexivity|vm_compute; reflexivity]. Defined.

Lemma chat_model_down_witness :
  fst (chat (ChatRequest.mk (u "Khách hàng có được bồi thường không?") None None) (world_of (env_answers [])))
  = inl (HTTPException 500 (u "Lỗi xử lý chat: " ++ exn_str (UpstreamError (u "429 Resource has been exhausted")))).
Proof. apply chat_model_down. intros n parts. reflexivity. Defined.

Lemma verify_claim_bad_image_witness :
  verify_claim (u "Xe bị móp cửa trước")
    {| up_filename := u "anh.jpg"; up_content_type := Some (u "image/jpeg"); up_data := [0; 1; 2] |}
    (world_of (env_answers []))
  = (inl (HTTPException 400 (u "Không thể xử lý file ảnh: " ++ exn_str (ValueError (u "cannot identify image file")))),
     world_of (env_answers [])).
Proof. apply verify_claim_bad_image. reflexivity. Defined.
