(* ===== verification/App.v ===== *)
(** * config.py and main.py: start-up and the route table

    config.py reads [GEMINI_API_KEY] from the environment: when it is
    unset or empty the process prints an error and exits with status 1;
    otherwise it logs the key masked to its last four characters
    ([GEMINI_API_KEY[-4:]]) and configures the model client (the client
    itself is [World.env_model]).  main.py adds the root endpoint [GET /]
    and mounts the router of routers.py under the prefix [/api].  The
    CORS options, the [load_dotenv()] calls and the uvicorn loop are in
    [Server.v]. *)

From S2P Require Import Prelude PyStr PyExn Json.

Local Open Scope N_scope.

(** What start-up prints, and the exit status when it stops the process. *)
Record startup_result : Type := { su_stdout : list pystr; su_exit : option Z }.

(** [GEMINI_API_KEY[-4:]] *)
Definition last4 (key : pystr) : pystr := drop (length key - 4) key.

(** config.py lines 26-33. *)
Definition startup (gemini_api_key : option pystr) : startup_result :=
  match gemini_api_key with
  | None | Some [] =>
      {| su_stdout := [u "Lỗi: Không tìm thấy GEMINI_API_KEY. Hãy chắc chắn file .env đã được cấu hình."];
         su_exit := Some 1%Z |}
  | Some key => {| su_stdout := [u "API_KEY: ..." ++ last4 key]; su_exit := None |}
  end.

(** [@app.get("/")] of main.py. *)
Definition root : pyval :=
  VDict [(u "message", VStr (u "Insurance Workspace API")); (u "status", VStr (u "running"))].

Inductive http_method : Type := GET | POST.

(** The decorators of routers.py with the prefix of [app.include_router],
    and the root of main.py. *)
Definition api_prefix : pystr := u "/api".

Definition router_routes : list (http_method * pystr) :=
  [(POST, u "/upload-report"); (POST, u "/chat"); (POST, u "/verify_claim");
   (POST, u "/calculate_max_payout/"); (POST, u "/validate-claim"); (POST, u "/suggest-plan");
   (POST, u "/full-analysis"); (GET, u "/claim-status/{claim_id}"); (GET, u "/health")].

Definition app_routes : list (http_method * pystr) :=
  (GET, u "/") :: map (fun r => (r.1, api_prefix ++ r.2)) router_routes.

(** ** Properties *)

(** C27: the start-up log shows at most the last four characters of the
    API key, and a missing or empty key stops the process with status 1. *)
Theorem startup_masks_key (key : option pystr) :
  match key with
  | None | Some [] => su_exit (startup key) = Some 1%Z
  | Some k => su_exit (startup key) = None
              /\ exists shown, su_stdout (startup key) = [u "API_KEY: ..." ++ shown]
                               /\ (length shown <= 4)%nat /\ exists hidden, k = hidden ++ shown
  end.
Proof.
  destruct key as [[|c k]|]; simpl; try done. split; [done|].
  eexists; split; [reflexivity|]. unfold last4. rewrite length_drop. split; [lia|].
  exists (take (length (c :: k) - 4) (c :: k)). by rewrite take_drop.
Qed.
