(* ===== verification/Status.v ===== *)
(** * The exceptions an endpoint lets escape

    [raises Q m]: every exception [m] raises, from any state, satisfies
    [Q].  The services raise [HTTPException] with the statuses 400
    (unreadable upload, short or blank text, bad image), 404 (missing
    policy file) and 500 (model or decoding failure), and other
    exceptions ([ValueError], [ValidationError], [FileNotFound], errors of
    the model client) that the endpoints catch.  This file holds the
    rules of [raises] for the constructs of the monad, and shows service
    by service that an [HTTPException] raised inside an endpoint has one
    of those statuses ([status_ok]), and endpoint by endpoint of
    routers.py that only such an [HTTPException] escapes ([http_error]):
    the [except HTTPException: raise] clauses keep the inner status and
    the [except Exception] clauses turn everything else into a 500. *)

From S2P Require Import Prelude PyStr PyExn Json PyObj World Clock Models Prompts Clean Structure Mappings CustomerId Validation ActionPlan Payout Utils Policy Chat Routers App.

Local Open Scope N_scope.

(** ** Exceptions and statuses *)

(** Every exception [m] raises, from any state, satisfies [Q]. *)
Definition raises {S A} (Q : exn -> Prop) (m : PyM S A) : Prop :=
  forall s e s', m s = (inl e, s') -> Q e.

(** The statuses the code gives its [HTTPException]s. *)
Definition error_status (c : Z) : Prop := c = 400%Z \/ c = 404%Z \/ c = 500%Z.

(** Inside an endpoint: an [HTTPException] has one of those statuses;
    any other exception may pass. *)
Definition status_ok (e : exn) : Prop :=
  match e with HTTPException c _ => error_status c | _ => True end.

(** Out of an endpoint: only an [HTTPException] with one of those statuses. *)
Definition http_error (e : exn) : Prop :=
  match e with HTTPException c _ => error_status c | _ => False end.

(** ** The logic of [raises] *)

Section Raises.
Context {S : Type}.

Lemma raises_ret {A} (Q : exn -> Prop) (a : A) : raises Q (mret a : PyM S A).
Proof. by intros s e s' [=]. Qed.

Lemma raises_raise {A} (Q : exn -> Prop) e : Q e -> raises Q (raise e : PyM S A).
Proof. by intros HQ s e' s' [= <- _]. Qed.

Lemma raises_of_sum {A} (Q : exn -> Prop) (r : exn + A) :
  (forall e, r = inl e -> Q e) -> raises Q (of_sum r : PyM S A).
Proof. intros HQ s e s' [= -> _]. by apply HQ. Qed.

Lemma raises_bind {A B} (Q : exn -> Prop) (m : PyM S A) (k : A -> PyM S B) :
  raises Q m -> (forall a, raises Q (k a)) -> raises Q (m ≫= k).
Proof.
  intros Hm Hk s e s'. unfold mbind, PyM_bind.
  destruct (m s) as [[e'|a] s''] eqn:E; [intros [= <- _]; by eapply Hm|apply Hk].
Qed.

Lemma raises_weaken {A} (Q Q' : exn -> Prop) (m : PyM S A) :
  raises Q m -> (forall e, Q e -> Q' e) -> raises Q' m.
Proof. intros Hm HQ s e s' H. by eapply HQ, Hm. Qed.

Lemma returns_raises {A} (P : A -> Prop) (Q : exn -> Prop) (m : PyM S A) : returns P m -> raises Q m.
Proof. intros Hm s e s' H. destruct (Hm s) as (a & Ha & _). by rewrite H in Ha. Qed.

(** [try: m  except Exception as e: h(e)]: only what the handler raises
    escapes. *)
Lemma raises_catch_all {A} (Q : exn -> Prop) (m : PyM S A) h hs :
  (forall e, raises Q (h e)) -> raises Q (try_excepts m ((CException, h) :: hs)).
Proof.
  intros Hh s e s'. unfold try_excepts.
  destruct (m s) as [[e'|a] s''] eqn:E; [apply Hh|done].
Qed.

(** A [try] statement: what escapes is raised by the body and matched by
    no clause, or raised by the handler of the first clause that matches. *)
Lemma raises_try {A} (Q : exn -> Prop) (m : PyM S A) hs :
  raises (fun e => first_handler hs e = None -> Q e) m ->
  (forall e h, first_handler hs e = Some h -> raises Q (h e)) ->
  raises Q (try_excepts m hs).
Proof.
  intros Hm Hh s e s'. unfold try_excepts.
  destruct (m s) as [[e'|a] s''] eqn:E; [|done].
  destruct (first_handler hs e') as [h|] eqn:F; [by apply (Hh e' h F)|].
  intros [= <- _]. by apply (Hm s e' s'').
Qed.
End Raises.

Lemma print_raises {A} (Q : exn -> Prop) (s : pystr) (k : unit -> M A) :
  raises Q (k tt) -> raises Q (print s ≫= k).
Proof. intros Hk. apply raises_bind; [by eapply returns_raises, print_returns|by intros []]. Qed.

Lemma status_ok_http_error e : http_error e -> status_ok e.
Proof. by destruct e. Qed.

(** Close the side conditions on statuses. *)
Ltac status_solve :=
  solve [ done | unfold status_ok, http_error, error_status; lia
        | intros; simplify_eq; done ].

Create HintDb raises.

(** Walk through a computation, one construct at a time; the calls to
    the services are closed by their lemmas in the [raises] database. *)
Ltac raises_tac :=
  repeat first
    [ solve [eauto with raises]
    | progress cbv beta zeta
    | apply raises_ret
    | apply raises_raise; status_solve
    | apply print_raises
    | apply raises_catch_all; intros ?
    | apply raises_bind; [|intros ?]
    | eapply returns_raises; solve [apply now_returns | apply makedirs_returns]
    | match goal with
      | |- raises _ (if ?b then _ else _) => destruct b
      end ].

(** ** The endpoints' exceptions *)

(** The handler of the [except Exception] clause of the endpoints. *)
Lemma fail_500_raises {A} tag detail e : raises http_error (fail_500 (A := A) tag detail e).
Proof. unfold fail_500. raises_tac. Qed.

(** [except HTTPException: raise] before [except Exception]: an inner
    [HTTPException] keeps its status, anything else becomes a 500. *)
Lemma raises_reraise_500 {A} (m : M A) tag detail :
  raises status_ok m ->
  raises http_error (try_excepts m [(CHTTPException, reraise); (CException, fail_500 tag detail)]).
Proof.
  intros Hm w e w'. unfold try_excepts.
  destruct (m w) as [[e'|a] w''] eqn:E; [|done].
  pose proof (Hm w e' w'' E) as Hok.
  destruct e'; cbn [first_handler isinstance]; try by apply fail_500_raises.
  intros [= <- _]. done.
Qed.

Lemma read_file_raises p : raises status_ok (read_file p).
Proof. intros w e w'. unfold read_file. by case_match; intros [= <- _]. Qed.

#[export] Hint Resolve read_file_raises : raises.

Lemma check_text_raises text : raises status_ok (check_text text).
Proof. unfold check_text. raises_tac. Qed.
#[export] Hint Resolve check_text_raises : raises.

Lemma extract_text_from_docx_raises file_bytes : raises status_ok (extract_text_from_docx file_bytes).
Proof. unfold extract_text_from_docx. raises_tac. Qed.
#[export] Hint Resolve extract_text_from_docx_raises : raises.

Lemma extract_text_from_file_raises file file_bytes :
  raises status_ok (extract_text_from_file file file_bytes).
Proof.
  unfold extract_text_from_file. raises_tac.
  apply raises_of_sum. unfold bytes_decode. by case_match; intros ? [= <-].
Qed.
#[export] Hint Resolve extract_text_from_file_raises : raises.

(** A [try] statement whose last clause is [except Exception]: every
    exception of the body is handled. *)
Ltac raises_clauses :=
  apply raises_try;
  [ intros ? ?e ? _; cbn [first_handler isinstance]; by repeat case_match
  | intros ?e ?h Hh; cbn [first_handler isinstance] in Hh; repeat case_match; simplify_eq ].

Lemma structure_content_with_ai_raises text file_type :
  raises status_ok (structure_content_with_ai text file_type).
Proof. unfold structure_content_with_ai. raises_clauses; raises_tac. Qed.
#[export] Hint Resolve structure_content_with_ai_raises : raises.

Lemma extract_customer_id_with_ai_raises text : raises status_ok (extract_customer_id_with_ai text).
Proof. unfold extract_customer_id_with_ai. raises_tac. Qed.
#[export] Hint Resolve extract_customer_id_with_ai_raises : raises.

Lemma create_mappings_with_ai_raises report_content policy_content :
  raises status_ok (create_mappings_with_ai report_content policy_content).
Proof. unfold create_mappings_with_ai. raises_tac. Qed.
#[export] Hint Resolve create_mappings_with_ai_raises : raises.

Lemma fetch_insurance_policy_raises customer_id : raises status_ok (fetch_insurance_policy customer_id).
Proof.
  unfold fetch_insurance_policy. apply raises_bind; [by intros ??? [=]|].
  intros ex. raises_tac.
Qed.
#[export] Hint Resolve fetch_insurance_policy_raises : raises.

Lemma upload_try_raises file : raises status_ok (upload_try file).
Proof.
  unfold upload_try. raises_tac.
  apply raises_of_sum. unfold report_type. by case_match; intros ? [= <-].
Qed.

Lemma upload_report_raises file : raises http_error (upload_report file).
Proof. apply raises_reraise_500, upload_try_raises. Qed.
#[export] Hint Resolve upload_report_raises : raises.

Lemma open_image_raises data : raises status_ok (open_image data).
Proof. unfold open_image. raises_tac. Qed.
#[export] Hint Resolve open_image_raises : raises.

Lemma verify_claim_with_image_raises claim_text image_file :
  raises status_ok (verify_claim_with_image claim_text image_file).
Proof. unfold verify_claim_with_image. raises_tac. Qed.
#[export] Hint Resolve verify_claim_with_image_raises : raises.

Lemma verify_claim_raises claim_text file_anh : raises http_error (verify_claim claim_text file_anh).
Proof. apply raises_reraise_500. raises_tac. Qed.

Lemma calculate_payout_from_text_raises contract_text :
  raises status_ok (calculate_payout_from_text contract_text).
Proof. unfold calculate_payout_from_text. raises_tac. Qed.

Lemma calculate_max_payout_raises body : raises http_error (calculate_max_payout body).
Proof. apply raises_reraise_500, calculate_payout_from_text_raises. Qed.

Lemma chat_raises body : raises http_error (chat body).
Proof. unfold chat. apply raises_catch_all. intros. apply fail_500_raises. Qed.

Lemma validate_claim_raises body : raises http_error (validate_claim body).
Proof. unfold validate_claim. apply raises_catch_all. intros. apply fail_500_raises. Qed.

Lemma suggest_plan_raises body : raises http_error (suggest_plan body).
Proof. unfold suggest_plan. apply raises_catch_all. intros. apply fail_500_raises. Qed.

Lemma full_analysis_raises body : raises http_error (full_analysis body).
Proof. unfold full_analysis. apply raises_catch_all. intros. apply fail_500_raises. Qed.

#[export] Hint Resolve verify_claim_raises calculate_max_payout_raises chat_raises validate_claim_raises
  suggest_plan_raises full_analysis_raises : raises.
