(* ===== verification/Server.v ===== *)
(** * The server process: start-up, routing and the request loop

    main.py, run as a script, calls [load_dotenv()] and imports config.py,
    which calls [load_dotenv()] again, creates the FastAPI [app] with its
    CORS middleware, reads [GEMINI_API_KEY] with [os.getenv] (exiting with
    status 1 when it is missing or empty), logs it masked and creates the
    model client; main.py then adds the root endpoint, mounts the router
    under [/api], prints its banner and hands the [app] to uvicorn.

    [load_dotenv] (python-dotenv) is modelled on the bindings the [.env]
    file parses to, in file order ([None] for a key without a value): they
    become a dict (a later binding of a key replaces its value), and each
    key not yet in [os.environ] with a value is set; the parser and its
    [${VAR}] interpolation are not modelled.  [dotenv_get] is the
    reference: the value of the last binding of a key in the file.

    The process is a step relation [step] on [proc]: a [Boot] state makes
    one step to [Exited] or to [Serving]; a [Serving] state runs the
    endpoint of the first queued request ([handle]) and logs its outcome;
    the response sent for an outcome is [respond]: FastAPI serializes the
    result of an endpoint with a [response_model] in pydantic's JSON mode
    ([json_mode], a non-finite float becomes null) and passes the dicts of
    the others as they are to [JSONResponse], which renders with
    [json.dumps(allow_nan=False, ensure_ascii=False)] and UTF-8; an
    [HTTPException] is answered with its status and [{"detail": ...}];
    any other exception, and a content [JSONResponse] cannot render,
    reach Starlette's [ServerErrorMiddleware], which sends a plain-text
    "Internal Server Error".  Requests are answered one at a time, in
    order: the endpoints are [async def], but they call the model client
    synchronously, so the event loop runs one handler to its end before
    the next (an upload spooled to disk could suspend on [file.read()]).
    A model call that never returns cannot be expressed: the oracles are
    total, and the code sets no timeout.  FastAPI's request parsing (its
    422 answers), the CORS checks and uvicorn's sockets are not modelled.
    *)

From S2P Require Import Prelude PyStr PyExn Json PyObj World Clock Models Prompts Clean Structure Mappings CustomerId Validation ActionPlan Payout Utils Policy Chat Routers App Status.
From stdpp Require Import sets.

Local Open Scope N_scope.

(** ** os.environ and .env *)

(** [d[k] = v] on a dict: an existing key keeps its place. *)
Fixpoint assoc_set {V} (d : list (pystr * V)) (k : pystr) (v : V) : list (pystr * V) :=
  match d with
  | [] => [(k, v)]
  | (k', v') :: r => if decide (k = k') then (k', v) :: r else (k', v') :: assoc_set r k v
  end.

(** [d.get(k)] *)
Fixpoint assoc_get {V} (d : list (pystr * V)) (k : pystr) : option V :=
  match d with
  | [] => None
  | (k', v) :: r => if decide (k = k') then Some v else assoc_get r k
  end.

(** [os.getenv(k)] *)
Definition getenv (environ : list (pystr * pystr)) (k : pystr) : option pystr := assoc_get environ k.

(** [DotEnv.dict()]: the bindings of the file, a later one of a key
    replacing the value of the earlier. *)
Definition dotenv_values (bindings : list (pystr * option pystr)) : list (pystr * option pystr) :=
  foldl (fun acc kv => assoc_set acc kv.1 kv.2) [] bindings.

(** [DotEnv.set_as_environment_variables] with [override=False]. *)
Definition set_as_environment_variables (values : list (pystr * option pystr))
    (environ : list (pystr * pystr)) : list (pystr * pystr) :=
  foldl (fun env kv =>
           if bool_decide (is_Some (getenv env kv.1)) then env
           else match kv.2 with Some v => assoc_set env kv.1 v | None => env end)
        environ values.

(** [load_dotenv()] *)
Definition load_dotenv (bindings : list (pystr * option pystr)) (environ : list (pystr * pystr))
    : list (pystr * pystr) :=
  set_as_environment_variables (dotenv_values bindings) environ.

(** The reference: the value of the last binding of [k] in the file. *)
Fixpoint last_binding (bindings : list (pystr * option pystr)) (k : pystr) : option (option pystr) :=
  match bindings with
  | [] => None
  | (k', v) :: r =>
      match last_binding r k with
      | Some x => Some x
      | None => if decide (k = k') then Some v else None
      end
  end.

Definition dotenv_get (bindings : list (pystr * option pystr)) (k : pystr) : option pystr :=
  match last_binding bindings k with Some (Some v) => Some v | _ => None end.

(** ** config.py and main.py *)

Definition app_title : pystr := u "Insurance Workspace API".

Record cors_options : Type := {
  allow_origins : list pystr; allow_credentials : bool;
  allow_methods : list pystr; allow_headers : list pystr }.

(** [app.add_middleware(CORSMiddleware, ...)] *)
Definition cors : cors_options :=
  {| allow_origins := [u "http://localhost:3000"]; allow_credentials := true;
     allow_methods := [u "*"]; allow_headers := [u "*"] |}.

Definition gemini_model_name : pystr := u "gemini-2.5-flash".

(** Importing config.py: its [load_dotenv()] and the key check of
    [App.startup]. *)
Definition import_config (bindings : list (pystr * option pystr)) (environ : list (pystr * pystr))
    : list (pystr * pystr) * startup_result :=
  let environ' := load_dotenv bindings environ in
  (environ', startup (getenv environ' (u "GEMINI_API_KEY"))).

Definition main_banner : pystr := u "Khởi chạy Insurance Workspace API tại http://0.0.0.0:8000".

(** [python main.py] up to [uvicorn.run]: the environment, what was
    printed, and the exit status when config.py stopped the process. *)
Definition run_main (bindings : list (pystr * option pystr)) (environ : list (pystr * pystr))
    : list (pystr * pystr) * list pystr * option Z :=
  let environ1 := load_dotenv bindings environ in
  let '(environ2, r) := import_config bindings environ1 in
  match su_exit r with
  | Some c => (environ2, su_stdout r, Some c)
  | None => (environ2, su_stdout r ++ [main_banner], None)
  end.

(** ** Requests and responses *)

(** One constructor per route of [App.app_routes], with the arguments
    FastAPI binds. *)
Inductive request : Type :=
| GetRoot
| PostUploadReport (file : upload)
| PostChat (body : ChatRequest.t)
| PostVerifyClaim (claim_text : pystr) (file_anh : upload)
| PostCalculateMaxPayout (body : CalculatePayoutRequest.t)
| PostValidateClaim (body : ValidateClaimRequest.t)
| PostSuggestPlan (body : SuggestPlanRequest.t)
| PostFullAnalysis (body : ValidateClaimRequest.t)
| GetClaimStatus (claim_id : pystr)
| GetHealth.

Definition route_of (r : request) : http_method * pystr :=
  match r with
  | GetRoot => (GET, u "/")
  | PostUploadReport _ => (POST, api_prefix ++ u "/upload-report")
  | PostChat _ => (POST, api_prefix ++ u "/chat")
  | PostVerifyClaim _ _ => (POST, api_prefix ++ u "/verify_claim")
  | PostCalculateMaxPayout _ => (POST, api_prefix ++ u "/calculate_max_payout/")
  | PostValidateClaim _ => (POST, api_prefix ++ u "/validate-claim")
  | PostSuggestPlan _ => (POST, api_prefix ++ u "/suggest-plan")
  | PostFullAnalysis _ => (POST, api_prefix ++ u "/full-analysis")
  | GetClaimStatus _ => (GET, api_prefix ++ u "/claim-status/{claim_id}")
  | GetHealth => (GET, api_prefix ++ u "/health")
  end.

(** pydantic's [model_dump(mode="json")], which FastAPI applies to the
    result of an endpoint with a [response_model]: a non-finite float
    becomes [None] ([ser_json_inf_nan="null"]). *)
Fixpoint json_mode (v : pyval) : pyval :=
  match v with
  | VFloat (FInf _) | VFloat FNaN => VNone
  | VList l => VList (map json_mode l)
  | VDict d => VDict (map (fun '(k, x) => (k, json_mode x)) d)
  | _ => v
  end.

(** The endpoint of a request; the result of an endpoint with a
    [response_model] is serialized by it, the dicts of the others are
    passed to [JSONResponse] as they are. *)
Definition handle (r : request) : M pyval :=
  match r with
  | GetRoot => mret root
  | PostUploadReport file => x ← upload_report file; mret (json_mode (ProcessedReport.dump x))
  | PostChat body => x ← chat body; mret (json_mode (ChatResponse.dump x))
  | PostVerifyClaim claim_text file_anh => verify_claim claim_text file_anh
  | PostCalculateMaxPayout body => calculate_max_payout body
  | PostValidateClaim body => x ← validate_claim body; mret (json_mode (ClaimValidationResult.dump x))
  | PostSuggestPlan body => x ← suggest_plan body; mret (json_mode (ActionPlan.dump x))
  | PostFullAnalysis body => full_analysis body
  | GetClaimStatus claim_id => get_claim_status claim_id
  | GetHealth => health_check
  end.

(** The JSON a response carries: the value an endpoint returned, with
    status 200, or the [{"detail": ...}] of an [HTTPException] with its
    status; no content for any other exception. *)
Definition outcome_content (o : exn + pyval) : option (Z * pyval) :=
  match o with
  | inr v => Some (200%Z, v)
  | inl (HTTPException c d) => Some (c, VDict [(u "detail", VStr d)])
  | inl _ => None
  end.

(** [JSONResponse.render]: [json.dumps(content, ensure_ascii=False,
    allow_nan=False, indent=None, separators=(",", ":")).encode("utf-8")]. *)
Definition starlette_opts : dump_opts :=
  {| ensure_ascii := false; indent := None; item_sep := u ","; key_sep := u ":"; allow_nan := false |}.

Definition render (v : pyval) : option (list N) :=
  match json_dumps starlette_opts v with
  | inr text => match utf8_encode text with inr bytes => Some bytes | inl _ => None end
  | inl _ => None
  end.

Inductive body : Type :=
| JSONBody (bytes : list N)
| TextBody (s : pystr).

Record response : Type := { status_code : Z; resp_body : body }.

(** Starlette's [ServerErrorMiddleware] answer to an exception that
    reaches it. *)
Definition internal_server_error : response :=
  {| status_code := 500; resp_body := TextBody (u "Internal Server Error") |}.

(** FastAPI's answer to the outcome of an endpoint: a content it cannot
    render (a non-finite float, a lone surrogate) raises in
    [JSONResponse], and that exception, like any other that escapes the
    endpoint, is answered by [ServerErrorMiddleware]. *)
Definition respond (o : exn + pyval) : response :=
  match outcome_content o with
  | Some (c, v) =>
      match render v with
      | Some bytes => {| status_code := c; resp_body := JSONBody bytes |}
      | None => internal_server_error
      end
  | None => internal_server_error
  end.

(** A response the code chose: a success, or the JSON detail of one of
    its own [HTTPException]s. *)
Definition code_response (r : response) : Prop :=
  (status_code r = 200%Z \/ error_status (status_code r)) /\ exists b, resp_body r = JSONBody b.

(** ** The process *)

Inductive proc : Type :=
| Boot (bindings : list (pystr * option pystr)) (environ : list (pystr * pystr))
    (pending : list request) (w : World)
| Exited (code : Z) (w : World)
| Serving (queue : list request) (w : World) (log : list (exn + pyval)).


Inductive step : proc -> proc -> Prop :=
| step_exit b env q w env' out c :
    run_main b env = (env', out, Some c) ->
    step (Boot b env q w) (Exited c (set_stdout w (w_stdout w ++ out)))
| step_start b env q w env' out :
    run_main b env = (env', out, None) ->
    step (Boot b env q w) (Serving q (set_stdout w (w_stdout w ++ out)) [])
| step_serve r q w log res w' :
    handle r w = (res, w') ->
    step (Serving (r :: q) w log) (Serving q w' (log ++ [res])).

(** Zero, one or several steps. *)
Inductive star : proc -> proc -> Prop :=
| star_refl s : star s s
| star_step s1 s2 s3 : step s1 s2 -> star s2 s3 -> star s1 s3.

(** The states a started process reaches. *)
Definition reachable (s : proc) : Prop := exists b env q w, star (Boot b env q w) s.

(** The invariant of a serving state: no exception other than an
    [HTTPException] of the code has escaped an endpoint. *)
Definition outcomes_ok (s : proc) : Prop :=
  match s with
  | Serving _ _ log => Forall (fun o => match o with inl e => http_error e | inr _ => True end) log
  | _ => True
  end.

(** A start-up environment for the witnesses: the key set in the
    process environment, no [.env] bindings. *)
Definition sample_environ : list (pystr * pystr) := [(u "GEMINI_API_KEY", u "AIzaSyExampleKey1234")].

Definition sample_world : World := world_of (env_answers []).

(** ** Properties *)

(** Every endpoint lets escape only an [HTTPException] with status 400,
    404 or 500. *)
Lemma handle_raises r : raises http_error (handle r).
Proof. destruct r; unfold handle, get_claim_status, health_check; raises_tac. Qed.

(** The answer to an outcome where no foreign exception escaped. *)
Lemma respond_code o :
  match o with inl e => http_error e | inr _ => True end ->
  code_response (respond o) \/ exists c v, outcome_content o = Some (c, v) /\ render v = None.
Proof.
  intros Ho. unfold respond.
  destruct (outcome_content o) as [[c v]|] eqn:E.
  - destruct (render v) eqn:R; [left|by right; eauto]. split; [|by eexists]. cbn [status_code].
    destruct o as [[]|]; cbn in E; simplify_eq; first [by right | by left].
  - by destruct o as [[]|].
Qed.

Lemma step_outcomes_ok s s' : step s s' -> outcomes_ok s -> outcomes_ok s'.
Proof.
  intros [| |r q w log res w' E] Hs; cbn [outcomes_ok] in *; [done|constructor|].
  apply Forall_app; split; [done|]. apply Forall_singleton.
  destruct res as [e|v]; [|done]. by apply (handle_raises r w e w').
Qed.

Lemma star_outcomes_ok s s' : star s s' -> outcomes_ok s -> outcomes_ok s'.
Proof. induction 1; eauto using step_outcomes_ok. Qed.

(** *** os.environ and .env *)

Lemma assoc_get_set {V} (d : list (pystr * V)) k v k' :
  assoc_get (assoc_set d k v) k' = if decide (k' = k) then Some v else assoc_get d k'.
Proof.
  induction d as [|[k1 v1] d IH]; cbn [assoc_set assoc_get]; [by case_decide|].
  destruct (decide (k = k1)) as [->|Hk]; cbn [assoc_get]; [by destruct (decide (k' = k1))|].
  rewrite IH. destruct (decide (k' = k1)), (decide (k' = k)); subst; congruence.
Qed.

Lemma assoc_get_not_in {V} (d : list (pystr * V)) k : k ∉ d.*1 -> assoc_get d k = None.
Proof.
  induction d as [|[k1 v1] d IH]; cbn [assoc_get fmap list_fmap]; [done|].
  rewrite not_elem_of_cons. intros [Hk Hd]. rewrite decide_False by done. by apply IH.
Qed.

Lemma assoc_set_keys {V} (d : list (pystr * V)) k v :
  (assoc_set d k v).*1 = if decide (k ∈ d.*1) then d.*1 else d.*1 ++ [k].
Proof.
  induction d as [|[k1 v1] d IH]; cbn [assoc_set]; [done|].
  destruct (decide (k = k1)) as [->|Hk]; cbn [fmap list_fmap fst].
  - rewrite decide_True by set_solver. done.
  - rewrite IH. destruct (decide (k ∈ d.*1)), (decide (k ∈ k1 :: d.*1)); set_solver.
Qed.

Lemma dotenv_values_nodup bindings : NoDup (dotenv_values bindings).*1.
Proof.
  unfold dotenv_values. generalize (NoDup_nil_2 (A := pystr)).
  change (@nil pystr) with ((@nil (pystr * option pystr)).*1) at 1.
  generalize (@nil (pystr * option pystr)) as acc.
  induction bindings as [|[k v] bindings IH]; intros acc Hacc; cbn [foldl]; [done|].
  apply IH. rewrite assoc_set_keys. case_decide; [done|].
  apply NoDup_app. split_and!; [done| |by apply NoDup_singleton]. set_solver.
Qed.

Lemma dotenv_values_get bindings k :
  assoc_get (dotenv_values bindings) k = last_binding bindings k.
Proof.
  unfold dotenv_values.
  cut (forall acc, assoc_get (foldl (fun acc kv => assoc_set acc kv.1 kv.2) acc bindings) k
                   = match last_binding bindings k with Some v => Some v | None => assoc_get acc k end);
    [intros H; rewrite H; by destruct (last_binding bindings k)|].
  induction bindings as [|[k1 v1] bindings IH]; intros acc; cbn [foldl last_binding]; [done|].
  rewrite IH, assoc_get_set. cbn [fst snd].
  by destruct (last_binding bindings k), (decide (k = k1)).
Qed.

(** With [override=False] the process environment wins over the file. *)
Lemma set_as_environment_variables_get values environ k :
  NoDup values.*1 ->
  getenv (set_as_environment_variables values environ) k
  = match getenv environ k with
    | Some v => Some v
    | None => match assoc_get values k with Some (Some v) => Some v | _ => None end
    end.
Proof.
  unfold set_as_environment_variables.
  revert environ; induction values as [|[k1 v1] values IH]; intros environ Hnd; cbn [foldl assoc_get].
  { by destruct (getenv environ k). }
  inversion Hnd as [|? ? Hk1 Hnd']; subst. cbn [fst snd] in *. rewrite IH by done.
  case_bool_decide as Hin.
  - case_decide; subst; [|done]. by destruct Hin as [? ->].
  - destruct v1 as [x|].
    + unfold getenv. rewrite assoc_get_set. case_decide; subst; [|done].
      by destruct (assoc_get environ k1) eqn:E; [destruct Hin; eexists|].
    + case_decide; subst; [|done]. rewrite assoc_get_not_in by done.
      by destruct (getenv environ k1).
Qed.

Lemma getenv_load_dotenv bindings environ k :
  getenv (load_dotenv bindings environ) k
  = match getenv environ k with Some v => Some v | None => dotenv_get bindings k end.
Proof.
  unfold load_dotenv. rewrite set_as_environment_variables_get by apply dotenv_values_nodup.
  rewrite dotenv_values_get. unfold dotenv_get. done.
Qed.

(** The key config.py reads, after the [load_dotenv()] of main.py and
    the one of config.py: the process environment's value when the
    variable is set there (even empty), otherwise the value of its last
    binding in [.env]. *)
Lemma config_key_source bindings environ k :
  getenv (load_dotenv bindings (load_dotenv bindings environ)) k
  = match getenv environ k with Some v => Some v | None => dotenv_get bindings k end.
Proof. rewrite !getenv_load_dotenv. by destruct (getenv environ k), (dotenv_get bindings k). Qed.


(** *** The claims *)

(** C35: [python main.py] reads [GEMINI_API_KEY] from the process
    environment when it is set there, even empty, and from the last
    binding of [.env] otherwise; when that key is missing or empty it
    prints the error and exits with status 1 (an empty exported variable
    hides the key of [.env]); otherwise it logs the last four characters
    of that key and its banner, and serves. *)
Theorem main_key_source bindings environ :
  match match getenv environ (u "GEMINI_API_KEY") with
        | Some v => Some v
        | None => dotenv_get bindings (u "GEMINI_API_KEY")
        end with
  | None | Some [] =>
      (run_main bindings environ).2 = Some 1%Z
      /\ (run_main bindings environ).1.2
         = [u "Lỗi: Không tìm thấy GEMINI_API_KEY. Hãy chắc chắn file .env đã được cấu hình."]
  | Some k =>
      (run_main bindings environ).2 = None
      /\ (run_main bindings environ).1.2 = [u "API_KEY: ..." ++ last4 k; main_banner]
  end.
Proof.
  unfold run_main, import_config. cbv zeta. rewrite config_key_source.
  by destruct (match getenv environ _ with Some v => Some v | None => _ end) as [[|c k]|].
Qed.

(** C33: in every state a started process reaches, no exception other
    than an [HTTPException] of the code (status 400, 404 or 500) has
    escaped an endpoint: every response sent is a success or the JSON
    detail of such an exception, unless FastAPI could not render the
    content the endpoint gave (a non-finite float or a lone surrogate),
    the one case answered by the plain-text "Internal Server Error". *)
Theorem server_responses_invariant q w log :
  reachable (Serving q w log) ->
  Forall (fun o => code_response (respond o)
                   \/ exists c v, outcome_content o = Some (c, v) /\ render v = None) log.
Proof.
  intros (b & env & q0 & w0 & Hs). pose proof (star_outcomes_ok _ _ Hs I) as H. cbn in H.
  eapply Forall_impl; [exact H|]. intros o. apply respond_code.
Qed.


(** ** Witnesses *)

Lemma server_responses_invariant_witness :
  Forall (fun o => code_response (respond o)
                   \/ exists c v, outcome_content o = Some (c, v) /\ render v = None)
    [(handle GetHealth (set_stdout sample_world
                          (w_stdout sample_world ++ (run_main [] sample_environ).1.2))).1].
Proof.
  apply (server_responses_invariant []
           (handle GetHealth (set_stdout sample_world
                                (w_stdout sample_world ++ (run_main [] sample_environ).1.2))).2).
  exists [], sample_environ, [GetHealth], sample_world.
  eapply star_step.
  { apply (step_start [] sample_environ [GetHealth] sample_world
             (run_main [] sample_environ).1.1 (run_main [] sample_environ).1.2).
    vm_compute. reflexivity. }
  eapply star_step; [|apply star_refl].
  apply (step_serve GetHealth [] _ []
           (handle GetHealth (set_stdout sample_world
                                (w_stdout sample_world ++ (run_main [] sample_environ).1.2))).1
           (handle GetHealth (set_stdout sample_world
                                (w_stdout sample_world ++ (run_main [] sample_environ).1.2))).2).
  by destruct (handle GetHealth _).
Defined.

